(** * Employee / office record service: a model of the route handlers

    The development follows the two source units of the service:
    the Mongoose schemas ([Employee], [Office]) and the Express route
    handlers built on them.  Route handlers are pure functions from the
    caller, the request and the collections to a response and the new
    collections; an exception thrown inside a [try] block is a value of
    type [exn] that the handler's [catch] turns into a response.

    Conventions.
    - Request bodies are well-typed JSON: a field is either absent
      ([None], JavaScript [undefined]) or carries a value of the type its
      schema path declares.  The body of an update, which the route hands
      to the mapper as it is, is the list of its keys with their values
      in key order, or a body with update operators.
    - Course counts are integers ([Z]) that a binary64 number holds
      exactly, as the numbers of a parsed body are; the dashboard adds
      and divides them as binary64 numbers, as the runtime does.  Text is
      ASCII, one character per code unit.
    - Instants are milliseconds since the epoch ([Z]); every place that
      reads the clock has a reading of its own.
    - [populate] decorates the payload: a payload says which paths were
      populated.  The referenced document itself is looked up where
      control flow depends on it (the single-employee read). *)

From Stdlib Require Import ZArith Zpower List String Ascii Bool Lia.
From Stdlib Require Import QArith Qpower Lqa.
From Stdlib Require Import DecimalString.
From Stdlib Require Import SpecFloat.
Import ListNotations.

Local Open Scope string_scope.
Local Open Scope Z_scope.

(* ================================================================== *)
(** ** The language runtime: strings, truthiness, binary64 numbers     *)
(* ================================================================== *)

Module JS.

(** [undefined] and the empty string are falsy; other strings are truthy. *)
Definition truthy_string (v : option string) : bool :=
  match v with
  | Some s => negb (String.eqb s "")
  | None => false
  end.

(** [undefined] and [false] are falsy. *)
Definition truthy_bool (v : option bool) : bool :=
  match v with
  | Some b => b
  | None => false
  end.

(** [a !== b] on strings. *)
Definition strict_neq (a b : string) : bool := negb (String.eqb a b).

(** [a !== b] where [b] may be [undefined]. *)
Definition strict_neq_opt (a : string) (b : option string) : bool :=
  match b with
  | Some s => strict_neq a s
  | None => true
  end.

(** [Array.prototype.join]. *)
Fixpoint join (sep : string) (l : list string) : string :=
  match l with
  | [] => ""
  | x :: rest =>
      match rest with
      | [] => x
      | _ :: _ => x ++ sep ++ join sep rest
      end
  end.

Definition is_space (c : ascii) : bool :=
  let n := N_of_ascii c in
  ((9 <=? n) && (n <=? 13) || (n =? 32))%N.

Fixpoint trimStart (s : string) : string :=
  match s with
  | EmptyString => EmptyString
  | String c s' => if is_space c then trimStart s' else s
  end.

Fixpoint trimEnd (s : string) : string :=
  match s with
  | EmptyString => EmptyString
  | String c s' =>
      match trimEnd s' with
      | EmptyString => if is_space c then EmptyString else String c EmptyString
      | t => String c t
      end
  end.

(** [String.prototype.trim] (ASCII white space). *)
Definition trim (s : string) : string := trimEnd (trimStart s).

Definition strlen (s : string) : Z := Z.of_nat (String.length s).

(** *** Numbers: IEEE-754 binary64 *)

Definition double := spec_float.
Definition prec : Z := 53.
Definition emax : Z := 1024.

(** The double nearest to an integer (exact below 2^53). *)
Definition of_int (z : Z) : double := binary_normalize prec emax z 0 false.
Definition add : double -> double -> double := SFadd prec emax.
Definition mul : double -> double -> double := SFmul prec emax.
Definition div : double -> double -> double := SFdiv prec emax.

(** [x < y], false when either is [NaN]. *)
Definition lt : double -> double -> bool := SFltb.

Definition digits (n : Z) : string :=
  NilEmpty.string_of_uint (N.to_uint (Z.to_N n)).

Fixpoint zeros (k : nat) : string :=
  match k with
  | O => ""
  | S k' => String "0" (zeros k')
  end.

(** Steps 8 to 10 of [Number.prototype.toFixed] for [f = 2]: the decimal
    digits of [n], padded on the left to three digits, with a point
    before the last two. *)
Definition fixed2 (n : Z) : string :=
  let m := digits n in
  let k := String.length m in
  let m := if (k <=? 2)%nat then zeros (3 - k) ++ m else m in
  let k := String.length m in
  substring 0 (k - 2) m ++ "." ++ substring (k - 2) 2 m.

(** The integer [n] for which [n / 100 - m * 2^e] is closest to zero,
    the larger one on a tie. *)
Definition nearest_hundredth (m : positive) (e : Z) : Z :=
  if 0 <=? e then 100 * Z.pos m * 2 ^ e
  else (200 * Z.pos m + 2 ^ (- e)) / 2 ^ (1 - e).

(** [10^21 <= m * 2^e]. *)
Definition at_least_1e21 (m : positive) (e : Z) : bool :=
  if 0 <=? e then 10 ^ 21 <=? Z.pos m * 2 ^ e
  else 10 ^ 21 * 2 ^ (- e) <=? Z.pos m.

Section ToFixed.
(** [Number::toString], which [toFixed] falls back to for values that
    are not finite or not below 10^21. *)
Variable Number_toString : double -> string.

(** [x.toFixed(2)]. *)
Definition toFixed2 (x : double) : string :=
  match x with
  | S754_zero _ => fixed2 0
  | S754_finite s m e =>
      if at_least_1e21 m e then Number_toString x
      else (if s then "-" else "") ++ fixed2 (nearest_hundredth m e)
  | _ => Number_toString x
  end.
End ToFixed.

End JS.

(* ================================================================== *)
(** ** What the platform decides                                       *)
(* ================================================================== *)

(** Behaviour that belongs to the JavaScript engine or to the release of
    the object-document mapper, and which the service only calls. *)
Class Platform := {
  (** [new Date(s).getTime()], [None] for an invalid date. *)
  Date_parse : string -> option Z;
  (** [Number::toString]. *)
  Number_toString : JS.double -> string;
  (** The mapper's cast of a string to a [Date] path, [None] on failure. *)
  castDateText : string -> option Z;
  (** The message of a cast failure reported inside a validation error,
      from the kind, the offending value and the path. *)
  castErrorMessage : string -> string -> string -> string
}.

(* ================================================================== *)
(** ** The object-document mapper                                      *)
(* ================================================================== *)

(** The model operations the routes call, as the mapper documents them:
    - [create] casts the object, applies defaults, validates every path of
      the new document with [this] bound to it, runs the [pre('save')]
      hooks and inserts; violations are collected in one validation
      error;
    - [findById], [findByIdAndUpdate] and [findByIdAndDelete] cast the id
      first and reject with a cast error of kind [ObjectId] when it is
      malformed;
    - [findByIdAndUpdate] casts the update, and with [runValidators]
      validates the paths the update sets, and only those, with [this]
      bound to the query; it runs no document middleware;
    - [find] casts its conditions and rejects an invalid date. *)

Module Mongoose.

(** An [ObjectId] is kept as its 24-digit lower-case hexadecimal text,
    which is what [toString()] returns. *)
Definition ObjectId := string.

(** Errors a model operation rejects with.  A validation error carries
    the messages of [err.errors] in order; a server error is one the
    store itself raises. *)
Inductive exn :=
| CastError (kind value path : string)
| ValidationError (errors : list string)
| TypeError
| MongoServerError (reason : string).

Definition err_name (e : exn) : string :=
  match e with
  | CastError _ _ _ => "CastError"
  | ValidationError _ => "ValidationError"
  | TypeError => "TypeError"
  | MongoServerError _ => "MongoServerError"
  end.

Definition err_kind (e : exn) : option string :=
  match e with
  | CastError k _ _ => Some k
  | _ => None
  end.

(** [Object.values(err.errors).map(val => val.message)]. *)
Definition err_messages (e : exn) : list string :=
  match e with
  | ValidationError msgs => msgs
  | _ => []
  end.

Definition result (A : Type) : Type := (exn + A)%type.
Definition ret {A} (a : A) : result A := inr a.
Definition throw {A} (e : exn) : result A := inl e.
Definition bind {A B} (m : result A) (k : A -> result B) : result B :=
  match m with
  | inl e => inl e
  | inr a => k a
  end.

Definition is_hex (c : ascii) : bool :=
  let n := N_of_ascii c in
  ((48 <=? n) && (n <=? 57) || (65 <=? n) && (n <=? 70)
   || (97 <=? n) && (n <=? 102))%N.

Definition lower (c : ascii) : ascii :=
  let n := N_of_ascii c in
  if ((65 <=? n) && (n <=? 90))%N then ascii_of_N (n + 32) else c.

Fixpoint all_hex (s : string) : bool :=
  match s with
  | EmptyString => true
  | String c s' => is_hex c && all_hex s'
  end.

Fixpoint lowercase (s : string) : string :=
  match s with
  | EmptyString => EmptyString
  | String c s' => String (lower c) (lowercase s')
  end.

(** A string casts to an [ObjectId] when it is 24 hexadecimal digits. *)
Definition castObjectId (s : string) : option ObjectId :=
  if (String.length s =? 24)%nat && all_hex s then Some (lowercase s) else None.

(** A date as a JSON body carries it: text or a number of milliseconds. *)
Inductive date_input :=
| DateText (s : string)
| DateMillis (t : Z).

Definition date_input_text (d : date_input) : string :=
  match d with
  | DateText s => s
  | DateMillis t => NilZero.string_of_int (Z.to_int t)
  end.

(** A [Date] holds an instant within 8.64e15 ms of the epoch. *)
Definition valid_time (t : Z) : bool := Z.abs t <=? 8640000000000000.

Definition castDate `{Platform} (d : date_input) : option Z :=
  match d with
  | DateText s => castDateText s
  | DateMillis t => if valid_time t then Some t else None
  end.

(** The outcome of casting an optional raw value to its path:
    [undefined], [null], a failure, or a value. *)
Inductive casted (A : Type) :=
| Absent
| Null
| Bad (raw : string)
| Good (a : A).
Arguments Absent {A}.
Arguments Null {A}.
Arguments Bad {A} raw.
Arguments Good {A} a.

Definition cast_id (v : option string) : casted ObjectId :=
  match v with
  | None => Absent
  | Some s => match castObjectId s with
              | Some o => Good o
              | None => Bad s
              end
  end.

(** A [Date] path casts the empty string to [null]. *)
Definition cast_date `{Platform} (v : option date_input) : casted Z :=
  match v with
  | None => Absent
  | Some (DateText "") => Null
  | Some d => match castDate d with
              | Some t => Good t
              | None => Bad (date_input_text d)
              end
  end.

(** The cast failure of a path, if any, as an exception. *)
Definition cast_failure {A} (kind path : string) (c : casted A) : option exn :=
  match c with
  | Bad raw => Some (CastError kind raw path)
  | _ => None
  end.

(** The message a cast failure contributes to a validation error. *)
Definition cast_messages `{Platform} {A} (kind path : string) (c : casted A)
  : list string :=
  match c with
  | Bad raw => [castErrorMessage kind raw path]
  | _ => []
  end.

Definition good {A} (c : casted A) : option A :=
  match c with
  | Good a => Some a
  | _ => None
  end.

(** The [required] validator of a path: [undefined] and [null] violate
    it.  A path that failed to cast is not validated. *)
Definition required_messages {A} (required : string) (c : casted A)
  : list string :=
  match c with
  | Absent | Null => [required]
  | _ => []
  end.

(** What a [Date] path without [required] stores: the value, [null], or
    what it held. *)
Definition stored_date (c : casted Z) (old : option Z) : option Z :=
  match c with
  | Good t => Some t
  | Null => None
  | _ => old
  end.

(** A path left [undefined] takes its default. *)
Definition or_default {A} (v : option A) (d : A) : A :=
  match v with
  | Some a => a
  | None => d
  end.

Definition casted_or_default {A} (c : casted A) (d : A) : casted A :=
  match c with
  | Absent => Good d
  | _ => c
  end.

(** The first exception of a list of optional failures. *)
Fixpoint first_failure (l : list (option exn)) : option exn :=
  match l with
  | [] => None
  | Some e :: _ => Some e
  | None :: rest => first_failure rest
  end.

Section Collection.
Context {A : Type}.
Variable id_of : A -> ObjectId.

(** The first document of the collection with the given [_id]. *)
Definition lookup (o : ObjectId) (coll : list A) : option A :=
  find (fun d => String.eqb (id_of d) o) coll.

(** [Model.findById(id)]: a malformed id is a cast error of kind
    [ObjectId] at path [_id]. *)
Definition findById (id : string) (coll : list A) : result (option A) :=
  match castObjectId id with
  | None => throw (CastError "ObjectId" id "_id")
  | Some o => ret (lookup o coll)
  end.

(** Replace the first document with the given [_id] by its image. *)
Fixpoint modify (o : ObjectId) (f : A -> A) (coll : list A) : list A :=
  match coll with
  | [] => []
  | d :: rest =>
      if String.eqb (id_of d) o then f d :: rest
      else d :: modify o f rest
  end.

(** Remove the first document with the given [_id]. *)
Fixpoint remove (o : ObjectId) (coll : list A) : list A :=
  match coll with
  | [] => []
  | d :: rest =>
      if String.eqb (id_of d) o then rest
      else d :: remove o rest
  end.

(** [Model.findByIdAndDelete(id)]. *)
Definition findByIdAndDelete (id : string) (coll : list A)
  : result (option A * list A) :=
  match castObjectId id with
  | None => throw (CastError "ObjectId" id "_id")
  | Some o => ret (lookup o coll, remove o coll)
  end.
End Collection.

End Mongoose.

Notation "x <- m ;; k" := (Mongoose.bind m (fun x => k))
  (at level 61, m at next level, right associativity).


(* ================================================================== *)
(** ** The Employee schema and model                                   *)
(* ================================================================== *)

Module Employee.
Import Mongoose.

(** A stored employee document.  [createdAt] and [updatedAt] have no
    [required]: an update may set them to [null]. *)
Record t := mk {
  _id : ObjectId;
  name : string;
  officeId : ObjectId;
  isRegisteredOnIGOT : bool;
  coursesEnrolled : Z;
  coursesCompleted : Z;
  reportDate : Z;
  isFrozen : bool;
  createdBy : ObjectId;
  createdAt : option Z;
  updatedAt : option Z
}.

(** An object with schema paths as keys, before casting: the body of
    [POST /api/employees] and the object the route hands to [create].
    The keys are written in schema order, which is the order of the
    object the route builds; [None] is a key whose value is
    [undefined]. *)
Record fields := mkFields {
  f_name : option string;
  f_officeId : option string;
  f_isRegisteredOnIGOT : option bool;
  f_coursesEnrolled : option Z;
  f_coursesCompleted : option Z;
  f_reportDate : option date_input;
  f_isFrozen : option bool;
  f_createdBy : option string;
  f_createdAt : option date_input;
  f_updatedAt : option date_input
}.

(** One key of the body of an update, with its value. *)
Inductive entry :=
| name_is (v : string)
| officeId_is (v : string)
| isRegisteredOnIGOT_is (v : bool)
| coursesEnrolled_is (v : Z)
| coursesCompleted_is (v : Z)
| reportDate_is (v : date_input)
| isFrozen_is (v : bool)
| createdBy_is (v : string)
| createdAt_is (v : date_input)
| updatedAt_is (v : date_input).

Definition key (e : entry) : string :=
  match e with
  | name_is _ => "name"
  | officeId_is _ => "officeId"
  | isRegisteredOnIGOT_is _ => "isRegisteredOnIGOT"
  | coursesEnrolled_is _ => "coursesEnrolled"
  | coursesCompleted_is _ => "coursesCompleted"
  | reportDate_is _ => "reportDate"
  | isFrozen_is _ => "isFrozen"
  | createdBy_is _ => "createdBy"
  | createdAt_is _ => "createdAt"
  | updatedAt_is _ => "updatedAt"
  end.

(** [obj[key] = value]: a key the object has keeps its place and takes
    the new value; a new key goes last. *)
Fixpoint put (e : entry) (obj : list entry) : list entry :=
  match obj with
  | [] => [e]
  | x :: rest =>
      if String.eqb (key x) (key e) then e :: rest else x :: put e rest
  end.

(** The object a body denotes: its keys in order, each once. *)
Definition object_of (body : list entry) : list entry :=
  fold_left (fun obj e => put e obj) body [].

(** [req.body] of [PUT /api/employees/:id], which the route passes to
    [findByIdAndUpdate] as it is.
    - [Document]: no key is an update operator; the mapper takes the
      body as one [$set] of its keys.
    - [Operators]: any other body: some key is an update operator
      ([$inc], [$rename], [$max], ...), or names [_id].  The mapper
      casts the body and the store applies it; validators run on what
      [$set] and [$unset] carry and on nothing else.  The routes never
      look inside such a body, so it is kept as what it does to the
      document it meets: an error, or another document, taken to hold
      a value of its type at every path as stored documents do. *)
Inductive update :=
| Document (body : list entry)
| Operators (effect : t -> result t).

(** What [Date.now()] returns at each place where the creation of an
    employee reads the clock. *)
Record clock := mkClock {
  (** [reportDate || Date.now()] in the route. *)
  route_now : Z;
  (** The schema defaults of the three [Date] paths, each read when the
      path is [undefined]. *)
  reportDate_default : Z;
  createdAt_default : Z;
  updatedAt_default : Z;
  (** [this.updatedAt = Date.now()] in the [pre('save')] hook. *)
  save_now : Z
}.

(** What a validator reads through [this]: [None] is [undefined]. *)
Record this_view := mkThis {
  this_isRegisteredOnIGOT : option bool;
  this_coursesEnrolled : option Z
}.

(** [this] is the document when a document is validated. *)
Definition document_view (registered : bool) (enrolled : Z) : this_view :=
  mkThis (Some registered) (Some enrolled).

(** [this] is the query when an update is validated; a query has none of
    the document's paths as properties. *)
Definition query_view : this_view := mkThis None None.

(** [this.isRegisteredOnIGOT ? val >= 0 : val === 0] *)
Definition coursesEnrolled_validator (this : this_view) (val : Z) : bool :=
  if JS.truthy_bool (this_isRegisteredOnIGOT this) then val >=? 0 else val =? 0.

(** [val <= this.coursesEnrolled]; a comparison with [undefined] is false. *)
Definition coursesCompleted_validator (this : this_view) (val : Z) : bool :=
  match this_coursesEnrolled this with
  | Some enrolled => val <=? enrolled
  | None => false
  end.

Definition msg_name_required : string := "Please add employee name".
Definition msg_name_maxlength : string := "Name cannot be more than 100 characters".
Definition msg_office_required : string := "Please add office".
Definition msg_coursesEnrolled : string :=
  "Courses enrolled should be 0 if not registered on iGOT platform".
Definition msg_coursesCompleted : string :=
  "Courses completed cannot be more than courses enrolled".
Definition msg_reportDate_required : string := "Report date is required".
Definition msg_createdBy_required : string := "Path `createdBy` is required.".

(** [required] and [maxlength] on [name], after [trim]. *)
Definition name_messages (v : option string) : list string :=
  match v with
  | None => [msg_name_required]
  | Some s =>
      if String.eqb s "" then [msg_name_required]
      else if 100 <? JS.strlen s then [msg_name_maxlength]
      else []
  end.

Definition enrolled_messages (this : this_view) (val : Z) : list string :=
  if coursesEnrolled_validator this val then [] else [msg_coursesEnrolled].

Definition completed_messages (this : this_view) (val : Z) : list string :=
  if coursesCompleted_validator this val then [] else [msg_coursesCompleted].

(** The setters of the schema paths on a stored document. *)
Definition set_name (v : string) (d : t) : t :=
  mk (_id d) v (officeId d) (isRegisteredOnIGOT d) (coursesEnrolled d)
     (coursesCompleted d) (reportDate d) (isFrozen d) (createdBy d)
     (createdAt d) (updatedAt d).

Definition set_officeId (v : ObjectId) (d : t) : t :=
  mk (_id d) (name d) v (isRegisteredOnIGOT d) (coursesEnrolled d)
     (coursesCompleted d) (reportDate d) (isFrozen d) (createdBy d)
     (createdAt d) (updatedAt d).

Definition set_isRegisteredOnIGOT (v : bool) (d : t) : t :=
  mk (_id d) (name d) (officeId d) v (coursesEnrolled d)
     (coursesCompleted d) (reportDate d) (isFrozen d) (createdBy d)
     (createdAt d) (updatedAt d).

Definition set_coursesEnrolled (v : Z) (d : t) : t :=
  mk (_id d) (name d) (officeId d) (isRegisteredOnIGOT d) v
     (coursesCompleted d) (reportDate d) (isFrozen d) (createdBy d)
     (createdAt d) (updatedAt d).

Definition set_coursesCompleted (v : Z) (d : t) : t :=
  mk (_id d) (name d) (officeId d) (isRegisteredOnIGOT d) (coursesEnrolled d)
     v (reportDate d) (isFrozen d) (createdBy d)
     (createdAt d) (updatedAt d).

Definition set_reportDate (v : Z) (d : t) : t :=
  mk (_id d) (name d) (officeId d) (isRegisteredOnIGOT d) (coursesEnrolled d)
     (coursesCompleted d) v (isFrozen d) (createdBy d)
     (createdAt d) (updatedAt d).

Definition set_isFrozen (v : bool) (d : t) : t :=
  mk (_id d) (name d) (officeId d) (isRegisteredOnIGOT d) (coursesEnrolled d)
     (coursesCompleted d) (reportDate d) v (createdBy d)
     (createdAt d) (updatedAt d).

Definition set_createdBy (v : ObjectId) (d : t) : t :=
  mk (_id d) (name d) (officeId d) (isRegisteredOnIGOT d) (coursesEnrolled d)
     (coursesCompleted d) (reportDate d) (isFrozen d) v
     (createdAt d) (updatedAt d).

Definition set_createdAt (v : option Z) (d : t) : t :=
  mk (_id d) (name d) (officeId d) (isRegisteredOnIGOT d) (coursesEnrolled d)
     (coursesCompleted d) (reportDate d) (isFrozen d) (createdBy d)
     v (updatedAt d).

Definition set_updatedAt (v : option Z) (d : t) : t :=
  mk (_id d) (name d) (officeId d) (isRegisteredOnIGOT d) (coursesEnrolled d)
     (coursesCompleted d) (reportDate d) (isFrozen d) (createdBy d)
     (createdAt d) v.

Section Model.
Context `{Platform}.

(** The messages of [err.errors] for a new document.  A path that fails
    to cast is recorded when the object is read, before any validator
    runs, and is not validated afterwards; the validators then run in
    the order of the object's keys, which is the schema's.  (A path left
    to its default is validated after the keys; of these only
    [coursesCompleted] can fail, and in an object the routes build no
    message follows it.)  Validators see the document through [this],
    after casting and defaults. *)
Definition document_messages (doc : fields) (now : clock) : list string :=
  let isRegisteredOnIGOT := or_default (f_isRegisteredOnIGOT doc) false in
  let coursesEnrolled := or_default (f_coursesEnrolled doc) 0 in
  let coursesCompleted := or_default (f_coursesCompleted doc) 0 in
  let this := document_view isRegisteredOnIGOT coursesEnrolled in
  let officeId := cast_id (f_officeId doc) in
  let reportDate := cast_date (f_reportDate doc) in
  let createdBy := cast_id (f_createdBy doc) in
  (cast_messages "ObjectId" "officeId" officeId
   ++ cast_messages "date" "reportDate" reportDate
   ++ cast_messages "ObjectId" "createdBy" createdBy
   ++ cast_messages "date" "createdAt" (cast_date (f_createdAt doc))
   ++ cast_messages "date" "updatedAt" (cast_date (f_updatedAt doc))
   ++ name_messages (option_map JS.trim (f_name doc))
   ++ required_messages msg_office_required officeId
   ++ enrolled_messages this coursesEnrolled
   ++ completed_messages this coursesCompleted
   ++ required_messages msg_reportDate_required
        (casted_or_default reportDate (reportDate_default now))
   ++ required_messages msg_createdBy_required createdBy)%list.

(** [Employee.create(doc)]: cast, apply defaults, validate the document,
    run the [pre('save')] hook, insert.  [fresh] is the [_id] the driver
    generates. *)
Definition create (doc : fields) (now : clock) (fresh : ObjectId) (coll : list t)
  : result (t * list t) :=
  match document_messages doc now,
        option_map JS.trim (f_name doc),
        cast_id (f_officeId doc),
        casted_or_default (cast_date (f_reportDate doc)) (reportDate_default now),
        cast_id (f_createdBy doc)
  with
  | [], Some name, Good officeId, Good reportDate, Good createdBy =>
      let isRegisteredOnIGOT := or_default (f_isRegisteredOnIGOT doc) false in
      let coursesEnrolled := or_default (f_coursesEnrolled doc) 0 in
      let coursesCompleted := or_default (f_coursesCompleted doc) 0 in
      let isFrozen := or_default (f_isFrozen doc) false in
      let createdAt :=
        stored_date (cast_date (f_createdAt doc)) (Some (createdAt_default now)) in
      (* EmployeeSchema.pre('save'): this.updatedAt = Date.now() *)
      let updatedAt := Some (save_now now) in
      let employee :=
        mk fresh name officeId isRegisteredOnIGOT coursesEnrolled
           coursesCompleted reportDate isFrozen createdBy createdAt updatedAt in
      ret (employee, (coll ++ [employee])%list)
  | errors, _, _, _, _ => throw (ValidationError errors)
  end.

(** The cast failure of one key of an update, if it has one. *)
Definition entry_cast_failure (e : entry) : option exn :=
  match e with
  | officeId_is v => cast_failure "ObjectId" "officeId" (cast_id (Some v))
  | reportDate_is v => cast_failure "date" "reportDate" (cast_date (Some v))
  | createdBy_is v => cast_failure "ObjectId" "createdBy" (cast_id (Some v))
  | createdAt_is v => cast_failure "date" "createdAt" (cast_date (Some v))
  | updatedAt_is v => cast_failure "date" "updatedAt" (cast_date (Some v))
  | _ => None
  end.

(** Casting an update rejects with the first failure. *)
Definition cast_error (obj : list entry) : option exn :=
  first_failure (map entry_cast_failure obj).

(** The update validators of one key: those of its schema path, on the
    cast value, with [this] the query.  [trim] runs on [name]; a
    [reportDate] cast to [null] violates [required]. *)
Definition entry_messages (e : entry) : list string :=
  match e with
  | name_is v => name_messages (Some (JS.trim v))
  | coursesEnrolled_is v => enrolled_messages query_view v
  | coursesCompleted_is v => completed_messages query_view v
  | reportDate_is v =>
      required_messages msg_reportDate_required (cast_date (Some v))
  | _ => []
  end.

(** Update validators run on the keys the update sets, and only on
    those.  The mapper collects the keys of the body from the last to
    the first, and the messages come in that order. *)
Definition update_messages (obj : list entry) : list string :=
  flat_map entry_messages (rev obj).

(** [$set] of one cast key.  A [reportDate] cast to [null] does not pass
    the validators, with which every body of a request is applied. *)
Definition set_entry (e : entry) (d : t) : t :=
  match e with
  | name_is v => set_name (JS.trim v) d
  | officeId_is v => set_officeId (or_default (castObjectId v) (officeId d)) d
  | isRegisteredOnIGOT_is v => set_isRegisteredOnIGOT v d
  | coursesEnrolled_is v => set_coursesEnrolled v d
  | coursesCompleted_is v => set_coursesCompleted v d
  | reportDate_is v =>
      set_reportDate (or_default (good (cast_date (Some v))) (reportDate d)) d
  | isFrozen_is v => set_isFrozen v d
  | createdBy_is v => set_createdBy (or_default (castObjectId v) (createdBy d)) d
  | createdAt_is v => set_createdAt (stored_date (cast_date (Some v)) (createdAt d)) d
  | updatedAt_is v => set_updatedAt (stored_date (cast_date (Some v)) (updatedAt d)) d
  end.

(** [$set] of the cast update on a document. *)
Definition apply (obj : list entry) (d : t) : t :=
  fold_left (fun d e => set_entry e d) obj d.

(** [Employee.findByIdAndUpdate(id, upd, { new: true, runValidators })]:
    no document middleware runs, so the [pre('save')] hook does not.  The
    store refuses an update that would change [_id]. *)
Definition findByIdAndUpdate (id : string) (upd : update) (runValidators : bool)
  (coll : list t) : result (option t * list t) :=
  match castObjectId id with
  | None => throw (CastError "ObjectId" id "_id")
  | Some o =>
      match upd with
      | Document body =>
          let obj := object_of body in
          match cast_error obj with
          | Some e => throw e
          | None =>
              let errors := if runValidators then update_messages obj else [] in
              match errors with
              | _ :: _ => throw (ValidationError errors)
              | [] =>
                  let coll' := modify _id o (apply obj) coll in
                  ret (lookup _id o coll', coll')
              end
          end
      | Operators effect =>
          match lookup _id o coll with
          | None => ret (None, coll)
          | Some d =>
              d' <- effect d ;;
              if String.eqb (_id d') (_id d)
              then
                let coll' := modify _id o (fun _ => d') coll in
                ret (lookup _id o coll', coll')
              else throw (MongoServerError "_id is immutable")
          end
      end
  end.

(** The conditions the routes pass to [Employee.find]. *)
Record conditions := mkConditions {
  c_officeId : option ObjectId;
  (** [{ $gte, $lte }], each a [Date] ([None]: an invalid date). *)
  c_reportDate : option (option Z * option Z)
}.

Definition matches (o : option ObjectId) (range : option (Z * Z)) (d : t) : bool :=
  match o with
  | Some office => String.eqb (officeId d) office
  | None => true
  end
  && match range with
     | Some (gte, lte) => (gte <=? reportDate d) && (reportDate d <=? lte)
     | None => true
     end.

(** [Employee.find(conditions)], in collection order. *)
Definition find (c : conditions) (coll : list t) : result (list t) :=
  match c_reportDate c with
  | None => ret (filter (matches (c_officeId c) None) coll)
  | Some (Some gte, Some lte) =>
      ret (filter (matches (c_officeId c) (Some (gte, lte))) coll)
  | Some (None, _) => throw (CastError "date" "Invalid Date" "reportDate")
  | Some (_, None) => throw (CastError "date" "Invalid Date" "reportDate")
  end.

End Model.
End Employee.


(* ================================================================== *)
(** ** The Office schema and model                                     *)
(* ================================================================== *)

Module Office.
Import Mongoose.

Record t := mk {
  _id : ObjectId;
  name : string;
  location : string;
  description : option string;
  createdBy : ObjectId;
  createdAt : option Z
}.

(** The body of [POST /api/offices] and the object the route hands to
    [create], keys in schema order. *)
Record fields := mkFields {
  f_name : option string;
  f_location : option string;
  f_description : option string;
  f_createdBy : option string;
  f_createdAt : option date_input
}.

Definition no_fields : fields := mkFields None None None None None.

(** One key of the body of an update, with its value. *)
Inductive entry :=
| name_is (v : string)
| location_is (v : string)
| description_is (v : string)
| createdBy_is (v : string)
| createdAt_is (v : date_input).

Definition key (e : entry) : string :=
  match e with
  | name_is _ => "name"
  | location_is _ => "location"
  | description_is _ => "description"
  | createdBy_is _ => "createdBy"
  | createdAt_is _ => "createdAt"
  end.

Fixpoint put (e : entry) (obj : list entry) : list entry :=
  match obj with
  | [] => [e]
  | x :: rest =>
      if String.eqb (key x) (key e) then e :: rest else x :: put e rest
  end.

Definition object_of (body : list entry) : list entry :=
  fold_left (fun obj e => put e obj) body [].

(** [req.body] of [PUT /api/offices/:id], as for employees. *)
Inductive update :=
| Document (body : list entry)
| Operators (effect : t -> result t).

Definition msg_name_required : string := "Please add an office name".
Definition msg_name_maxlength : string := "Name cannot be more than 100 characters".
Definition msg_location_required : string := "Please add a location".
Definition msg_createdBy_required : string := "Path `createdBy` is required.".

Definition name_messages (v : option string) : list string :=
  match v with
  | None => [msg_name_required]
  | Some s =>
      if String.eqb s "" then [msg_name_required]
      else if 100 <? JS.strlen s then [msg_name_maxlength]
      else []
  end.

Definition location_messages (v : option string) : list string :=
  match v with
  | None => [msg_location_required]
  | Some s => if String.eqb s "" then [msg_location_required] else []
  end.

Definition set_name (v : string) (d : t) : t :=
  mk (_id d) v (location d) (description d) (createdBy d) (createdAt d).

Definition set_location (v : string) (d : t) : t :=
  mk (_id d) (name d) v (description d) (createdBy d) (createdAt d).

Definition set_description (v : option string) (d : t) : t :=
  mk (_id d) (name d) (location d) v (createdBy d) (createdAt d).

Definition set_createdBy (v : ObjectId) (d : t) : t :=
  mk (_id d) (name d) (location d) (description d) v (createdAt d).

Definition set_createdAt (v : option Z) (d : t) : t :=
  mk (_id d) (name d) (location d) (description d) (createdBy d) v.

Section Model.
Context `{Platform}.

(** The messages of [err.errors] for a new office: cast failures first,
    then the validators in the order of the object's keys. *)
Definition document_messages (doc : fields) : list string :=
  let createdBy := cast_id (f_createdBy doc) in
  (cast_messages "ObjectId" "createdBy" createdBy
   ++ cast_messages "date" "createdAt" (cast_date (f_createdAt doc))
   ++ name_messages (option_map JS.trim (f_name doc))
   ++ location_messages (option_map JS.trim (f_location doc))
   ++ required_messages msg_createdBy_required createdBy)%list.

(** [Office.create(doc)]; [now] is what the default of [createdAt]
    reads. *)
Definition create (doc : fields) (now : Z) (fresh : ObjectId) (coll : list t)
  : result (t * list t) :=
  match document_messages doc,
        option_map JS.trim (f_name doc),
        option_map JS.trim (f_location doc),
        cast_id (f_createdBy doc)
  with
  | [], Some name, Some location, Good createdBy =>
      let description := option_map JS.trim (f_description doc) in
      let createdAt := stored_date (cast_date (f_createdAt doc)) (Some now) in
      let office := mk fresh name location description createdBy createdAt in
      ret (office, (coll ++ [office])%list)
  | errors, _, _, _ => throw (ValidationError errors)
  end.

Definition entry_cast_failure (e : entry) : option exn :=
  match e with
  | createdBy_is v => cast_failure "ObjectId" "createdBy" (cast_id (Some v))
  | createdAt_is v => cast_failure "date" "createdAt" (cast_date (Some v))
  | _ => None
  end.

Definition cast_error (obj : list entry) : option exn :=
  first_failure (map entry_cast_failure obj).

Definition entry_messages (e : entry) : list string :=
  match e with
  | name_is v => name_messages (Some (JS.trim v))
  | location_is v => location_messages (Some (JS.trim v))
  | _ => []
  end.

(** As for employees: the messages come in the order of the body's keys
    from the last to the first. *)
Definition update_messages (obj : list entry) : list string :=
  flat_map entry_messages (rev obj).

Definition set_entry (e : entry) (d : t) : t :=
  match e with
  | name_is v => set_name (JS.trim v) d
  | location_is v => set_location (JS.trim v) d
  | description_is v => set_description (Some (JS.trim v)) d
  | createdBy_is v => set_createdBy (or_default (castObjectId v) (createdBy d)) d
  | createdAt_is v => set_createdAt (stored_date (cast_date (Some v)) (createdAt d)) d
  end.

Definition apply (obj : list entry) (d : t) : t :=
  fold_left (fun d e => set_entry e d) obj d.

(** [Office.findByIdAndUpdate(id, upd, { new: true, runValidators:
    true })]. *)
Definition findByIdAndUpdate (id : string) (upd : update) (coll : list t)
  : result (option t * list t) :=
  match castObjectId id with
  | None => throw (CastError "ObjectId" id "_id")
  | Some o =>
      match upd with
      | Document body =>
          let obj := object_of body in
          match cast_error obj with
          | Some e => throw e
          | None =>
              let errors := update_messages obj in
              match errors with
              | _ :: _ => throw (ValidationError errors)
              | [] =>
                  let coll' := modify _id o (apply obj) coll in
                  ret (lookup _id o coll', coll')
              end
          end
      | Operators effect =>
          match lookup _id o coll with
          | None => ret (None, coll)
          | Some d =>
              d' <- effect d ;;
              if String.eqb (_id d') (_id d)
              then
                let coll' := modify _id o (fun _ => d') coll in
                ret (lookup _id o coll', coll')
              else throw (MongoServerError "_id is immutable")
          end
      end
  end.

End Model.

(** [Office.find(conditions)]: every office, or those of one [_id], in
    collection order. *)
Definition find (id : option ObjectId) (coll : list t) : result (list t) :=
  match id with
  | Some o => ret (filter (fun d => String.eqb (_id d) o) coll)
  | None => ret coll
  end.

End Office.

(* ================================================================== *)
(** ** Requests and responses                                          *)
(* ================================================================== *)

(** [req.user], as the [protect] middleware leaves it.  [officeId] is read
    for callers other than administrators only, and those belong to an
    office. *)
Module User.
Record t := mk {
  id : Mongoose.ObjectId;
  role : string;
  officeId : Mongoose.ObjectId
}.
End User.

(** The [data] of the dashboard.  The three head counts come from array
    lengths; the two course totals are the numbers the sums produce. *)
Record summary := mkSummary {
  totalEmployees : Z;
  registeredOnIGOT : Z;
  notRegisteredOnIGOT : Z;
  totalCoursesEnrolled : JS.double;
  totalCoursesCompleted : JS.double;
  completionRate : string
}.

(** The [data] of a response.  [Populated paths d] is [d] with each of
    the paths, a pair of a path and the fields selected, replaced in
    every document by the document it refers to. *)
Inductive payload :=
| Nothing
| Null
| EmptyObject
| OneEmployee (employee : Employee.t)
| Employees (employees : list Employee.t)
| Summary (s : summary)
| OneOffice (office : Office.t)
| Populated (paths : list (string * string)) (d : payload).

(** [res.status(status).json({ success, count, data, message })]. *)
Record response := mkResponse {
  status : Z;
  success : bool;
  message : option string;
  count : option Z;
  data : payload
}.

(** The success envelope of the office list, whose [data] is a list of
    offices. *)
Record office_listing := mkListing {
  listing_status : Z;
  listing_success : bool;
  listing_count : Z;
  listing_data : list Office.t
}.

Definition failure (code : Z) (msg : string) : response :=
  mkResponse code false (Some msg) None Nothing.

Definition ok (code : Z) (d : payload) : response :=
  mkResponse code true None None d.

Definition ok_count (code : Z) (n : Z) (d : payload) : response :=
  mkResponse code true None (Some n) d.

Definition ok_message (code : Z) (d : payload) (msg : string) : response :=
  mkResponse code true (Some msg) None d.

Definition server_error : response := failure 500 "Server Error".

Definition employee_payload (e : option Employee.t) : payload :=
  match e with
  | Some e => OneEmployee e
  | None => Null
  end.

Definition office_payload (o : option Office.t) : payload :=
  match o with
  | Some o => OneOffice o
  | None => Null
  end.

(** The three [catch] blocks of the routes. *)

(** [res.status(500)] whatever the error. *)
Definition catch_any (e : Mongoose.exn) : response := server_error.

(** [if (err.kind === 'ObjectId') 404]. *)
Definition catch_ObjectId (notFound : string) (e : Mongoose.exn) : response :=
  match Mongoose.err_kind e with
  | Some k => if String.eqb k "ObjectId" then failure 404 notFound else server_error
  | None => server_error
  end.

(** [if (err.name === 'ValidationError') 400 with the joined messages]. *)
Definition catch_ValidationError (e : Mongoose.exn) : response :=
  if String.eqb (Mongoose.err_name e) "ValidationError"
  then failure 400 (JS.join ", " (Mongoose.err_messages e))
  else server_error.

(** A read-only handler: the [try] block's response, or the [catch]'s. *)
Definition try_catch (body : Mongoose.result response)
  (handler : Mongoose.exn -> response) : response :=
  match body with
  | inr r => r
  | inl e => handler e
  end.

(** A handler that may write: an exception leaves the collection as the
    handler found it. *)
Definition try_catch_write {A} (coll : list A)
  (body : Mongoose.result (response * list A))
  (handler : Mongoose.exn -> response) : response * list A :=
  match body with
  | inr r => r
  | inl e => (handler e, coll)
  end.

(* ================================================================== *)
(** ** routes/employees.js                                             *)
(* ================================================================== *)

Module EmployeeRoutes.
Import Mongoose.

Definition not_admin (user : User.t) : bool := JS.strict_neq (User.role user) "admin".

(** [reportDate || Date.now()]: [undefined], the empty string and zero
    are falsy. *)
Definition date_truthy (v : option date_input) : bool :=
  match v with
  | Some (DateText s) => negb (String.eqb s "")
  | Some (DateMillis t) => negb (t =? 0)
  | None => false
  end.

Section Handlers.
Context `{Platform}.

(** The records a caller sees: its own office's, or all for an
    administrator. *)
Definition office_scope (user : User.t) : option ObjectId :=
  if not_admin user then Some (User.officeId user) else None.

(** The two [populate] calls of the routes. *)
Definition with_office : list (string * string) :=
  [("officeId", "name location")].

Definition with_office_and_creator : list (string * string) :=
  [("officeId", "name location"); ("createdBy", "name")].

(** [GET /api/employees] *)
Definition get_employees (user : User.t) (coll : list Employee.t) : response :=
  try_catch
    (employees <- Employee.find (Employee.mkConditions (office_scope user) None) coll ;;
     ret (ok_count 200 (Z.of_nat (List.length employees))
            (Populated with_office (Employees employees))))
    catch_any.

(** [GET /api/employees/dashboard] *)
Definition get_dashboard (user : User.t) (coll : list Employee.t) : response :=
  try_catch
    (employees <- Employee.find (Employee.mkConditions (office_scope user) None) coll ;;
     let totalEmployees := Z.of_nat (List.length employees) in
     let registeredOnIGOT :=
       Z.of_nat (List.length (filter Employee.isRegisteredOnIGOT employees)) in
     let notRegisteredOnIGOT := totalEmployees - registeredOnIGOT in
     let totalCoursesEnrolled :=
       fold_left
         (fun sum emp => JS.add sum (JS.of_int (Employee.coursesEnrolled emp)))
         employees (JS.of_int 0) in
     let totalCoursesCompleted :=
       fold_left
         (fun sum emp => JS.add sum (JS.of_int (Employee.coursesCompleted emp)))
         employees (JS.of_int 0) in
     let completionRate :=
       if JS.lt (JS.of_int 0) totalCoursesEnrolled
       then JS.mul (JS.div totalCoursesCompleted totalCoursesEnrolled)
                   (JS.of_int 100)
       else JS.of_int 0 in
     ret (ok 200 (Summary (mkSummary totalEmployees registeredOnIGOT
                             notRegisteredOnIGOT totalCoursesEnrolled
                             totalCoursesCompleted
                             (JS.toFixed2 Number_toString completionRate)))))
    catch_any.

(** [new Date(v)] for a query parameter; [new Date(undefined)] is an
    invalid date. *)
Definition new_Date (v : option string) : option Z :=
  match v with
  | Some s => Date_parse s
  | None => None
  end.

(** [GET /api/employees/report] *)
Definition get_report (user : User.t) (startDate endDate : option string)
  (coll : list Employee.t) : response :=
  try_catch
    (let reportDate :=
       if JS.truthy_string startDate && JS.truthy_string endDate
       then Some (new_Date startDate, new_Date endDate)
       else None in
     employees <- Employee.find (Employee.mkConditions (office_scope user) reportDate) coll ;;
     ret (ok_count 200 (Z.of_nat (List.length employees))
            (Populated with_office_and_creator (Employees employees))))
    catch_any.

(** [GET /api/employees/:id].  [populate('officeId')] replaces the
    reference by the office document, or by [null] when there is none, and
    the ownership test dereferences it. *)
Definition get_employee (user : User.t) (id : string)
  (coll : list Employee.t) (offices : list Office.t) : response :=
  try_catch
    (employee <- findById Employee._id id coll ;;
     match employee with
     | None => ret (failure 404 "Employee not found")
     | Some employee =>
         let office := lookup Office._id (Employee.officeId employee) offices in
         if not_admin user then
           match office with
           | None => throw TypeError
           | Some office =>
               if JS.strict_neq (User.officeId user) (Office._id office)
               then ret (failure 403 "Not authorized to access this employee")
               else ret (ok 200 (Populated with_office_and_creator
                                   (OneEmployee employee)))
           end
         else ret (ok 200 (Populated with_office_and_creator (OneEmployee employee)))
     end)
    (catch_ObjectId "Employee not found").

(** The object [POST /api/employees] hands to [Employee.create]. *)
Definition new_employee (user : User.t) (body : Employee.fields)
  (now : Employee.clock) : Employee.fields :=
  let name := Employee.f_name body in
  let officeId := Employee.f_officeId body in
  let isRegisteredOnIGOT := Employee.f_isRegisteredOnIGOT body in
  let coursesEnrolled := Employee.f_coursesEnrolled body in
  let coursesCompleted := Employee.f_coursesCompleted body in
  let reportDate := Employee.f_reportDate body in
  Employee.mkFields
    name
    officeId
    isRegisteredOnIGOT
    (if JS.truthy_bool isRegisteredOnIGOT then coursesEnrolled else Some 0)
    (if JS.truthy_bool isRegisteredOnIGOT then coursesCompleted else Some 0)
    (if date_truthy reportDate then reportDate
     else Some (DateMillis (Employee.route_now now)))
    None
    (Some (User.id user))
    None
    None.

(** [POST /api/employees] *)
Definition post_employee (user : User.t) (body : Employee.fields)
  (now : Employee.clock) (fresh : ObjectId) (coll : list Employee.t)
  : response * list Employee.t :=
  try_catch_write coll
    (if not_admin user
        && JS.strict_neq_opt (User.officeId user) (Employee.f_officeId body)
     then ret (failure 403 "Not authorized to add employees to this office", coll)
     else
       created <- Employee.create (new_employee user body now) now fresh coll ;;
       ret (ok 201 (OneEmployee (fst created)), snd created))
    catch_ValidationError.

(** [PUT /api/employees/:id] *)
Definition put_employee (user : User.t) (id : string) (body : Employee.update)
  (coll : list Employee.t) : response * list Employee.t :=
  try_catch_write coll
    (employee <- findById Employee._id id coll ;;
     match employee with
     | None => ret (failure 404 "Employee not found", coll)
     | Some employee =>
         if Employee.isFrozen employee
         then ret (failure 403 "This record is frozen and cannot be modified", coll)
         else if not_admin user
                 && JS.strict_neq (User.officeId user) (Employee.officeId employee)
         then ret (failure 403 "Not authorized to update this employee", coll)
         else
           updated <- Employee.findByIdAndUpdate id body true coll ;;
           ret (ok 200 (employee_payload (fst updated)), snd updated)
     end)
    catch_ValidationError.

(** [DELETE /api/employees/:id] *)
Definition delete_employee (user : User.t) (id : string)
  (coll : list Employee.t) : response * list Employee.t :=
  try_catch_write coll
    (employee <- findById Employee._id id coll ;;
     match employee with
     | None => ret (failure 404 "Employee not found", coll)
     | Some employee =>
         if Employee.isFrozen employee
         then ret (failure 403 "This record is frozen and cannot be deleted", coll)
         else if not_admin user
                 && JS.strict_neq (User.officeId user) (Employee.officeId employee)
         then ret (failure 403 "Not authorized to delete this employee", coll)
         else
           deleted <- findByIdAndDelete Employee._id id coll ;;
           ret (ok 200 EmptyObject, snd deleted)
     end)
    catch_any.

(** The body shared by the freeze and unfreeze routes, which differ in
    the flag and the message.  Both run behind the [admin] middleware. *)
Definition set_frozen (flag : bool) (msg : string) (id : string)
  (coll : list Employee.t) : response * list Employee.t :=
  try_catch_write coll
    (employee <- findById Employee._id id coll ;;
     match employee with
     | None => ret (failure 404 "Employee not found", coll)
     | Some _ =>
         updated <- Employee.findByIdAndUpdate id
           (Employee.Document [Employee.isFrozen_is flag]) false coll ;;
         ret (ok_message 200 (employee_payload (fst updated)) msg, snd updated)
     end)
    catch_any.

(** [PUT /api/employees/freeze/:id] *)
Definition put_freeze : string -> list Employee.t -> response * list Employee.t :=
  set_frozen true "Employee record has been frozen".

(** [PUT /api/employees/unfreeze/:id] *)
Definition put_unfreeze : string -> list Employee.t -> response * list Employee.t :=
  set_frozen false "Employee record has been unfrozen".

End Handlers.
End EmployeeRoutes.

(* ================================================================== *)
(** ** routes/offices.js                                               *)
(* ================================================================== *)

Module OfficeRoutes.
Import Mongoose.

Section Handlers.
Context `{Platform}.

(** [GET /api/offices/:id] *)
Definition get_office (user : User.t) (id : string) (coll : list Office.t)
  : response :=
  try_catch
    (office <- findById Office._id id coll ;;
     match office with
     | None => ret (failure 404 "Office not found")
     | Some office =>
         if EmployeeRoutes.not_admin user
            && JS.strict_neq (User.officeId user) (Office._id office)
         then ret (failure 403 "Not authorized to access this office")
         else ret (ok 200 (OneOffice office))
     end)
    (catch_ObjectId "Office not found").

(** The object [POST /api/offices] hands to [Office.create]. *)
Definition new_office (user : User.t) (body : Office.fields) : Office.fields :=
  Office.mkFields (Office.f_name body) (Office.f_location body)
    (Office.f_description body) (Some (User.id user)) None.

(** [POST /api/offices], behind the [admin] middleware. *)
Definition post_office (user : User.t) (body : Office.fields)
  (now : Z) (fresh : ObjectId) (coll : list Office.t)
  : response * list Office.t :=
  try_catch_write coll
    (created <- Office.create (new_office user body) now fresh coll ;;
     ret (ok 201 (OneOffice (fst created)), snd created))
    catch_ValidationError.

(** [PUT /api/offices/:id], behind the [admin] middleware. *)
Definition put_office (id : string) (body : Office.update) (coll : list Office.t)
  : response * list Office.t :=
  try_catch_write coll
    (office <- findById Office._id id coll ;;
     match office with
     | None => ret (failure 404 "Office not found", coll)
     | Some _ =>
         updated <- Office.findByIdAndUpdate id body coll ;;
         ret (ok 200 (office_payload (fst updated)), snd updated)
     end)
    catch_ValidationError.

(** [GET /api/offices]: on success the envelope carries the list of
    offices and its length; the [catch] answers as the other routes do. *)
Definition get_offices (user : User.t) (coll : list Office.t)
  : response + office_listing :=
  match Office.find
          (if EmployeeRoutes.not_admin user then Some (User.officeId user) else None)
          coll
  with
  | inr offices => inr (mkListing 200 true (Z.of_nat (List.length offices)) offices)
  | inl e => inl (catch_any e)
  end.

(** [DELETE /api/offices/:id], behind the [admin] middleware. *)
Definition delete_office (id : string) (coll : list Office.t)
  : response * list Office.t :=
  try_catch_write coll
    (office <- findById Office._id id coll ;;
     match office with
     | None => ret (failure 404 "Office not found", coll)
     | Some _ =>
         deleted <- findByIdAndDelete Office._id id coll ;;
         ret (ok 200 EmptyObject, snd deleted)
     end)
    catch_any.

End Handlers.
End OfficeRoutes.

(* ================================================================== *)
(** ** Vocabulary of the specification                                 *)
(* ================================================================== *)

(** A caller sees a record when it is an administrator or the record
    belongs to its office. *)
Definition visible (user : User.t) (e : Employee.t) : bool :=
  if EmployeeRoutes.not_admin user
  then String.eqb (Employee.officeId e) (User.officeId user)
  else true.

(** The caller may write to the office: it is an administrator, or the
    office is its own. *)
Definition may_write (user : User.t) (office : Mongoose.ObjectId) : Prop :=
  EmployeeRoutes.not_admin user = false \/ User.officeId user = office.

(** The sum of a count over a list of records. *)
Fixpoint total (f : Employee.t -> Z) (l : list Employee.t) : Z :=
  match l with
  | [] => 0
  | e :: rest => f e + total f rest
  end.

(** [reportDate] within the inclusive range. *)
Definition in_range (gte lte : Z) (e : Employee.t) : bool :=
  (gte <=? Employee.reportDate e) && (Employee.reportDate e <=? lte).

(** A query parameter that is missing or empty. *)
Definition absent_or_empty (v : option string) : Prop :=
  v = None \/ v = Some "".

(** The id names a document of the collection. *)
Definition names {A} (id_of : A -> Mongoose.ObjectId) (id : string)
  (coll : list A) (d : A) : Prop :=
  Mongoose.findById id_of id coll = Mongoose.ret (Some d).

(** No two documents of the collection share an [_id], as the store
    guarantees. *)
Definition unique_ids {A} (id_of : A -> Mongoose.ObjectId) (coll : list A) : Prop :=
  NoDup (map id_of coll).

(** A text that is an [ObjectId] in the form it is stored in. *)
Definition canonical (o : Mongoose.ObjectId) : Prop :=
  Mongoose.castObjectId o = Some o.

(** The id names no document of the collection. *)
Definition names_nothing {A} (id_of : A -> Mongoose.ObjectId) (id : string)
  (coll : list A) : Prop :=
  Mongoose.findById id_of id coll = Mongoose.ret None.

(** The uniform envelope: a success is a 200 or a 201 that carries data; a
    failure is a 400, 403, 404 or 500 that carries a message and nothing
    else. *)
Definition envelope (r : response) : Prop :=
  (success r = true /\ (status r = 200 \/ status r = 201) /\ data r <> Nothing)
  \/ (success r = false
      /\ (status r = 400 \/ status r = 403 \/ status r = 404 \/ status r = 500)
      /\ message r <> None /\ count r = None /\ data r = Nothing).

(** A name the schemas accept: not blank, and at most 100 characters once
    trimmed. *)
Definition acceptable_name (v : option string) : Prop :=
  exists s, v = Some s /\ JS.trim s <> "" /\ JS.strlen (JS.trim s) <= 100.

(** A required text that is not blank once trimmed. *)
Definition not_blank (v : option string) : Prop :=
  exists s, v = Some s /\ JS.trim s <> "".

(** The request names an office by a well-formed id. *)
Definition office_given (body : Employee.fields) : Prop :=
  exists s o, Employee.f_officeId body = Some s /\ Mongoose.castObjectId s = Some o.

(** A report date that is given is one the mapper can read. *)
Definition report_date_readable `{Platform} (body : Employee.fields) : Prop :=
  EmployeeRoutes.date_truthy (Employee.f_reportDate body) = true ->
  exists d t, Employee.f_reportDate body = Some d /\ Mongoose.castDate d = Some t.

(** For an employee said to be registered, the counts of the request,
    zero where it gives none, are not negative and in order. *)
Definition counts_in_order (body : Employee.fields) : Prop :=
  Employee.f_isRegisteredOnIGOT body = Some true ->
  0 <= Mongoose.or_default (Employee.f_coursesEnrolled body) 0
  /\ Mongoose.or_default (Employee.f_coursesCompleted body) 0
     <= Mongoose.or_default (Employee.f_coursesEnrolled body) 0.

(** A stored name: not empty, and at most 100 characters. *)
Definition named (name : string) : Prop :=
  name <> "" /\ JS.strlen name <= 100.

(** Every employee of the collection has such a name. *)
Definition employees_named (coll : list Employee.t) : Prop :=
  Forall (fun e => named (Employee.name e)) coll.

(** Every office of the collection has such a name, and a location. *)
Definition offices_named (coll : list Office.t) : Prop :=
  Forall (fun o => named (Office.name o) /\ Office.location o <> "") coll.

(** In every record the completed courses are among the enrolled ones. *)
Definition counts_ordered (coll : list Employee.t) : Prop :=
  Forall (fun e => 0 <= Employee.coursesCompleted e <= Employee.coursesEnrolled e)
    coll.

(** The update the freeze and unfreeze routes send. *)
Definition flag_update (flag : bool) : Employee.update :=
  Employee.Document [Employee.isFrozen_is flag].

(** What an update that is accepted writes: the keys of a plain body
    are set on the document of the id, past the cast and, when they run,
    the validators; the effect of a body with operators replaces the
    document by one of the same [_id], if the id has a document. *)
Definition written `{Platform} (o : Mongoose.ObjectId)
  (coll coll' : list Employee.t) (upd : Employee.update) (runValidators : bool)
  : Prop :=
  match upd with
  | Employee.Document body =>
      Employee.cast_error (Employee.object_of body) = None
      /\ (runValidators = true ->
          Employee.update_messages (Employee.object_of body) = [])
      /\ coll' = Mongoose.modify Employee._id o
                   (Employee.apply (Employee.object_of body)) coll
  | Employee.Operators effect =>
      (Mongoose.lookup Employee._id o coll = None /\ coll' = coll)
      \/ exists d d',
           Mongoose.lookup Employee._id o coll = Some d
           /\ effect d = Mongoose.ret d'
           /\ Employee._id d' = Employee._id d
           /\ coll' = Mongoose.modify Employee._id o (fun _ => d') coll
  end.

(** The sum of a count over a list of records as the dashboard takes
    it: binary64 additions from the left, starting from zero. *)
Definition binary64_sum (f : Employee.t -> Z) (l : list Employee.t) : JS.double :=
  fold_left (fun sum emp => JS.add sum (JS.of_int (f emp))) l (JS.of_int 0).

(** No record has a negative count. *)
Definition counts_nonnegative (l : list Employee.t) : Prop :=
  Forall (fun e => 0 <= Employee.coursesEnrolled e
                   /\ 0 <= Employee.coursesCompleted e) l.

(** The same body with other course counts. *)
Definition with_courses (enrolled completed : option Z) (body : Employee.fields)
  : Employee.fields :=
  Employee.mkFields
    (Employee.f_name body) (Employee.f_officeId body)
    (Employee.f_isRegisteredOnIGOT body) enrolled completed
    (Employee.f_reportDate body) (Employee.f_isFrozen body)
    (Employee.f_createdBy body) (Employee.f_createdAt body)
    (Employee.f_updatedAt body).

(** A rendering with a point followed by exactly two decimal digits. *)
Definition is_digit (c : ascii) : bool :=
  let n := N_of_ascii c in ((48 <=? n) && (n <=? 57))%N.

Fixpoint all_digits (s : string) : bool :=
  match s with
  | EmptyString => true
  | String c s' => is_digit c && all_digits s'
  end.

Definition two_decimals (s : string) : Prop :=
  exists a d1 d2,
    s = a ++ "." ++ String d1 (String d2 EmptyString)
    /\ is_digit d1 = true /\ is_digit d2 = true.

(** [(completed / enrolled) * 100] in binary64. *)
Definition percentage (completed enrolled : Z) : JS.double :=
  JS.mul (JS.div (JS.of_int completed) (JS.of_int enrolled)) (JS.of_int 100).

(** The rational value of a finite double of mantissa [m] and exponent
    [e]. *)
Definition F2Q (m : positive) (e : Z) : Q := (inject_Z (Zpos m) * 2 ^ e)%Q.

(** The relative error of one binary64 rounding is at most 2^-52. *)
Definition eps : Q := (1 # (2 ^ 52))%Q.

(** [n] hundredths is 100 * completed / enrolled to within half a
    hundredth and the error of the two binary64 roundings:
    |n - 10000 c/e| <= 1/2 + 10000 (c/e) 2^-50, cleared of fractions. *)
Definition hundredths_of_percentage (n completed enrolled : Z) : Prop :=
  0 <= n
  /\ 2 ^ 51 * Z.abs (n * enrolled - 10000 * completed)
     <= 2 ^ 50 * enrolled + 20000 * completed.

(** A double that [toFixed] renders in fixed notation. *)
Definition fixed_notation (x : JS.double) : bool :=
  match x with
  | S754_zero _ => true
  | S754_finite _ m e => negb (JS.at_least_1e21 m e)
  | _ => false
  end.

(* ================================================================== *)
(** ** A platform and data for worked examples                         *)
(* ================================================================== *)

Module Sample.

Definition quote : string := String (ascii_of_N 34) EmptyString.

Definition digit_value (c : ascii) : option Z :=
  let n := N_of_ascii c in
  if ((48 <=? n) && (n <=? 57))%N then Some (Z.of_N (n - 48)) else None.

(** The value of a string of decimal digits. *)
Fixpoint number (acc : Z) (s : string) : option Z :=
  match s with
  | EmptyString => Some acc
  | String c s' =>
      match digit_value c with
      | Some d => number (10 * acc + d) s'
      | None => None
      end
  end.

(** Days from the epoch to a civil date of the proleptic Gregorian
    calendar. *)
Definition days_from_civil (y m d : Z) : Z :=
  let y := if m <=? 2 then y - 1 else y in
  let era := y / 400 in
  let yoe := y - era * 400 in
  let doy := (153 * (if 2 <? m then m - 3 else m + 9) + 2) / 5 + d - 1 in
  let doe := yoe * 365 + yoe / 4 - yoe / 100 + doy in
  era * 146097 + doe - 719468.

(** The date-only form [YYYY-MM-DD], read as midnight UTC. *)
Definition date_only (s : string) : option Z :=
  if (String.length s =? 10)%nat
     && String.eqb (substring 4 1 s) "-" && String.eqb (substring 7 1 s) "-"
  then
    match number 0 (substring 0 4 s), number 0 (substring 5 2 s),
          number 0 (substring 8 2 s) with
    | Some y, Some m, Some d =>
        if (1 <=? m) && (m <=? 12) && (1 <=? d) && (d <=? 31)
        then Some (days_from_civil y m d * 86400000)
        else None
    | _, _, _ => None
    end
  else None.

Definition number_name (x : JS.double) : string :=
  match x with
  | S754_infinity false => "Infinity"
  | S754_infinity true => "-Infinity"
  | _ => "NaN"
  end.

Definition cast_message (kind value path : string) : string :=
  "Cast to " ++ kind ++ " failed for value " ++ quote ++ value ++ quote
  ++ " at path " ++ quote ++ path ++ quote.

(** A platform that reads dates in the date-only form.  [toFixed] asks
    [Number::toString] only for numbers that are not finite or not below
    10^21, which the examples do not reach. *)
Definition platform : Platform :=
  Build_Platform date_only number_name date_only cast_message.

Definition hq : Mongoose.ObjectId := "64b000000000000000000001".
Definition branch : Mongoose.ObjectId := "64b000000000000000000002".

Definition root : User.t := User.mk "64a000000000000000000001" "admin" hq.
Definition clerk : User.t := User.mk "64a000000000000000000002" "user" hq.
Definition outsider : User.t := User.mk "64a000000000000000000003" "user" branch.

Definition jo_id : Mongoose.ObjectId := "64c000000000000000000001".
Definition ann_id : Mongoose.ObjectId := "64c000000000000000000002".
Definition raj_id : Mongoose.ObjectId := "64c000000000000000000003".

(** A clock that advances by one millisecond from one reading to the
    next, first read at [t]. *)
Definition clock_at (t : Z) : Employee.clock :=
  Employee.mkClock t (t + 1) (t + 2) (t + 3) (t + 4).

(** Jo, registered, three of five courses completed, created by a
    request that arrived at 1000. *)
Definition jo : Employee.t :=
  Employee.mk jo_id "Jo" hq true 5 3 1704067200000 false
    (User.id root) (Some 1002) (Some 1004).

(** Ann, frozen. *)
Definition ann : Employee.t :=
  Employee.mk ann_id "Ann" hq true 4 4 1706659200000 true
    (User.id root) (Some 2002) (Some 2004).

(** Raj, of the other office, reported in February. *)
Definition raj : Employee.t :=
  Employee.mk raj_id "Raj" branch false 0 0 1706745600000 false
    (User.id root) (Some 3002) (Some 3004).

Definition staff : list Employee.t := [jo; ann; raj].

Definition head_office : Office.t :=
  Office.mk hq "HQ" "City A" None (User.id root) (Some 500).

(** The request that created Jo, sent by [root] at time 1000. *)
Definition jo_request : Employee.fields :=
  Employee.mkFields (Some "Jo") (Some hq) (Some true) (Some 5) (Some 3)
    (Some (Mongoose.DateText "2024-01-01")) None None None None.

(** The scenario of the specification: not registered, yet five courses
    claimed. *)
Definition unregistered_request : Employee.fields :=
  Employee.mkFields (Some "Jo") (Some hq) (Some false) (Some 5) None
    None None None None None.

(** No name, and an office that is not the [outsider]'s. *)
Definition nameless_request : Employee.fields :=
  Employee.mkFields None (Some hq) None None None None None None None None.

(** No name, and more courses completed than enrolled. *)
Definition invalid_request : Employee.fields :=
  Employee.mkFields None (Some hq) (Some true) (Some 2) (Some 5)
    None None None None None.

(** Updates: [{ coursesEnrolled: 0 }], [{ name: "Joe" }],
    [{ name: "  ", coursesCompleted: 1 }], [{ reportDate: "" }] and, for
    an office, [{ location: "  " }]. *)
Definition lower_enrolled : Employee.update :=
  Employee.Document [Employee.coursesEnrolled_is 0].

Definition rename : Employee.update :=
  Employee.Document [Employee.name_is "Joe"].

Definition invalid_update : Employee.update :=
  Employee.Document [Employee.name_is "  "; Employee.coursesCompleted_is 1].

Definition empty_report_date : Employee.update :=
  Employee.Document [Employee.reportDate_is (Mongoose.DateText "")].

Definition blank_location : Office.update :=
  Office.Document [Office.location_is "  "].

(** [{ "$inc": { "coursesCompleted": 5 } }]: the store adds to the
    count; no validator runs on it. *)
Definition five_more_completed : Employee.update :=
  Employee.Operators
    (fun d =>
       Mongoose.ret
         (Employee.set_coursesCompleted (Employee.coursesCompleted d + 5) d)).

(** A request for an office with a blank location and no name. *)
Definition placeless_request : Office.fields :=
  Office.mkFields None (Some "  ") None None None.

(** The second office, and the two offices as stored. *)
Definition branch_office : Office.t :=
  Office.mk branch "Branch" "City B" None (User.id root) (Some 600).

Definition offices : list Office.t := [head_office; branch_office].

(** Ids no stored document has. *)
Definition new_id : Mongoose.ObjectId := "64c000000000000000000004".
Definition new_office_id : Mongoose.ObjectId := "64b000000000000000000003".

(** Records whose completed counts cancel in binary64: 2^60 completed
    with none enrolled, one of one, and minus 2^60 with none enrolled. *)
Definition surplus_id : Mongoose.ObjectId := "64c000000000000000000005".
Definition single_id : Mongoose.ObjectId := "64c000000000000000000006".
Definition deficit_id : Mongoose.ObjectId := "64c000000000000000000007".

Definition surplus_request : Employee.fields :=
  Employee.mkFields (Some "Surplus") (Some hq) (Some true) (Some (2 ^ 60))
    (Some (2 ^ 60)) None None None None None.

Definition single_request : Employee.fields :=
  Employee.mkFields (Some "Single") (Some hq) (Some true) (Some 1) (Some 1)
    None None None None None.

Definition deficit_request : Employee.fields :=
  Employee.mkFields (Some "Deficit") (Some hq) (Some true) (Some 0)
    (Some (- 2 ^ 60)) None None None None None.

Definition cancelling : list Employee.t :=
  [ Employee.mk surplus_id "Surplus" hq true 0 (2 ^ 60) 1000 false
      (User.id root) (Some 1002) (Some 1004);
    Employee.mk single_id "Single" hq true 1 1 2000 false
      (User.id root) (Some 2002) (Some 2004);
    Employee.mk deficit_id "Deficit" hq true 0 (- 2 ^ 60) 3000 false
      (User.id root) (Some 3002) (Some 3004) ].

(** An update that hands a record over to the second office. *)
Definition move_to_branch : Employee.update :=
  Employee.Document [Employee.officeId_is branch].

(** A request for a third office, its name padded with blanks. *)
Definition office_request : Office.fields :=
  Office.mkFields (Some " Depot ") (Some "City C") None None None.

End Sample.

(* ================================================================== *)
(** * Properties                                                       *)
(* ================================================================== *)

Import Mongoose EmployeeRoutes OfficeRoutes.

(** ** Lists and collections *)

Lemma total_nonnegative (f : Employee.t -> Z) (l : list Employee.t) :
  Forall (fun e => 0 <= f e) l -> 0 <= total f l.
Proof.
  induction 1 as [|e l He _ IH]; simpl; lia.
Qed.

Lemma Forall_filter {A} (P : A -> Prop) (p : A -> bool) (l : list A) :
  Forall P l -> Forall P (filter p l).
Proof.
  induction 1 as [|a l Ha _ IH]; simpl.
  - constructor.
  - destruct (p a); [constructor|]; assumption.
Qed.

Section CollectionFacts.
Context {A : Type}.
Variable id_of : A -> ObjectId.

Lemma modify_map {B} (g : A -> B) (f : A -> A) (o : ObjectId) (coll : list A) :
  (forall d, g (f d) = g d) ->
  map g (modify id_of o f coll) = map g coll.
Proof.
  intros Hf. induction coll as [|d coll IH]; simpl.
  - reflexivity.
  - destruct (String.eqb (id_of d) o); simpl.
    + rewrite Hf. reflexivity.
    + rewrite IH. reflexivity.
Qed.

Lemma modify_Forall (P : A -> Prop) (f : A -> A) (o : ObjectId) (coll : list A) :
  (forall d, P d -> P (f d)) ->
  Forall P coll -> Forall P (modify id_of o f coll).
Proof.
  intros Hf. induction 1 as [|d coll Hd Hcoll IH]; simpl.
  - constructor.
  - destruct (String.eqb (id_of d) o); constructor; auto.
Qed.

Lemma remove_Forall (P : A -> Prop) (o : ObjectId) (coll : list A) :
  Forall P coll -> Forall P (remove id_of o coll).
Proof.
  induction 1 as [|d coll Hd Hcoll IH]; simpl.
  - constructor.
  - destruct (String.eqb (id_of d) o); [assumption | constructor; assumption].
Qed.

(** A malformed id makes [findById] reject with a cast error of kind
    [ObjectId]. *)
Lemma findById_malformed (id : string) (coll : list A) :
  castObjectId id = None ->
  findById id_of id coll = throw (CastError "ObjectId" id "_id").
Proof.
  intros Hid. unfold findById. rewrite Hid. reflexivity.
Qed.

(** An id that names a document is well formed. *)
Lemma names_castObjectId (id : string) (coll : list A) (d : A) :
  names id_of id coll d ->
  exists o, castObjectId id = Some o /\ lookup id_of o coll = Some d.
Proof.
  unfold names, findById, ret, throw.
  destruct (castObjectId id) as [o|]; intros Hd.
  - exists o. split; [reflexivity | congruence].
  - discriminate.
Qed.

End CollectionFacts.

Section MoreCollectionFacts.
Context {A : Type}.
Variable id_of : A -> ObjectId.

Lemma lookup_found (o : ObjectId) (coll : list A) (d : A) :
  lookup id_of o coll = Some d -> id_of d = o /\ In d coll.
Proof.
  unfold lookup. intros Hfind. apply find_some in Hfind as [Hin Hid].
  apply String.eqb_eq in Hid. split; assumption.
Qed.

Lemma lookup_absent (o : ObjectId) (coll : list A) :
  ~ In o (map id_of coll) -> lookup id_of o coll = None.
Proof.
  unfold lookup. induction coll as [|x coll IH]; cbn [find map]; intros Hout.
  - reflexivity.
  - destruct (String.eqb_spec (id_of x) o) as [Heq | _].
    + exfalso. apply Hout. left. exact Heq.
    + apply IH. intros Hin. apply Hout. right. exact Hin.
Qed.

Lemma lookup_remove_same (o : ObjectId) (coll : list A) :
  unique_ids id_of coll -> lookup id_of o (remove id_of o coll) = None.
Proof.
  unfold unique_ids. induction coll as [|x coll IH]; cbn [remove map]; intros Hunique.
  - reflexivity.
  - inversion Hunique as [|? ? Hout Hrest]; subst.
    destruct (String.eqb_spec (id_of x) o) as [Heq | Hneq].
    + apply lookup_absent. rewrite <- Heq. exact Hout.
    + unfold lookup. cbn [find]. apply String.eqb_neq in Hneq. rewrite Hneq.
      apply IH, Hrest.
Qed.

Lemma lookup_remove_other (o o' : ObjectId) (coll : list A) :
  o' <> o -> lookup id_of o' (remove id_of o coll) = lookup id_of o' coll.
Proof.
  intros Hneq. unfold lookup.
  induction coll as [|x coll IH]; cbn [remove find]; [reflexivity|].
  destruct (String.eqb_spec (id_of x) o) as [Heq | Hx].
  - destruct (String.eqb_spec (id_of x) o') as [Heq' | _]; [congruence | reflexivity].
  - cbn [find]. rewrite IH. reflexivity.
Qed.

Lemma lookup_modify_other (f : A -> A) (o o' : ObjectId) (coll : list A) :
  (forall x, id_of (f x) = id_of x) ->
  o' <> o ->
  lookup id_of o' (modify id_of o f coll) = lookup id_of o' coll.
Proof.
  intros Hid Hneq. unfold lookup.
  induction coll as [|x coll IH]; cbn [modify find]; [reflexivity|].
  destruct (String.eqb_spec (id_of x) o) as [Heq | Hx]; cbn [find].
  - rewrite Hid.
    destruct (String.eqb_spec (id_of x) o') as [Heq' | _]; [congruence | reflexivity].
  - rewrite IH. reflexivity.
Qed.

Lemma modify_fixed (f : A -> A) (o : ObjectId) (coll : list A) (d : A) :
  lookup id_of o coll = Some d -> f d = d -> modify id_of o f coll = coll.
Proof.
  unfold lookup. intros Hfind Hfix.
  induction coll as [|x coll IH]; cbn [modify find] in *; [reflexivity|].
  destruct (String.eqb (id_of x) o).
  - injection Hfind as ->. rewrite Hfix. reflexivity.
  - rewrite IH by assumption. reflexivity.
Qed.

Lemma modify_modify (f g : A -> A) (o : ObjectId) (coll : list A) :
  (forall x, id_of (f x) = id_of x) ->
  modify id_of o g (modify id_of o f coll)
  = modify id_of o (fun d => g (f d)) coll.
Proof.
  intros Hid. induction coll as [|x coll IH]; cbn [modify]; [reflexivity|].
  destruct (String.eqb (id_of x) o) eqn:Hx; cbn [modify].
  - rewrite Hid, Hx. reflexivity.
  - rewrite Hx, IH. reflexivity.
Qed.

Lemma modify_ext (f g : A -> A) (o : ObjectId) (coll : list A) :
  (forall d, f d = g d) -> modify id_of o f coll = modify id_of o g coll.
Proof.
  intros Hext. induction coll as [|x coll IH]; cbn [modify]; [reflexivity|].
  rewrite Hext, IH. reflexivity.
Qed.

Lemma modify_ids (f : A -> A) (o : ObjectId) (coll : list A) :
  (forall x, id_of (f x) = id_of x) ->
  map id_of (modify id_of o f coll) = map id_of coll.
Proof.
  intros Hid. apply modify_map. exact Hid.
Qed.

Lemma remove_found_length (o : ObjectId) (coll : list A) (d : A) :
  lookup id_of o coll = Some d ->
  S (List.length (remove id_of o coll)) = List.length coll.
Proof.
  unfold lookup. induction coll as [|x coll IH]; cbn [remove find]; [discriminate|].
  destruct (String.eqb (id_of x) o); intros Hfind; cbn [List.length].
  - reflexivity.
  - rewrite IH by assumption. reflexivity.
Qed.

Lemma remove_ids_incl (o : ObjectId) (coll : list A) :
  incl (map id_of (remove id_of o coll)) (map id_of coll).
Proof.
  induction coll as [|x coll IH]; cbn [remove map]; [apply incl_refl|].
  destruct (String.eqb (id_of x) o).
  - apply incl_tl, incl_refl.
  - apply incl_cons; [left; reflexivity | apply incl_tl, IH].
Qed.

Lemma remove_unique (o : ObjectId) (coll : list A) :
  unique_ids id_of coll -> unique_ids id_of (remove id_of o coll).
Proof.
  unfold unique_ids. induction coll as [|x coll IH]; cbn [remove map]; intros Hunique.
  - constructor.
  - inversion Hunique as [|? ? Hout Hrest]; subst.
    destruct (String.eqb (id_of x) o); [exact Hrest|].
    cbn [map]. constructor; [|apply IH, Hrest].
    intros Hin. apply Hout. apply (remove_ids_incl o coll). exact Hin.
Qed.

Lemma lookup_app_old (o : ObjectId) (coll : list A) (d x : A) :
  lookup id_of o coll = Some d -> lookup id_of o (coll ++ [x]) = Some d.
Proof.
  unfold lookup. induction coll as [|y coll IH]; cbn [find app]; [discriminate|].
  destruct (String.eqb (id_of y) o); [trivial | exact IH].
Qed.

Lemma lookup_app_new (o : ObjectId) (coll : list A) (x : A) :
  lookup id_of o coll = None -> id_of x = o ->
  lookup id_of o (coll ++ [x]) = Some x.
Proof.
  unfold lookup. intros Hnone Hid.
  induction coll as [|y coll IH]; cbn [find app] in *.
  - rewrite Hid, String.eqb_refl. reflexivity.
  - destruct (String.eqb (id_of y) o); [discriminate | apply IH, Hnone].
Qed.

End MoreCollectionFacts.

(** A cast id is in stored form. *)
Lemma lower_hex (c : ascii) : is_hex c = true -> is_hex (lower c) = true.
Proof.
  destruct c as [[] [] [] [] [] [] [] []]; vm_compute; trivial.
Qed.

Lemma lower_lower (c : ascii) : lower (lower c) = lower c.
Proof.
  destruct c as [[] [] [] [] [] [] [] []]; vm_compute; reflexivity.
Qed.

Lemma lowercase_facts (s : string) :
  String.length (lowercase s) = String.length s
  /\ lowercase (lowercase s) = lowercase s
  /\ (all_hex s = true -> all_hex (lowercase s) = true).
Proof.
  induction s as [|c s (Hlen & Hidem & Hhex)]; cbn [lowercase all_hex String.length].
  - repeat split.
  - split; [rewrite Hlen; reflexivity|].
    split; [rewrite lower_lower, Hidem; reflexivity|].
    intros Hall. apply andb_true_iff in Hall as [Hc Hs].
    rewrite (lower_hex c Hc), (Hhex Hs). reflexivity.
Qed.

Lemma castObjectId_canonical (s : string) (o : ObjectId) :
  castObjectId s = Some o -> canonical o.
Proof.
  unfold canonical, castObjectId.
  destruct ((String.length s =? 24)%nat && all_hex s) eqn:Hshape; [|discriminate].
  intros [= <-]. apply andb_true_iff in Hshape as [Hlen Hhex].
  destruct (lowercase_facts s) as (Elen & Eidem & Ehex).
  rewrite Elen, Hlen, (Ehex Hhex), Eidem. reflexivity.
Qed.

Section ReplacedDocument.
Context {A : Type}.
Variable id_of : A -> ObjectId.

(** Replacing a document by one of the same [_id] keeps the ids. *)
Lemma modify_replace_ids (o : ObjectId) (coll : list A) (d d' : A) :
  lookup id_of o coll = Some d ->
  id_of d' = id_of d ->
  map id_of (modify id_of o (fun _ => d') coll) = map id_of coll.
Proof.
  unfold lookup. intros Hfind Hid.
  induction coll as [|x coll IH]; cbn [modify find map] in *; [reflexivity|].
  destruct (String.eqb (id_of x) o).
  - injection Hfind as ->. cbn [map]. rewrite Hid. reflexivity.
  - cbn [map]. rewrite IH by assumption. reflexivity.
Qed.

(** The document of an id after a replacement. *)
Lemma lookup_modify_same (f : A -> A) (o : ObjectId) (coll : list A) (d : A) :
  lookup id_of o coll = Some d ->
  id_of (f d) = id_of d ->
  lookup id_of o (modify id_of o f coll) = Some (f d).
Proof.
  unfold lookup. intros Hfind Hid.
  induction coll as [|x coll IH]; cbn [modify find] in *; [discriminate|].
  destruct (String.eqb (id_of x) o) eqn:Hx; cbn [find].
  - injection Hfind as ->. rewrite Hid, Hx. reflexivity.
  - rewrite Hx. apply IH, Hfind.
Qed.

End ReplacedDocument.

(** ** The freeze flag *)

Section Freeze.
Context `{Platform}.

(** C2.  A frozen record that exists is closed to update and to delete:
    both routes answer 403 without success and leave the collection as it
    was, whoever the caller is, administrators included. *)
Theorem frozen_record_rejects_update_and_delete
  (user : User.t) (id : string) (body : Employee.update)
  (coll : list Employee.t) (e : Employee.t) :
  names Employee._id id coll e ->
  Employee.isFrozen e = true ->
  let updated := put_employee user id body coll in
  let deleted := delete_employee user id coll in
  (status (fst updated) = 403 /\ success (fst updated) = false
   /\ snd updated = coll)
  /\ (status (fst deleted) = 403 /\ success (fst deleted) = false
      /\ snd deleted = coll).
Proof.
  intros Hnames Hfrozen. unfold names in Hnames.
  unfold put_employee, delete_employee.
  rewrite Hnames. cbn. rewrite Hfrozen. cbn. repeat split.
Qed.

(** C10.  The freeze test comes before the ownership test: for a frozen
    record every caller, also one of another office, is told that the
    record is frozen, never that it is not authorized. *)
Theorem frozen_message_precedes_ownership
  (user : User.t) (id : string) (body : Employee.update)
  (coll : list Employee.t) (e : Employee.t) :
  names Employee._id id coll e ->
  Employee.isFrozen e = true ->
  fst (put_employee user id body coll)
    = failure 403 "This record is frozen and cannot be modified"
  /\ fst (delete_employee user id coll)
    = failure 403 "This record is frozen and cannot be deleted"
  /\ message (fst (put_employee user id body coll))
    <> Some "Not authorized to update this employee"
  /\ message (fst (delete_employee user id coll))
    <> Some "Not authorized to delete this employee".
Proof.
  intros Hnames Hfrozen. unfold names in Hnames.
  unfold put_employee, delete_employee.
  rewrite Hnames. cbn. rewrite Hfrozen. cbn.
  repeat split; discriminate.
Qed.

(** On a record that is not frozen the ownership test decides. *)
Lemma foreign_update_not_authorized
  (user : User.t) (id : string) (body : Employee.update)
  (coll : list Employee.t) (e : Employee.t) :
  names Employee._id id coll e ->
  Employee.isFrozen e = false ->
  not_admin user = true ->
  User.officeId user <> Employee.officeId e ->
  put_employee user id body coll
    = (failure 403 "Not authorized to update this employee", coll).
Proof.
  intros Hnames Hfrozen Hrole Hoffice. unfold names in Hnames.
  unfold put_employee. rewrite Hnames. cbn. rewrite Hfrozen, Hrole.
  apply String.eqb_neq in Hoffice. unfold JS.strict_neq. rewrite Hoffice.
  reflexivity.
Qed.

End Freeze.

(** ** The report *)

Section Report.
Context `{Platform}.

Lemma matches_visible (user : User.t) (e : Employee.t) :
  Employee.matches (office_scope user) None e = visible user e.
Proof.
  unfold Employee.matches, office_scope, visible.
  destruct (not_admin user); cbn; [apply andb_true_r | reflexivity].
Qed.

Lemma matches_visible_in_range (user : User.t) (gte lte : Z) (e : Employee.t) :
  Employee.matches (office_scope user) (Some (gte, lte)) e
  = visible user e && in_range gte lte e.
Proof.
  unfold Employee.matches, office_scope, visible, in_range.
  destruct (not_admin user); reflexivity.
Qed.

Lemma truthy_nonempty (s : string) :
  s <> "" -> JS.truthy_string (Some s) = true.
Proof.
  intros Hs. cbn. apply String.eqb_neq in Hs. rewrite Hs. reflexivity.
Qed.

Lemma falsy_absent_or_empty (v : option string) :
  absent_or_empty v -> JS.truthy_string v = false.
Proof.
  intros [-> | ->]; reflexivity.
Qed.

(** C8.  With both bounds supplied, and both read as dates, the report is
    exactly the visible records whose [reportDate] lies between them,
    bounds included, in collection order. *)
Theorem report_returns_inclusive_range
  (user : User.t) (startDate endDate : string) (gte lte : Z)
  (coll : list Employee.t) :
  startDate <> "" -> endDate <> "" ->
  Date_parse startDate = Some gte ->
  Date_parse endDate = Some lte ->
  let found := filter (fun e => visible user e && in_range gte lte e) coll in
  get_report user (Some startDate) (Some endDate) coll
    = ok_count 200 (Z.of_nat (List.length found))
        (Populated with_office_and_creator (Employees found))
  /\ (forall e, In e found <->
        In e coll /\ visible user e = true
        /\ gte <= Employee.reportDate e <= lte).
Proof.
  intros Hs He Hgte Hlte found. split.
  - unfold get_report.
    rewrite (truthy_nonempty _ Hs), (truthy_nonempty _ He). cbn.
    rewrite Hgte, Hlte. cbn.
    rewrite (filter_ext _ _ (matches_visible_in_range user gte lte)).
    reflexivity.
  - intros e. unfold found. rewrite filter_In, andb_true_iff.
    unfold in_range. rewrite andb_true_iff, !Z.leb_le. tauto.
Qed.

(** C9.  When a bound is missing or empty no date filter applies: the
    report is the caller's whole visible set, as with neither bound. *)
Theorem report_without_both_bounds_is_unfiltered
  (user : User.t) (startDate endDate : option string)
  (coll : list Employee.t) :
  absent_or_empty startDate \/ absent_or_empty endDate ->
  let seen := filter (visible user) coll in
  get_report user startDate endDate coll
    = ok_count 200 (Z.of_nat (List.length seen))
        (Populated with_office_and_creator (Employees seen))
  /\ get_report user startDate endDate coll = get_report user None None coll.
Proof.
  intros Hone seen.
  assert (Hfalsy : JS.truthy_string startDate && JS.truthy_string endDate = false).
  { destruct Hone as [Hs | He].
    - rewrite (falsy_absent_or_empty _ Hs). reflexivity.
    - rewrite (falsy_absent_or_empty _ He). apply andb_false_r. }
  unfold get_report. rewrite Hfalsy. cbn.
  rewrite (filter_ext _ _ (matches_visible user)).
  split; reflexivity.
Qed.

End Report.

(** ** Binary64 arithmetic

    The operations of [SpecFloat] at precision 53 round to nearest; the
    lemmas below bound one rounding by a relative error of [eps] for
    operands in the normal range, which is all the dashboard needs. *)

Section Rounding.
(** [digits2_pos] counts binary digits. *)
Lemma digits2_bounds (p : positive) :
  2 ^ (Zpos (digits2_pos p) - 1) <= Zpos p < 2 ^ Zpos (digits2_pos p).
Proof.
  induction p as [p IH | p IH |]; cbn [digits2_pos].
  - rewrite Pos2Z.inj_succ.
    replace (Z.succ (Zpos (digits2_pos p)) - 1) with (Z.succ (Zpos (digits2_pos p) - 1)) by lia.
    rewrite !Z.pow_succ_r by lia. lia.
  - rewrite Pos2Z.inj_succ.
    replace (Z.succ (Zpos (digits2_pos p)) - 1) with (Z.succ (Zpos (digits2_pos p) - 1)) by lia.
    rewrite !Z.pow_succ_r by lia. lia.
  - cbn. lia.
Qed.

Lemma digits2_unique (p : positive) (d : Z) :
  2 ^ (d - 1) <= Zpos p < 2 ^ d -> Zpos (digits2_pos p) = d.
Proof.
  intros [Hlo Hhi]. pose proof (digits2_bounds p) as [Hlo' Hhi'].
  assert (0 < d).
  { destruct (Z.ltb_spec 0 d); [assumption|].
    assert (2 ^ d <= 2 ^ 0) by (apply Z.pow_le_mono_r; lia). cbn in *. lia. }
  destruct (Z.lt_trichotomy (Zpos (digits2_pos p)) d) as [Hlt | [Heq | Hgt]].
  - assert (2 ^ Zpos (digits2_pos p) <= 2 ^ (d - 1)) by (apply Z.pow_le_mono_r; lia). lia.
  - assumption.
  - assert (2 ^ d <= 2 ^ (Zpos (digits2_pos p) - 1)) by (apply Z.pow_le_mono_r; lia). lia.
Qed.

(** A right shift halves the mantissa it carries. *)
Lemma shr_1_m (mrs : shr_record) :
  0 <= shr_m mrs -> shr_m (shr_1 mrs) = shr_m mrs / 2.
Proof.
  destruct mrs as [m r s]. cbn [shr_m]. intros Hm.
  destruct m as [|p|p]; [reflexivity | | lia].
  destruct p as [p|p|]; cbn [shr_1 shr_m].
  - rewrite Pos2Z.inj_xI. apply Z.div_unique with (r := 1); lia.
  - rewrite Pos2Z.inj_xO. apply Z.div_unique with (r := 0); lia.
  - reflexivity.
Qed.

Lemma shr_1_nonneg (mrs : shr_record) : 0 <= shr_m mrs -> 0 <= shr_m (shr_1 mrs).
Proof.
  intros H. rewrite shr_1_m by assumption. apply Z.div_pos; lia.
Qed.

Lemma iter_shr_1_m (p : positive) : forall mrs,
  0 <= shr_m mrs ->
  shr_m (iter_pos shr_1 p mrs) = shr_m mrs / 2 ^ Zpos p
  /\ 0 <= shr_m (iter_pos shr_1 p mrs).
Proof.
  induction p as [p IH | p IH |]; intros mrs Hm; cbn [iter_pos].
  - destruct (IH (shr_1 mrs) (shr_1_nonneg _ Hm)) as [E1 N1].
    destruct (IH _ N1) as [E2 N2]. split; [|assumption].
    rewrite E2, E1, shr_1_m by assumption.
    rewrite !Z.div_div by lia.
    f_equal. replace (Z.pos p~1) with (Z.pos p + Z.pos p + 1) by lia.
    rewrite !Z.pow_add_r by lia. lia.
  - destruct (IH mrs Hm) as [E1 N1].
    destruct (IH _ N1) as [E2 N2]. split; [|assumption].
    rewrite E2, E1. rewrite !Z.div_div by lia.
    f_equal. replace (Z.pos p~0) with (Z.pos p + Z.pos p) by lia.
    rewrite !Z.pow_add_r by lia. lia.
  - split; [|apply shr_1_nonneg; assumption].
    rewrite shr_1_m by assumption. reflexivity.
Qed.

(** [shr] by [n] places divides the mantissa by 2^n and adds [n] to the
    exponent. *)
Lemma shr_m_spec (mrs : shr_record) (e n : Z) :
  0 <= shr_m mrs -> 0 <= n ->
  shr_m (fst (shr mrs e n)) = shr_m mrs / 2 ^ n /\ snd (shr mrs e n) = e + n.
Proof.
  intros Hm Hn. unfold shr.
  destruct n as [|p|p]; cbn [fst snd].
  - rewrite Z.div_1_r. split; [reflexivity | lia].
  - split; [apply iter_shr_1_m; assumption | reflexivity].
  - lia.
Qed.

Lemma shr_record_of_loc_m m l : shr_m (shr_record_of_loc m l) = m.
Proof. destruct l as [|[]]; reflexivity. Qed.

(** Rounding keeps the truncated mantissa or adds one to it. *)
Lemma round_nearest_even_cases m l :
  round_nearest_even m l = m \/ round_nearest_even m l = m + 1.
Proof.
  destruct l as [|[]]; cbn; auto. destruct (Z.even m); auto.
Qed.

Lemma loc_of_shr_record_of_loc m l : loc_of_shr_record (shr_record_of_loc m l) = l.
Proof. destruct l as [|[]]; reflexivity. Qed.

(** In the normal range the exponent leaves 53 digits. *)
Lemma fexp_normal (e : Z) : -1021 <= e -> fexp JS.prec JS.emax e = e - 53.
Proof. unfold fexp, emin, JS.prec, JS.emax. lia. Qed.

Lemma shr_fexp_spec (m e : Z) (l : location) :
  0 < m -> 53 <= Zdigits2 m -> -1074 <= e ->
  let n := Zdigits2 m - 53 in
  shr_m (fst (shr_fexp JS.prec JS.emax m e l)) = m / 2 ^ n
  /\ snd (shr_fexp JS.prec JS.emax m e l) = e + n.
Proof.
  intros Hm Hd He n. unfold shr_fexp.
  rewrite fexp_normal by lia.
  replace (Zdigits2 m + e - 53 - e) with n by (unfold n; lia).
  destruct (shr_m_spec (shr_record_of_loc m l) e n) as [E1 E2].
  - rewrite shr_record_of_loc_m. lia.
  - unfold n. lia.
  - rewrite shr_record_of_loc_m in E1. split; assumption.
Qed.

Lemma shr_fexp_exact_nop (m e : Z) (l : location) :
  0 < m -> Zdigits2 m = 53 -> -1074 <= e ->
  shr_fexp JS.prec JS.emax m e l = (shr_record_of_loc m l, e).
Proof.
  intros Hm Hd He. unfold shr_fexp. rewrite fexp_normal by lia.
  replace (Zdigits2 m + e - 53 - e) with 0 by lia. reflexivity.
Qed.

Lemma Zdigits2_pos_bounds (m : Z) :
  0 < m -> 2 ^ (Zdigits2 m - 1) <= m < 2 ^ Zdigits2 m.
Proof.
  destruct m as [|p|p]; try lia. intros _. apply digits2_bounds.
Qed.

Lemma Zdigits2_unique (m d : Z) :
  0 < m -> 2 ^ (d - 1) <= m < 2 ^ d -> Zdigits2 m = d.
Proof.
  destruct m as [|p|p]; try lia. intros _. apply digits2_unique.
Qed.

(** One rounding, on a mantissa of at least 53 digits in the normal
    range: the result has 53 digits and is the truncation [lo] of the
    mantissa or its successor, a carry into the next binade included;
    an exact 53-digit mantissa is returned as it is. *)
Lemma binary_round_aux_spec (s : bool) (mx ex : Z) (lx : location) :
  0 < mx ->
  53 <= Zdigits2 mx ->
  -1074 <= ex ->
  Zdigits2 mx + ex <= 1023 ->
  let n := Zdigits2 mx - 53 in
  let lo := mx / 2 ^ n in
  exists m e,
    binary_round_aux JS.prec JS.emax s mx ex lx = S754_finite s m e
    /\ Zpos (digits2_pos m) = 53
    /\ 2 ^ 52 <= lo < 2 ^ 53
    /\ ((Zpos m = lo /\ e = ex + n)
        \/ (Zpos m = lo + 1 /\ e = ex + n)
        \/ (Zpos m = 2 ^ 52 /\ e = ex + n + 1 /\ lo + 1 = 2 ^ 53))
    /\ (lx = loc_Exact -> n = 0 -> Zpos m = mx /\ e = ex).
Proof.
  intros Hmx Hd Hex Hmax n lo.
  pose proof (Zdigits2_pos_bounds mx Hmx) as [Hlow Hhigh].
  assert (Hn : 0 <= n) by (unfold n; lia).
  assert (Hpow : 0 < 2 ^ n) by (apply Z.pow_pos_nonneg; lia).
  assert (Hlo : 2 ^ 52 <= lo < 2 ^ 53).
  { unfold lo. split.
    - apply Z.div_le_lower_bound; [assumption|].
      replace (Zdigits2 mx - 1) with (n + 52) in Hlow by (unfold n; lia).
      rewrite Z.pow_add_r in Hlow by lia. lia.
    - apply Z.div_lt_upper_bound; [assumption|].
      replace (Zdigits2 mx) with (n + 53) in Hhigh by (unfold n; lia).
      rewrite Z.pow_add_r in Hhigh by lia. lia. }
  unfold binary_round_aux.
  destruct (shr_fexp_spec mx ex lx Hmx Hd Hex) as [E1 E2].
  fold n in E1, E2. fold lo in E1.
  destruct (shr_fexp JS.prec JS.emax mx ex lx) as [mrs' e'] eqn:Hfirst.
  cbn [fst snd] in E1, E2. subst e'.
  set (m1 := round_nearest_even (shr_m mrs') (loc_of_shr_record mrs')).
  assert (Hm1 : m1 = lo \/ m1 = lo + 1).
  { unfold m1. rewrite E1. apply round_nearest_even_cases. }
  assert (Hexact : lx = loc_Exact -> n = 0 -> m1 = mx).
  { intros -> Hzero. unfold m1.
    unfold shr_fexp in Hfirst. rewrite fexp_normal in Hfirst by lia.
    replace (Zdigits2 mx + ex - 53 - ex) with 0 in Hfirst by (unfold n in Hzero; lia).
    cbn in Hfirst. injection Hfirst as <- _. reflexivity. }
  assert (Hlo0 : n = 0 -> lo = mx).
  { intros Hzero. unfold lo. rewrite Hzero. apply Z.div_1_r. }
  destruct (Z.eq_dec m1 (2 ^ 53)) as [Hcarry | Hnocarry].
  - (* the rounded mantissa carries into a 54th digit *)
    assert (Hd1 : Zdigits2 m1 = 54) by (rewrite Hcarry; reflexivity).
    destruct (shr_fexp_spec m1 (ex + n) loc_Exact) as [F1 F2]; try lia.
    rewrite Hd1 in F1, F2.
    destruct (shr_fexp JS.prec JS.emax m1 (ex + n) loc_Exact) as [mrs'' e''].
    cbn [fst snd] in F1, F2. rewrite F1, Hcarry.
    change (2 ^ 53 / 2 ^ (54 - 53)) with (Zpos (2 ^ 52)).
    assert (Hfit : (e'' <=? JS.emax - JS.prec) = true)
      by (apply Z.leb_le; unfold JS.emax, JS.prec, n in *; lia).
    rewrite Hfit. exists (2 ^ 52)%positive, e''.
    split; [reflexivity|]. split; [reflexivity|]. split; [exact Hlo|]. split.
    + right. right. repeat split; lia.
    + intros Hl Hzero. specialize (Hexact Hl Hzero). specialize (Hlo0 Hzero). lia.
  - assert (Hrange : 2 ^ 52 <= m1 < 2 ^ 53) by lia.
    assert (Hd1 : Zdigits2 m1 = 53) by (apply Zdigits2_unique; lia).
    rewrite shr_fexp_exact_nop by lia. cbn [shr_record_of_loc shr_m].
    destruct m1 as [|p1|p1] eqn:Hp1; try lia.
    assert (Hfit : (ex + n <=? JS.emax - JS.prec) = true)
      by (apply Z.leb_le; unfold JS.emax, JS.prec, n in *; lia).
    rewrite Hfit. exists p1, (ex + n).
    split; [reflexivity|]. split; [exact Hd1|]. split; [exact Hlo|]. split.
    + destruct Hm1 as [-> | ->]; [left | right; left]; split; reflexivity.
    + intros Hl Hzero. specialize (Hexact Hl Hzero). lia.
Qed.

Lemma iter_xO (k p : positive) : Zpos (Pos.iter xO p k) = Zpos p * 2 ^ Zpos k.
Proof.
  change (Pos.iter xO p k) with (shift_pos k p).
  rewrite shift_pos_correct. apply Z.mul_comm.
Qed.

(** An integer of magnitude below 2^53 is represented exactly. *)
Lemma binary_round_exact (s : bool) (p : positive) :
  Zpos p < 2 ^ 53 ->
  exists m e,
    binary_round JS.prec JS.emax s p 0 = S754_finite s m e
    /\ Zpos (digits2_pos m) = 53
    /\ -52 <= e <= 0
    /\ Zpos m = Zpos p * 2 ^ (- e).
Proof.
  intros Hp. pose proof (digits2_bounds p) as [Hlow Hhigh].
  set (d := Zpos (digits2_pos p)) in *.
  assert (Hd : 1 <= d <= 53).
  { split; [unfold d; lia|].
    destruct (Z.leb_spec d 53); [assumption|].
    assert (2 ^ 53 <= 2 ^ (d - 1)) by (apply Z.pow_le_mono_r; lia). lia. }
  unfold binary_round. rewrite Z.add_0_r. fold d.
  assert (Hfexp : fexp JS.prec JS.emax d = d - 53) by (unfold fexp, emin, JS.prec, JS.emax; lia).
  rewrite Hfexp. unfold shl_align. rewrite Z.sub_0_r.
  destruct (d - 53) as [|k|k] eqn:Hk; try lia.
  - (* already 53 digits *)
    destruct (binary_round_aux_spec s (Zpos p) 0 loc_Exact) as (m & e & Hr & Hdm & _ & _ & Hex);
      change (Zdigits2 (Zpos p)) with d; try lia.
    assert (Hzero : Zdigits2 (Zpos p) - 53 = 0) by (change (Zdigits2 (Zpos p)) with d; lia).
    destruct (Hex eq_refl Hzero) as [Hm He].
    exists m, e. rewrite Hr. repeat split; try lia. rewrite He. cbn. lia.
  - (* shift left to 53 digits *)
    assert (Hshift : Zpos (Pos.iter xO p k) = Zpos p * 2 ^ Zpos k) by apply iter_xO.
    assert (Hdig : Zdigits2 (Zpos (Pos.iter xO p k)) = 53).
    { apply Zdigits2_unique; [lia|]. rewrite Hshift.
      assert (E1 : 2 ^ (53 - 1) = 2 ^ (d - 1) * 2 ^ Zpos k)
        by (rewrite <- Z.pow_add_r by lia; f_equal; lia).
      assert (E2 : 2 ^ 53 = 2 ^ d * 2 ^ Zpos k)
        by (rewrite <- Z.pow_add_r by lia; f_equal; lia).
      rewrite E1, E2.
      assert (0 < 2 ^ Zpos k) by (apply Z.pow_pos_nonneg; lia).
      split; [apply Z.mul_le_mono_nonneg_r | apply Z.mul_lt_mono_pos_r]; lia. }
    destruct (binary_round_aux_spec s (Zpos (Pos.iter xO p k)) (Zneg k) loc_Exact)
      as (m & e & Hr & Hdm & _ & _ & Hex); try lia.
    assert (Hzero : Zdigits2 (Zpos (Pos.iter xO p k)) - 53 = 0) by lia.
    destruct (Hex eq_refl Hzero) as [Hm He].
    exists m, e. rewrite Hr. repeat split; try lia.
    rewrite Hm, Hshift, He. reflexivity.
Qed.

(** *** Sums of small non-negative integers are exact *)

(** A shift to the right that drops only zeros leaves nothing to round. *)
Lemma shr_1_even (q : Z) :
  0 <= q ->
  shr_1 (Build_shr_record (2 * q) false false) = Build_shr_record q false false.
Proof.
  intros Hq. destruct q as [|p|p]; [reflexivity | reflexivity | lia].
Qed.

Lemma iter_shr_1_exact (p : positive) : forall q,
  0 <= q ->
  iter_pos shr_1 p (Build_shr_record (q * 2 ^ Zpos p) false false)
  = Build_shr_record q false false.
Proof.
  induction p as [p IH | p IH |]; intros q Hq; cbn [iter_pos].
  - replace (q * 2 ^ Z.pos p~1) with (2 * ((q * 2 ^ Zpos p) * 2 ^ Zpos p)).
    + assert (0 < 2 ^ Zpos p) by (apply Z.pow_pos_nonneg; lia).
      rewrite shr_1_even by nia. rewrite IH by nia. apply IH. assumption.
    + replace (Z.pos p~1) with (Z.pos p + Z.pos p + 1) by lia.
      rewrite !Z.pow_add_r by lia. change (2 ^ 1) with 2. ring.
  - replace (q * 2 ^ Z.pos p~0) with ((q * 2 ^ Zpos p) * 2 ^ Zpos p).
    + assert (0 < 2 ^ Zpos p) by (apply Z.pow_pos_nonneg; lia).
      rewrite IH by nia. apply IH. assumption.
    + replace (Z.pos p~0) with (Z.pos p + Z.pos p) by lia.
      rewrite !Z.pow_add_r by lia. ring.
  - change (2 ^ 1) with 2. rewrite Z.mul_comm. apply shr_1_even. assumption.
Qed.

(** Rounding a 53-digit mantissa followed by [n] zeros drops the zeros. *)
Lemma binary_round_aux_exact (s : bool) (q : positive) (n ex : Z) :
  Zpos (digits2_pos q) = 53 ->
  0 <= n ->
  -1074 <= ex ->
  ex + n <= 971 ->
  binary_round_aux JS.prec JS.emax s (Zpos q * 2 ^ n) ex loc_Exact
  = S754_finite s q (ex + n).
Proof.
  intros Hq Hn Hex Hfit.
  pose proof (digits2_bounds q) as [Hlow Hhigh]. rewrite Hq in Hlow, Hhigh.
  assert (Hpow : 0 < 2 ^ n) by (apply Z.pow_pos_nonneg; lia).
  assert (Hd : Zdigits2 (Zpos q * 2 ^ n) = 53 + n).
  { apply Zdigits2_unique; [nia|].
    replace (53 + n - 1) with (52 + n) by lia.
    rewrite !Z.pow_add_r by lia.
    change (53 - 1) with 52 in Hlow.
    split; [apply Z.mul_le_mono_nonneg_r | apply Z.mul_lt_mono_pos_r]; lia. }
  assert (Hfirst : shr_fexp JS.prec JS.emax (Zpos q * 2 ^ n) ex loc_Exact
                   = (Build_shr_record (Zpos q) false false, ex + n)).
  { unfold shr_fexp. rewrite Hd, fexp_normal by lia.
    replace (53 + n + ex - 53 - ex) with n by lia.
    cbn [shr_record_of_loc]. unfold shr.
    destruct n as [|p|p]; [|rewrite iter_shr_1_exact by lia; reflexivity | lia].
    rewrite Z.mul_1_r, Z.add_0_r. reflexivity. }
  unfold binary_round_aux. rewrite Hfirst.
  cbn [shr_m loc_of_shr_record round_nearest_even].
  rewrite shr_fexp_exact_nop by (cbn [Zdigits2]; lia).
  cbn [shr_record_of_loc shr_m].
  assert (Hle : (ex + n <=? JS.emax - JS.prec) = true)
    by (apply Z.leb_le; unfold JS.emax, JS.prec; lia).
  rewrite Hle. reflexivity.
Qed.

(** [binary_round] returns the 53-digit form of the number it is given,
    when that number has one. *)
Lemma binary_round_canonical (s : bool) (p : positive) (e : Z) (q : positive) (k : Z) :
  Zpos (digits2_pos q) = 53 ->
  -1074 <= e ->
  -1074 <= k <= 971 ->
  (e <= k /\ Zpos p = Zpos q * 2 ^ (k - e))
  \/ (k <= e /\ Zpos q = Zpos p * 2 ^ (e - k)) ->
  binary_round JS.prec JS.emax s p e = S754_finite s q k.
Proof.
  intros Hq He Hk Hvalue.
  pose proof (digits2_bounds q) as [Hlow Hhigh]. rewrite Hq in Hlow, Hhigh.
  change (53 - 1) with 52 in Hlow.
  assert (Hdigits : Zpos (digits2_pos p) + e = 53 + k).
  { destruct Hvalue as [[Hle Hp] | [Hle Hqp]].
    - assert (Hpow : 0 < 2 ^ (k - e)) by (apply Z.pow_pos_nonneg; lia).
      enough (Zpos (digits2_pos p) = 53 + (k - e)) by lia.
      apply digits2_unique. rewrite Hp.
      replace (53 + (k - e) - 1) with (52 + (k - e)) by lia.
      rewrite !Z.pow_add_r by lia.
      split; [apply Z.mul_le_mono_nonneg_r | apply Z.mul_lt_mono_pos_r]; lia.
    - assert (Hpow : 0 < 2 ^ (e - k)) by (apply Z.pow_pos_nonneg; lia).
      enough (Zpos (digits2_pos p) = 53 - (e - k)) by lia.
      apply digits2_unique.
      assert (E1 : 2 ^ 52 = 2 ^ (53 - (e - k) - 1) * 2 ^ (e - k)).
      { destruct (Z.le_gt_cases (e - k) 52) as [Hsmall | Hbig].
        - rewrite <- Z.pow_add_r by lia. f_equal. lia.
        - exfalso.
          assert (2 ^ 53 <= 2 ^ (e - k)) by (apply Z.pow_le_mono_r; lia).
          nia. }
      assert (E2 : 2 ^ 53 = 2 ^ (53 - (e - k)) * 2 ^ (e - k)).
      { destruct (Z.le_gt_cases (e - k) 53) as [Hsmall | Hbig].
        - rewrite <- Z.pow_add_r by lia. f_equal. lia.
        - exfalso.
          assert (2 ^ 54 <= 2 ^ (e - k)) by (apply Z.pow_le_mono_r; lia).
          assert (2 ^ 53 < 2 ^ 54) by reflexivity.
          nia. }
      rewrite E1, E2, Hqp in *.
      split.
      + apply Z.mul_le_mono_pos_r with (p := 2 ^ (e - k)); lia.
      + apply Z.mul_lt_mono_pos_r with (p := 2 ^ (e - k)); lia. }
  unfold binary_round. rewrite Hdigits, fexp_normal by lia.
  replace (53 + k - 53) with k by lia.
  unfold shl_align.
  destruct (k - e) as [|d|d] eqn:Hshift.
  - (* the exponent is the canonical one *)
    assert (Hp : Zpos p = Zpos q).
    { destruct Hvalue as [[_ Hp] | [_ Hqp]].
      - rewrite Hp, ?Hshift. cbn. lia.
      - rewrite Hqp. replace (e - k) with 0 by lia. cbn. lia. }
    injection Hp as ->.
    replace (Zpos q) with (Zpos q * 2 ^ 0) by (cbn; lia).
    rewrite binary_round_aux_exact by lia. f_equal. lia.
  - (* more digits than 53: the zeros at the end are dropped *)
    destruct Hvalue as [[_ Hp] | [Hle _]]; [|lia].
    rewrite Hp, ?Hshift. rewrite binary_round_aux_exact by lia. f_equal. lia.
  - (* fewer digits: the mantissa is shifted to the left *)
    destruct Hvalue as [[Hle _] | [_ Hqp]]; [lia|].
    assert (Hsame : Pos.iter xO p d = q).
    { assert (Hz : Zpos (Pos.iter xO p d) = Zpos q).
      { rewrite iter_xO, Hqp. f_equal. f_equal. lia. }
      injection Hz as ->. reflexivity. }
    rewrite Hsame.
    replace (Zpos q) with (Zpos q * 2 ^ 0) by (cbn; lia).
    rewrite binary_round_aux_exact by lia. f_equal. lia.
Qed.

(** The double of a positive integer below 2^53. *)
Lemma of_int_finite (z : Z) :
  0 < z < 2 ^ 53 ->
  exists q k,
    JS.of_int z = S754_finite false q k
    /\ Zpos (digits2_pos q) = 53
    /\ -52 <= k <= 0
    /\ Zpos q = z * 2 ^ (- k).
Proof.
  intros Hz. destruct z as [|p|p]; try lia.
  unfold JS.of_int, binary_normalize. apply binary_round_exact. lia.
Qed.

Lemma shl_align_value (q : positive) (k ez : Z) :
  ez <= k ->
  Zpos (fst (shl_align q k ez)) = Zpos q * 2 ^ (k - ez).
Proof.
  intros Hle. unfold shl_align.
  destruct (ez - k) as [|d|d] eqn:Hshift; cbn [fst].
  - replace (k - ez) with 0 by lia. cbn. lia.
  - lia.
  - rewrite iter_xO. f_equal. f_equal. lia.
Qed.

(** Adding two non-negative integers whose sum is below 2^53 rounds
    nothing. *)
Lemma add_exact (a b : Z) :
  0 <= a -> 0 <= b -> a + b < 2 ^ 53 ->
  JS.add (JS.of_int a) (JS.of_int b) = JS.of_int (a + b).
Proof.
  intros Ha Hb Hsum.
  destruct (Z.eq_dec a 0) as [-> | Hapos].
  { rewrite Z.add_0_l. destruct (Z.eq_dec b 0) as [-> | Hbpos]; [reflexivity|].
    destruct (of_int_finite b) as (q & k & -> & _); [lia | reflexivity]. }
  destruct (Z.eq_dec b 0) as [-> | Hbpos].
  { rewrite Z.add_0_r.
    destruct (of_int_finite a) as (q & k & -> & _); [lia | reflexivity]. }
  destruct (of_int_finite a) as (qa & ka & Hofa & Hda & Hka & Hqa); [lia|].
  destruct (of_int_finite b) as (qb & kb & Hofb & Hdb & Hkb & Hqb); [lia|].
  destruct (of_int_finite (a + b)) as (q & k & Hof & Hd & Hk & Hq); [lia|].
  rewrite Hofa, Hofb, Hof. unfold JS.add, SFadd. cbn [cond_Zopp].
  set (ez := Z.min ka kb).
  assert (Hez : ez <= ka /\ ez <= kb /\ -52 <= ez <= 0) by (unfold ez; lia).
  pose proof (shl_align_value qa ka ez (proj1 Hez)) as Hva.
  pose proof (shl_align_value qb kb ez (proj1 (proj2 Hez))) as Hvb.
  remember (fst (shl_align qa ka ez)) as ma eqn:Hma.
  remember (fst (shl_align qb kb ez)) as mb eqn:Hmb.
  cbn [Z.add binary_normalize].
  apply binary_round_canonical; try lia.
  rewrite Pos2Z.inj_add, Hva, Hvb, Hqa, Hqb, Hq.
  assert (Ea : 2 ^ (- ka) * 2 ^ (ka - ez) = 2 ^ (- ez))
    by (rewrite <- Z.pow_add_r by lia; f_equal; lia).
  assert (Eb : 2 ^ (- kb) * 2 ^ (kb - ez) = 2 ^ (- ez))
    by (rewrite <- Z.pow_add_r by lia; f_equal; lia).
  rewrite <- !Z.mul_assoc, Ea, Eb.
  destruct (Z.le_gt_cases ez k) as [Hle | Hgt].
  - left. split; [assumption|].
    assert (Ek : 2 ^ (- k) * 2 ^ (k - ez) = 2 ^ (- ez))
      by (rewrite <- Z.pow_add_r by lia; f_equal; lia).
    rewrite Ek. ring.
  - right. split; [lia|].
    assert (Ek : 2 ^ (- ez) * 2 ^ (ez - k) = 2 ^ (- k))
      by (rewrite <- Z.pow_add_r by lia; f_equal; lia).
    replace ((a * 2 ^ (- ez) + b * 2 ^ (- ez)) * 2 ^ (ez - k))
      with ((a + b) * (2 ^ (- ez) * 2 ^ (ez - k))) by ring.
    rewrite Ek. reflexivity.
Qed.

(** A positive integer below 2^53 is greater than zero as a double. *)
Lemma of_int_positive (z : Z) :
  0 <= z < 2 ^ 53 -> JS.lt (JS.of_int 0) (JS.of_int z) = (z >? 0).
Proof.
  intros Hz. destruct (Z.eq_dec z 0) as [-> | Hpos]; [reflexivity|].
  destruct (of_int_finite z) as (q & k & -> & _); [lia|].
  cbn. symmetry. apply Z.gtb_lt. lia.
Qed.

(** Below 2^53 different integers are different doubles. *)
Lemma of_int_injective (a b : Z) :
  0 <= a < 2 ^ 53 -> 0 <= b < 2 ^ 53 -> JS.of_int a = JS.of_int b -> a = b.
Proof.
  intros Ha Hb Heq.
  destruct (Z.eq_dec a 0) as [-> | Hapos]; destruct (Z.eq_dec b 0) as [-> | Hbpos];
    try reflexivity.
  - destruct (of_int_finite b) as (q & k & Hq & _); [lia|].
    rewrite Hq in Heq. discriminate.
  - destruct (of_int_finite a) as (q & k & Hq & _); [lia|].
    rewrite Hq in Heq. discriminate.
  - destruct (of_int_finite a) as (qa & ka & Hqa & _ & Hka & Hva); [lia|].
    destruct (of_int_finite b) as (qb & kb & Hqb & _ & Hkb & Hvb); [lia|].
    rewrite Hqa, Hqb in Heq. injection Heq as Hq Hk. subst qb kb.
    rewrite Hva in Hvb.
    assert (Hpow : 0 < 2 ^ (- ka)) by (apply Z.pow_pos_nonneg; lia).
    nia.
Qed.

End Rounding.

Section Accuracy.
Local Open Scope Q_scope.


Lemma two_neq_0 : ~ 2 == 0.
Proof. discriminate. Qed.

Lemma Qpow2_pos (e : Z) : 0 < 2 ^ e.
Proof. apply Qpower_0_lt. reflexivity. Qed.

Lemma Qpow2_add (a b : Z) : 2 ^ (a + b) == 2 ^ a * 2 ^ b.
Proof. apply Qpower_plus, two_neq_0. Qed.

Lemma inject_pow2 (n : Z) : (0 <= n)%Z -> inject_Z (2 ^ n) == 2 ^ n.
Proof. intros Hn. apply (Zpower_Qpower 2 n Hn). Qed.

(** The same rounding over the rationals: whatever value [T] the
    location stands for between the mantissa and its successor, the
    result is within a relative [eps] of it. *)
Lemma binary_round_aux_Q (s : bool) (mx ex : Z) (lx : location) :
  (0 < mx)%Z ->
  (53 <= Zdigits2 mx)%Z ->
  (-1074 <= ex)%Z ->
  (Zdigits2 mx + ex <= 1023)%Z ->
  exists m e,
    binary_round_aux JS.prec JS.emax s mx ex lx = S754_finite s m e
    /\ Zpos (digits2_pos m) = 53%Z
    /\ (ex + (Zdigits2 mx - 53) <= e <= ex + (Zdigits2 mx - 53) + 1)%Z
    /\ forall T : Q,
         inject_Z mx <= T <= inject_Z mx + 1 ->
         T * 2 ^ ex * (1 - eps) <= F2Q m e <= T * 2 ^ ex * (1 + eps).
Proof.
  intros Hmx Hd Hex Hmax.
  destruct (binary_round_aux_spec s mx ex lx Hmx Hd Hex Hmax)
    as (m & e & Hr & Hdm & Hlo & Hcases & _).
  remember (Zdigits2 mx - 53)%Z as n eqn:En.
  assert (Hn : (0 <= n)%Z) by lia.
  assert (HW : (0 < 2 ^ n)%Z) by (apply Z.pow_pos_nonneg; lia).
  assert (EW : inject_Z (2 ^ n) == 2 ^ n) by (apply inject_pow2; lia).
  remember (2 ^ n)%Z as W eqn:EWdef.
  assert (HL : (mx / W * W <= mx < mx / W * W + W)%Z).
  { pose proof (Z.mul_div_le mx W HW).
    pose proof (Z.mul_succ_div_gt mx W HW). lia. }
  remember (mx / W)%Z as lo eqn:Elo.
  exists m, e. split; [exact Hr|]. split; [exact Hdm|]. split; [lia|].
  intros T [HT1 HT2].
  assert (HV : exists V : Z, F2Q m e == inject_Z V * 2 ^ ex
                             /\ (V = lo * W \/ V = lo * W + W)%Z).
  { unfold F2Q.
    destruct Hcases as [[Hm He] | [[Hm He] | [Hm [He Hcarry]]]]; subst e; rewrite Hm.
    - exists (lo * W)%Z. split; [|left; reflexivity].
      rewrite Qpow2_add, inject_Z_mult, EW. ring.
    - exists (lo * W + W)%Z. split; [|right; reflexivity].
      rewrite Qpow2_add, !inject_Z_plus, !inject_Z_mult, EW. ring.
    - exists (lo * W + W)%Z. split; [|right; reflexivity].
      replace (lo * W + W)%Z with ((lo + 1) * W)%Z by ring.
      rewrite Hcarry. rewrite !Qpow2_add, !inject_Z_mult, EW.
      change (inject_Z (2 ^ 52)) with (2 ^ 52). change (inject_Z (2 ^ 53)) with (2 ^ 53).
      change (2 ^ 53) with (2 ^ 52 * 2 ^ 1). ring. }
  destruct HV as (V & HVeq & HVcase).
  rewrite HVeq.
  pose proof (Qpow2_pos ex) as HX.
  set (X := 2 ^ ex) in *.
  assert (HLW : (2 ^ 52 * W <= lo * W)%Z) by (apply Z.mul_le_mono_nonneg_r; lia).
  assert (Hb1 : inject_Z (lo * W) <= T).
  { apply Qle_trans with (inject_Z mx); [|assumption].
    rewrite <- Zle_Qle. lia. }
  assert (Hb2 : T <= inject_Z (lo * W) + inject_Z W).
  { apply Qle_trans with (inject_Z mx + 1); [assumption|].
    rewrite <- inject_Z_plus. change 1 with (inject_Z 1).
    rewrite <- inject_Z_plus, <- Zle_Qle. lia. }
  assert (Hb3 : inject_Z (2 ^ 52) * inject_Z W <= inject_Z (lo * W)).
  { rewrite <- inject_Z_mult, <- Zle_Qle. exact HLW. }
  assert (HVQ : inject_Z V == inject_Z (lo * W)
                \/ inject_Z V == inject_Z (lo * W) + inject_Z W).
  { destruct HVcase as [-> | ->]; [left; reflexivity | right].
    rewrite inject_Z_plus. reflexivity. }
  assert (HWQ : 0 <= inject_Z W).
  { change 0 with (inject_Z 0). rewrite <- Zle_Qle. lia. }
  change (inject_Z (2 ^ 52)) with (4503599627370496 # 1) in Hb3.
  assert (Hgoal : T * (1 - eps) <= inject_Z V <= T * (1 + eps)).
  { unfold eps. change (2 ^ 52)%positive with 4503599627370496%positive.
    destruct HVQ as [-> | ->]; split; lra. }
  destruct Hgoal as [Hg1 Hg2]. split.
  - setoid_replace (T * X * (1 - eps)) with (T * (1 - eps) * X) by ring.
    apply Qmult_le_compat_r; [assumption | apply Qlt_le_weak, HX].
  - setoid_replace (T * X * (1 + eps)) with (T * (1 + eps) * X) by ring.
    apply Qmult_le_compat_r; [assumption | apply Qlt_le_weak, HX].
Qed.

Lemma F2Q_pos (m : positive) (e : Z) : 0 < F2Q m e.
Proof.
  unfold F2Q. apply Qmult_lt_0_compat; [reflexivity | apply Qpow2_pos].
Qed.

(** Integers below 2^53 convert exactly. *)
Lemma of_int_Q (z : Z) :
  (0 < z < 2 ^ 53)%Z ->
  exists m e,
    JS.of_int z = S754_finite false m e
    /\ Zpos (digits2_pos m) = 53%Z
    /\ (-52 <= e <= 0)%Z
    /\ F2Q m e == inject_Z z.
Proof.
  intros [Hpos Hlt]. destruct z as [|p|p]; try lia.
  destruct (binary_round_exact false p Hlt) as (m & e & Hr & Hd & He & Hm).
  exists m, e. split; [exact Hr|]. split; [exact Hd|]. split; [exact He|].
  unfold F2Q. rewrite Hm, inject_Z_mult, inject_pow2 by lia.
  rewrite <- Qmult_assoc, <- Qpow2_add.
  replace (- e + e)%Z with 0%Z by lia. change (2 ^ 0) with 1. ring.
Qed.

Lemma Zdigits2_le (m d : Z) : (0 < m < 2 ^ d)%Z -> (0 <= d)%Z -> (Zdigits2 m <= d)%Z.
Proof.
  intros [Hm Hlt] Hd. pose proof (Zdigits2_pos_bounds m Hm) as [Hlow _].
  destruct (Z.leb_spec (Zdigits2 m) d); [assumption|].
  assert (2 ^ d <= 2 ^ (Zdigits2 m - 1))%Z by (apply Z.pow_le_mono_r; lia). lia.
Qed.

Lemma Zdigits2_ge (m d : Z) : (2 ^ (d - 1) <= m)%Z -> (0 < m)%Z -> (d <= Zdigits2 m)%Z.
Proof.
  intros Hlow Hm. pose proof (Zdigits2_pos_bounds m Hm) as [_ Hhigh].
  destruct (Z.leb_spec d (Zdigits2 m)); [assumption|].
  assert (2 ^ Zdigits2 m <= 2 ^ (d - 1))%Z by (apply Z.pow_le_mono_r; [lia|]; lia). lia.
Qed.

Lemma mantissa_range (m : positive) :
  Zpos (digits2_pos m) = 53%Z -> (2 ^ 52 <= Zpos m < 2 ^ 53)%Z.
Proof.
  intros Hd. pose proof (digits2_bounds m) as H. rewrite Hd in H. exact H.
Qed.

(** The product of two doubles is within a relative [eps] of the exact
    product. *)
Lemma mul_Q (s1 s2 : bool) (m1 m2 : positive) (e1 e2 : Z) :
  Zpos (digits2_pos m1) = 53%Z ->
  Zpos (digits2_pos m2) = 53%Z ->
  (-1074 <= e1 + e2)%Z ->
  (e1 + e2 <= 900)%Z ->
  exists m e,
    JS.mul (S754_finite s1 m1 e1) (S754_finite s2 m2 e2) = S754_finite (xorb s1 s2) m e
    /\ Zpos (digits2_pos m) = 53%Z
    /\ (e1 + e2 + 52 <= e <= e1 + e2 + 54)%Z
    /\ F2Q m1 e1 * F2Q m2 e2 * (1 - eps) <= F2Q m e
       <= F2Q m1 e1 * F2Q m2 e2 * (1 + eps).
Proof.
  intros Hd1 Hd2 Hlow Hhigh.
  pose proof (mantissa_range m1 Hd1) as [L1 U1].
  pose proof (mantissa_range m2 Hd2) as [L2 U2].
  assert (Hprod : (2 ^ 104 <= Zpos m1 * Zpos m2 < 2 ^ 106)%Z).
  { change (2 ^ 104)%Z with (2 ^ 52 * 2 ^ 52)%Z.
    change (2 ^ 106)%Z with (2 ^ 53 * 2 ^ 53)%Z. split.
    - apply Z.mul_le_mono_nonneg; lia.
    - apply Z.mul_lt_mono_nonneg; lia. }
  assert (Hdlow : (105 <= Zdigits2 (Zpos (m1 * m2)))%Z).
  { apply Zdigits2_ge; [|lia]. rewrite Pos2Z.inj_mul. change (105 - 1)%Z with 104%Z. lia. }
  assert (Hdhigh : (Zdigits2 (Zpos (m1 * m2)) <= 106)%Z).
  { apply Zdigits2_le; [|lia]. rewrite Pos2Z.inj_mul. lia. }
  destruct (binary_round_aux_Q (xorb s1 s2) (Zpos (m1 * m2)) (e1 + e2) loc_Exact)
    as (m & e & Hr & Hd & He & Hbound); try lia.
  exists m, e. split; [exact Hr|]. split; [exact Hd|]. split; [lia|].
  specialize (Hbound (inject_Z (Zpos (m1 * m2)))).
  assert (Hval : inject_Z (Zpos (m1 * m2)) * 2 ^ (e1 + e2) == F2Q m1 e1 * F2Q m2 e2).
  { unfold F2Q. rewrite Pos2Z.inj_mul, inject_Z_mult, Qpow2_add. ring. }
  rewrite Hval in Hbound. apply Hbound. split; lra.
Qed.

(** The quotient of two doubles that hold integers below 2^53 is within a
    relative [eps] of the exact quotient. *)
Lemma div_Q (s1 s2 : bool) (m1 m2 : positive) (e1 e2 : Z) :
  Zpos (digits2_pos m1) = 53%Z ->
  Zpos (digits2_pos m2) = 53%Z ->
  (-52 <= e1 <= 0)%Z ->
  (-52 <= e2 <= 0)%Z ->
  exists m e,
    JS.div (S754_finite s1 m1 e1) (S754_finite s2 m2 e2) = S754_finite (xorb s1 s2) m e
    /\ Zpos (digits2_pos m) = 53%Z
    /\ (e1 - e2 - 53 <= e <= e1 - e2 - 51)%Z
    /\ F2Q m1 e1 / F2Q m2 e2 * (1 - eps) <= F2Q m e
       <= F2Q m1 e1 / F2Q m2 e2 * (1 + eps).
Proof.
  intros Hd1 Hd2 He1 He2.
  pose proof (mantissa_range m1 Hd1) as [L1 U1].
  pose proof (mantissa_range m2 Hd2) as [L2 U2].
  unfold JS.div, SFdiv, SFdiv_core_binary. cbn [Zdigits2]. rewrite Hd1, Hd2.
  rewrite fexp_normal by lia.
  replace (53 + e1 - (53 + e2) - 53)%Z with (e1 - e2 - 53)%Z by lia.
  rewrite Z.min_l by lia.
  replace (e1 - e2 - (e1 - e2 - 53))%Z with 53%Z by lia.
  rewrite Z.shiftl_mul_pow2 by lia.
  pose proof (Z_div_mod (Zpos m1 * 2 ^ 53) (Zpos m2) ltac:(lia)) as Hdm.
  destruct (Z.div_eucl (Zpos m1 * 2 ^ 53) (Zpos m2)) as [q r].
  destruct Hdm as [Hq Hr].
  assert (Hqlow : (2 ^ 52 <= q)%Z).
  { destruct (Z.leb_spec (2 ^ 52) q); [assumption|].
    assert (Zpos m2 * q + r < Zpos m2 * 2 ^ 52)%Z by nia.
    assert (Zpos m2 * 2 ^ 52 <= Zpos m1 * 2 ^ 53)%Z by nia. lia. }
  assert (Hqhigh : (q < 2 ^ 54)%Z).
  { destruct (Z.ltb_spec q (2 ^ 54)); [assumption|].
    assert (Zpos m2 * 2 ^ 54 <= Zpos m2 * q)%Z by (apply Z.mul_le_mono_nonneg_l; lia).
    assert (Zpos m1 * 2 ^ 53 < 2 ^ 52 * 2 ^ 54)%Z by nia.
    assert (2 ^ 52 * 2 ^ 54 <= Zpos m2 * 2 ^ 54)%Z by nia. lia. }
  assert (Hdlow : (53 <= Zdigits2 q)%Z) by (apply Zdigits2_ge; [exact Hqlow | lia]).
  assert (Hdhigh : (Zdigits2 q <= 54)%Z) by (apply Zdigits2_le; lia).
  destruct (binary_round_aux_Q (xorb s1 s2) q (e1 - e2 - 53) (new_location (Zpos m2) r))
    as (m & e & Hres & Hd & He & Hbound); try lia.
  exists m, e. split; [exact Hres|]. split; [exact Hd|]. split; [lia|].
  specialize (Hbound (inject_Z (Zpos m1 * 2 ^ 53) / inject_Z (Zpos m2))).
  assert (Hm2 : 0 < inject_Z (Zpos m2)) by reflexivity.
  assert (Hval : inject_Z (Zpos m1 * 2 ^ 53) / inject_Z (Zpos m2) * 2 ^ (e1 - e2 - 53)
                 == F2Q m1 e1 / F2Q m2 e2).
  { unfold F2Q.
    assert (Hsplit : 2 ^ e1 == 2 ^ (e1 - e2 - 53) * 2 ^ e2 * 2 ^ 53).
    { rewrite <- !Qpow2_add. replace (e1 - e2 - 53 + e2 + 53)%Z with e1 by lia.
      reflexivity. }
    rewrite Hsplit, inject_Z_mult.
    change (inject_Z (2 ^ 53)) with (2 ^ 53).
    pose proof (Qpow2_pos e2). pose proof (Qpow2_pos (e1 - e2 - 53)).
    field. split; lra. }
  rewrite Hval in Hbound. apply Hbound.
  rewrite Hq. split.
  - apply Qle_shift_div_l; [exact Hm2|].
    rewrite <- inject_Z_mult, <- Zle_Qle. lia.
  - apply Qle_shift_div_r; [exact Hm2|].
    change 1 with (inject_Z 1). rewrite <- inject_Z_plus, <- inject_Z_mult, <- Zle_Qle. lia.
Qed.

Lemma of_int_100 : JS.of_int 100 = S754_finite false 7036874417766400 (-46).
Proof. reflexivity. Qed.

Lemma F2Q_100 : F2Q 7036874417766400 (-46) == 100.
Proof. reflexivity. Qed.

(** [(c / e) * 100] in binary64, two roundings away from 100 c / e. *)
Lemma percentage_Q (c e : Z) :
  (0 < c < 2 ^ 53)%Z ->
  (0 < e < 2 ^ 53)%Z ->
  exists m k,
    percentage c e = S754_finite false m k
    /\ 100 * (inject_Z c / inject_Z e) * ((1 - eps) * (1 - eps)) <= F2Q m k
       <= 100 * (inject_Z c / inject_Z e) * ((1 + eps) * (1 + eps)).
Proof.
  intros Hc He.
  destruct (of_int_Q c Hc) as (mc & ec & Hofc & Hdc & Hec & Hvc).
  destruct (of_int_Q e He) as (me & ee & Hofe & Hde & Hee & Hve).
  destruct (div_Q false false mc me ec ee Hdc Hde Hec Hee)
    as (m1 & e1 & Hdiv & Hd1 & He1 & Hb1).
  destruct (mul_Q false false m1 7036874417766400 e1 (-46) Hd1 eq_refl)
    as (m & k & Hmul & Hd & Hk & Hb); try lia.
  exists m, k. split.
  - unfold percentage. rewrite Hofc, Hofe, of_int_100, Hdiv. exact Hmul.
  - rewrite Hvc, Hve in Hb1. rewrite F2Q_100 in Hb.
    assert (Hr : 0 < inject_Z c / inject_Z e).
    { apply Qlt_shift_div_l.
      - change 0 with (inject_Z 0). rewrite <- Zlt_Qlt. lia.
      - rewrite Qmult_0_l. change 0 with (inject_Z 0). rewrite <- Zlt_Qlt. lia. }
    set (r := inject_Z c / inject_Z e) in *.
    set (v := F2Q m1 e1) in *. set (x := F2Q m k) in *.
    unfold eps in *. change (2 ^ 52)%positive with 4503599627370496%positive in *.
    split; lra.
Qed.

Lemma Qpow2_opp (k : Z) : 2 ^ k * 2 ^ (- k) == 1.
Proof.
  rewrite <- Qpow2_add. replace (k + - k)%Z with 0%Z by lia. reflexivity.
Qed.

(** [toFixed(2)] picks hundredths within a half of the double. *)
Lemma nearest_hundredth_Q (m : positive) (k : Z) :
  inject_Z (JS.nearest_hundredth m k) - (1 # 2) <= 100 * F2Q m k
  <= inject_Z (JS.nearest_hundredth m k) + (1 # 2).
Proof.
  unfold JS.nearest_hundredth, F2Q.
  destruct (Z.leb_spec 0 k) as [Hk | Hk].
  - rewrite !inject_Z_mult, inject_pow2 by lia.
    change (inject_Z 100) with 100.
    set (y := 100 * inject_Z (Z.pos m) * 2 ^ k).
    setoid_replace (100 * (inject_Z (Z.pos m) * 2 ^ k)) with y by (unfold y; ring).
    split; lra.
  - assert (HP : (0 < 2 ^ (- k))%Z) by (apply Z.pow_pos_nonneg; lia).
    assert (E2P : (2 ^ (1 - k) = 2 * 2 ^ (- k))%Z).
    { replace (1 - k)%Z with (1 + - k)%Z by lia. rewrite Z.pow_add_r by lia. reflexivity. }
    rewrite E2P.
    assert (EPQ : inject_Z (2 ^ (- k)) == 2 ^ (- k)) by (apply inject_pow2; lia).
    pose proof (Qpow2_opp k) as Hinv.
    remember (2 ^ (- k))%Z as P eqn:EP.
    pose proof (Z.mul_div_le (200 * Z.pos m + P) (2 * P) ltac:(lia)) as Hlow.
    pose proof (Z.mul_succ_div_gt (200 * Z.pos m + P) (2 * P) ltac:(lia)) as Hhigh.
    remember ((200 * Z.pos m + P) / (2 * P))%Z as n eqn:En.
    assert (HlowQ : 2 * inject_Z P * inject_Z n <= 200 * inject_Z (Z.pos m) + inject_Z P).
    { change 2 with (inject_Z 2). change 200 with (inject_Z 200).
      rewrite <- !inject_Z_mult, <- inject_Z_plus, <- Zle_Qle. lia. }
    assert (HhighQ : 200 * inject_Z (Z.pos m) + inject_Z P
                     <= 2 * inject_Z P * inject_Z n + 2 * inject_Z P).
    { change 2 with (inject_Z 2). change 200 with (inject_Z 200).
      rewrite <- !inject_Z_mult, <- !inject_Z_plus, <- Zle_Qle. lia. }
    assert (HPQ : 0 < inject_Z P).
    { change 0 with (inject_Z 0). rewrite <- Zlt_Qlt. lia. }
    rewrite <- EPQ in Hinv.
    pose proof (Qpow2_pos k) as HX.
    set (X := 2 ^ k) in *. set (M := inject_Z (Z.pos m)) in *.
    set (p := inject_Z P) in *. set (N := inject_Z n) in *.
    (* 100 * M * X, with X * p == 1 *)
    assert (Hy : 100 * (M * X) * (2 * p) == 200 * M).
    { setoid_replace (100 * (M * X) * (2 * p)) with (200 * M * (X * p)) by ring.
      rewrite Hinv. ring. }
    split.
    + apply Qmult_le_r with (z := 2 * p); [lra|]. rewrite Hy.
      setoid_replace ((N - (1 # 2)) * (2 * p)) with (2 * p * N - p) by ring. lra.
    + apply Qmult_le_r with (z := 2 * p); [lra|]. rewrite Hy.
      setoid_replace ((N + (1 # 2)) * (2 * p)) with (2 * p * N + p) by ring. lra.
Qed.

(** A double below 10^21 is rendered in fixed notation. *)
Lemma below_1e21 (m : positive) (k : Z) :
  F2Q m k < inject_Z (10 ^ 21) -> JS.at_least_1e21 m k = false.
Proof.
  unfold JS.at_least_1e21, F2Q. intros Hx.
  destruct (Z.leb_spec 0 k) as [Hk | Hk].
  - apply Z.leb_gt. rewrite <- inject_pow2 in Hx by lia.
    rewrite <- inject_Z_mult, <- Zlt_Qlt in Hx. exact Hx.
  - apply Z.leb_gt.
    assert (EPQ : inject_Z (2 ^ (- k)) == 2 ^ (- k)) by (apply inject_pow2; lia).
    pose proof (Qpow2_opp k) as Hinv. rewrite <- EPQ in Hinv.
    assert (HP : (0 < 2 ^ (- k))%Z) by (apply Z.pow_pos_nonneg; lia).
    remember (2 ^ (- k))%Z as P eqn:EP.
    assert (HPQ : 0 < inject_Z P).
    { change 0 with (inject_Z 0). rewrite <- Zlt_Qlt. lia. }
    rewrite Zlt_Qlt, inject_Z_mult.
    apply Qmult_lt_r with (z := inject_Z P) in Hx; [|exact HPQ].
    setoid_replace (inject_Z (Z.pos m) * 2 ^ k * inject_Z P)
      with (inject_Z (Z.pos m) * (2 ^ k * inject_Z P)) in Hx by ring.
    rewrite Hinv, Qmult_1_r in Hx. exact Hx.
Qed.

(** For positive counts below 2^53 the percentage is a finite double in
    the fixed-notation range, and the hundredths [toFixed(2)] picks for
    it are those of 100 c / e up to half a hundredth and the two
    roundings. *)
Theorem rate_accuracy (c e : Z) :
  (0 < c < 2 ^ 53)%Z ->
  (0 < e < 2 ^ 53)%Z ->
  exists m k,
    percentage c e = S754_finite false m k
    /\ JS.at_least_1e21 m k = false
    /\ (0 <= JS.nearest_hundredth m k)%Z
    /\ (2 ^ 51 * Z.abs (JS.nearest_hundredth m k * e - 10000 * c)
        <= 2 ^ 50 * e + 20000 * c)%Z.
Proof.
  intros Hc He.
  destruct (percentage_Q c e Hc He) as (m & k & Hp & Hlow & Hhigh).
  exists m, k. split; [exact Hp|].
  pose proof (nearest_hundredth_Q m k) as [Hn1 Hn2].
  remember (JS.nearest_hundredth m k) as n eqn:En.
  assert (HC : 0 < inject_Z c) by (change 0 with (inject_Z 0); rewrite <- Zlt_Qlt; lia).
  assert (HE : 1 <= inject_Z e) by (change 1 with (inject_Z 1); rewrite <- Zle_Qle; lia).
  assert (HCmax : inject_Z c <= 9007199254740992).
  { change 9007199254740992 with (inject_Z (2 ^ 53)). rewrite <- Zle_Qle. lia. }
  assert (Hr : inject_Z c / inject_Z e <= inject_Z c).
  { apply Qle_shift_div_r; [lra|]. nra. }
  assert (Hr0 : 0 < inject_Z c / inject_Z e).
  { apply Qlt_shift_div_l; [lra|]. lra. }
  assert (HrE : inject_Z c / inject_Z e * inject_Z e == inject_Z c).
  { field. lra. }
  pose proof (F2Q_pos m k) as Hx.
  set (x := F2Q m k) in *. set (C := inject_Z c) in *. set (E := inject_Z e) in *.
  set (r := C / E) in *. set (N := inject_Z n) in *.
  unfold eps in *. change (2 ^ 52)%positive with 4503599627370496%positive in *.
  split; [|split].
  - apply below_1e21. fold x. change (inject_Z (10 ^ 21)) with 1000000000000000000000. lra.
  - destruct (Z.leb_spec 0 n) as [|Hneg]; [assumption|exfalso].
    assert (N <= -1).
    { unfold N. change (-1) with (inject_Z (-1)). rewrite <- Zle_Qle. lia. }
    lra.
  - assert (Hup : N * E <= 10000 * C * ((1 + (1 # 4503599627370496)) * (1 + (1 # 4503599627370496))) + (1 # 2) * E).
    { setoid_replace (10000 * C * ((1 + (1 # 4503599627370496)) * (1 + (1 # 4503599627370496))) + (1 # 2) * E)
        with ((10000 * r * ((1 + (1 # 4503599627370496)) * (1 + (1 # 4503599627370496))) + (1 # 2)) * E)
        by (rewrite <- HrE; ring).
      apply Qmult_le_compat_r; lra. }
    assert (Hdown : 10000 * C * ((1 - (1 # 4503599627370496)) * (1 - (1 # 4503599627370496))) - (1 # 2) * E <= N * E).
    { setoid_replace (10000 * C * ((1 - (1 # 4503599627370496)) * (1 - (1 # 4503599627370496))) - (1 # 2) * E)
        with ((10000 * r * ((1 - (1 # 4503599627370496)) * (1 - (1 # 4503599627370496))) - (1 # 2)) * E)
        by (rewrite <- HrE; ring).
      apply Qmult_le_compat_r; lra. }
    assert (H1 : inject_Z (2 ^ 51) * (N * E - 10000 * C)
                 <= inject_Z (2 ^ 50) * E + 20000 * C).
    { change (inject_Z (2 ^ 51)) with 2251799813685248.
      change (inject_Z (2 ^ 50)) with 1125899906842624. lra. }
    assert (H2 : inject_Z (2 ^ 51) * (10000 * C - N * E)
                 <= inject_Z (2 ^ 50) * E + 20000 * C).
    { change (inject_Z (2 ^ 51)) with 2251799813685248.
      change (inject_Z (2 ^ 50)) with 1125899906842624. lra. }
    unfold N, E, C in H1, H2.
    change 10000 with (inject_Z 10000) in H1, H2.
    change 20000 with (inject_Z 20000) in H1, H2.
    rewrite <- !inject_Z_mult, <- ?inject_Z_plus in H1, H2.
    unfold Qminus in H1, H2. rewrite <- !inject_Z_opp, <- !inject_Z_plus in H1, H2.
    rewrite <- !inject_Z_mult, <- ?inject_Z_plus in H1, H2.
    rewrite <- Zle_Qle in H1, H2. lia.
Qed.

End Accuracy.

(** ** The dashboard *)

Section Rendering.

Lemma append_assoc (a b c : string) : (a ++ b) ++ c = a ++ b ++ c.
Proof.
  induction a as [|x a IH]; simpl; [reflexivity | rewrite IH; reflexivity].
Qed.

Lemma length_append (a b : string) :
  String.length (a ++ b) = (String.length a + String.length b)%nat.
Proof.
  induction a as [|x a IH]; simpl; [reflexivity | rewrite IH; reflexivity].
Qed.

Lemma all_digits_append (a b : string) :
  all_digits a = true -> all_digits b = true -> all_digits (a ++ b) = true.
Proof.
  induction a as [|x a IH]; simpl; intros Ha Hb.
  - assumption.
  - apply andb_true_iff in Ha as [Hx Ha]. rewrite Hx. simpl. auto.
Qed.

Lemma length_zeros (k : nat) : String.length (JS.zeros k) = k.
Proof.
  induction k as [|k IH]; simpl; [reflexivity | rewrite IH; reflexivity].
Qed.

Lemma all_digits_zeros (k : nat) : all_digits (JS.zeros k) = true.
Proof.
  induction k as [|k IH]; simpl; [reflexivity | assumption].
Qed.

Lemma all_digits_uint (d : Decimal.uint) :
  all_digits (NilEmpty.string_of_uint d) = true.
Proof.
  induction d; simpl; auto.
Qed.

Lemma all_digits_digits (n : Z) : all_digits (JS.digits n) = true.
Proof.
  apply all_digits_uint.
Qed.

(** The last two characters of a string of digits. *)
Lemma last_two_digits (s : string) :
  all_digits s = true ->
  (2 <= String.length s)%nat ->
  exists d1 d2,
    substring (String.length s - 2) 2 s = String d1 (String d2 EmptyString)
    /\ is_digit d1 = true /\ is_digit d2 = true.
Proof.
  induction s as [|c s IH]; simpl; intros Hall Hlen.
  - lia.
  - apply andb_true_iff in Hall as [Hc Hall].
    destruct (Nat.le_gt_cases 2 (String.length s)) as [Hlong | Hshort].
    + destruct (IH Hall Hlong) as (d1 & d2 & Hsub & Hd1 & Hd2).
      exists d1, d2. repeat split; try assumption.
      replace (String.length s - 1)%nat with (S (String.length s - 2)) by lia.
      exact Hsub.
    + destruct s as [|c' s]; simpl in *; [lia|].
      destruct s as [|c'' s]; simpl in *; [|lia].
      apply andb_true_iff in Hall as [Hc' _].
      exists c, c'. repeat split; assumption.
Qed.

(** Fixed notation puts exactly two digits after the point. *)
Lemma fixed2_two_decimals (sign : string) (n : Z) :
  two_decimals (sign ++ JS.fixed2 n).
Proof.
  unfold JS.fixed2.
  set (m := if (String.length (JS.digits n) <=? 2)%nat
            then JS.zeros (3 - String.length (JS.digits n)) ++ JS.digits n
            else JS.digits n).
  assert (Hall : all_digits m = true).
  { unfold m. destruct (String.length (JS.digits n) <=? 2)%nat.
    - apply all_digits_append; [apply all_digits_zeros | apply all_digits_digits].
    - apply all_digits_digits. }
  assert (Hlen : (2 <= String.length m)%nat).
  { unfold m. destruct (String.length (JS.digits n) <=? 2)%nat eqn:Hk.
    - apply Nat.leb_le in Hk. rewrite length_append, length_zeros. lia.
    - apply Nat.leb_gt in Hk. lia. }
  destruct (last_two_digits m Hall Hlen) as (d1 & d2 & Hsub & Hd1 & Hd2).
  exists (sign ++ substring 0 (String.length m - 2) m), d1, d2.
  rewrite Hsub, append_assoc. repeat split; assumption.
Qed.

Lemma toFixed2_two_decimals (toString : JS.double -> string) (x : JS.double) :
  fixed_notation x = true -> two_decimals (JS.toFixed2 toString x).
Proof.
  destruct x as [s | s | | s m e]; simpl; intros Hx; try discriminate.
  - apply (fixed2_two_decimals "" 0).
  - apply negb_true_iff in Hx. rewrite Hx. apply fixed2_two_decimals.
Qed.

(** For counts below 2^53 the percentage is rendered in fixed notation,
    as the hundredths nearest to its binary64 value. *)
Lemma toFixed2_percentage (toString : JS.double -> string) (c e : Z) :
  0 <= c < 2 ^ 53 ->
  0 < e < 2 ^ 53 ->
  exists n,
    JS.toFixed2 toString (percentage c e) = JS.fixed2 n
    /\ hundredths_of_percentage n c e.
Proof.
  intros Hc He. destruct (Z.eq_dec c 0) as [-> | Hnonzero].
  - exists 0. split.
    + destruct (of_int_Q e He) as (me & ee & Hofe & _).
      unfold percentage. rewrite Hofe. reflexivity.
    + unfold hundredths_of_percentage. rewrite Z.mul_0_l, Z.mul_0_r. cbn [Z.sub Z.opp Z.add Z.abs].
      lia.
  - destruct (rate_accuracy c e) as (m & k & Hp & Hfixed & Hn & Hbound); try lia.
    exists (JS.nearest_hundredth m k). split.
    + rewrite Hp. cbn [JS.toFixed2]. rewrite Hfixed. reflexivity.
    + split; assumption.
Qed.

End Rendering.

Section Dashboard.
Context `{Platform}.

(** The dashboard in closed form over the visible records. *)
Lemma get_dashboard_summary (user : User.t) (coll : list Employee.t) :
  let seen := filter (visible user) coll in
  let enrolled := binary64_sum Employee.coursesEnrolled seen in
  let completed := binary64_sum Employee.coursesCompleted seen in
  let registered :=
    Z.of_nat (List.length (filter Employee.isRegisteredOnIGOT seen)) in
  get_dashboard user coll
  = ok 200
      (Summary
         (mkSummary (Z.of_nat (List.length seen)) registered
            (Z.of_nat (List.length seen) - registered) enrolled completed
            (JS.toFixed2 Number_toString
               (if JS.lt (JS.of_int 0) enrolled
                then JS.mul (JS.div completed enrolled) (JS.of_int 100)
                else JS.of_int 0)))).
Proof.
  intros seen enrolled completed registered.
  unfold get_dashboard, try_catch, Employee.find, bind, ret.
  cbn [Employee.c_reportDate Employee.c_officeId].
  rewrite (filter_ext _ _ (matches_visible user)).
  reflexivity.
Qed.

(** Counts that are not negative add up without rounding as long as the
    sum stays below 2^53. *)
Lemma binary64_sum_from (f : Employee.t -> Z) (l : list Employee.t) : forall a,
  0 <= a ->
  Forall (fun e => 0 <= f e) l ->
  a + total f l < 2 ^ 53 ->
  fold_left (fun sum emp => JS.add sum (JS.of_int (f emp))) l (JS.of_int a)
  = JS.of_int (a + total f l).
Proof.
  induction l as [|e l IH]; intros a Ha Hall Hsum; simpl.
  - rewrite Z.add_0_r. reflexivity.
  - inversion Hall as [|e' l' He Hl]; subst.
    pose proof (total_nonnegative f l Hl) as Hrest. simpl in Hsum.
    rewrite add_exact by lia. rewrite IH by (assumption || lia).
    f_equal. lia.
Qed.

Lemma binary64_sum_exact (f : Employee.t -> Z) (l : list Employee.t) :
  Forall (fun e => 0 <= f e) l ->
  total f l < 2 ^ 53 ->
  binary64_sum f l = JS.of_int (total f l).
Proof.
  intros Hall Hsum. unfold binary64_sum.
  rewrite (binary64_sum_from f l 0) by (assumption || lia). reflexivity.
Qed.

(** The figures of the dashboard when the sums are exact. *)
Lemma exact_figures (user : User.t) (coll : list Employee.t) :
  let seen := filter (visible user) coll in
  let enrolled := total Employee.coursesEnrolled seen in
  let completed := total Employee.coursesCompleted seen in
  counts_nonnegative seen ->
  enrolled < 2 ^ 53 ->
  completed < 2 ^ 53 ->
  binary64_sum Employee.coursesEnrolled seen = JS.of_int enrolled
  /\ binary64_sum Employee.coursesCompleted seen = JS.of_int completed
  /\ 0 <= enrolled /\ 0 <= completed
  /\ get_dashboard user coll
     = ok 200
         (Summary
            (mkSummary (Z.of_nat (List.length seen))
               (Z.of_nat (List.length (filter Employee.isRegisteredOnIGOT seen)))
               (Z.of_nat (List.length seen)
                - Z.of_nat (List.length (filter Employee.isRegisteredOnIGOT seen)))
               (JS.of_int enrolled) (JS.of_int completed)
               (JS.toFixed2 Number_toString
                  (if enrolled >? 0 then percentage completed enrolled
                   else JS.of_int 0)))).
Proof.
  intros seen enrolled completed Hcounts Henrolled Hcompleted.
  assert (He : Forall (fun e => 0 <= Employee.coursesEnrolled e) seen).
  { eapply Forall_impl; [|exact Hcounts]. intros e [He _]. exact He. }
  assert (Hc : Forall (fun e => 0 <= Employee.coursesCompleted e) seen).
  { eapply Forall_impl; [|exact Hcounts]. intros e [_ Hc]. exact Hc. }
  pose proof (total_nonnegative _ _ He) as Hepos.
  pose proof (total_nonnegative _ _ Hc) as Hcpos.
  pose proof (binary64_sum_exact _ _ He Henrolled) as Esum.
  pose proof (binary64_sum_exact _ _ Hc Hcompleted) as Csum.
  change (0 <= enrolled) in Hepos. change (0 <= completed) in Hcpos.
  split; [exact Esum|]. split; [exact Csum|].
  split; [exact Hepos|]. split; [exact Hcpos|].
  rewrite get_dashboard_summary. fold seen. rewrite Esum, Csum.
  rewrite of_int_positive by lia. reflexivity.
Qed.

(** C7, as the route computes it.  Over the records the caller sees, the
    two registration counts add up to the number of records.  The two
    course totals are binary64 sums taken from the left, and the
    completion rate is the text 0.00 whenever the enrolled total is not
    greater than zero.  When no visible record has a negative count and
    the exact sums are below 2^53, the totals are the exact sums; the
    rate is then 0.00 for an enrolled sum of zero, and otherwise [n]
    hundredths, with exactly two decimals, where [n / 100] is within
    half a hundredth (and a relative 2^-50) of 100 * completed /
    enrolled. *)
Theorem dashboard_summary_figures (user : User.t) (coll : list Employee.t) :
  let seen := filter (visible user) coll in
  let enrolled := total Employee.coursesEnrolled seen in
  let completed := total Employee.coursesCompleted seen in
  exists s,
    get_dashboard user coll = ok 200 (Summary s)
    /\ totalEmployees s = Z.of_nat (List.length seen)
    /\ registeredOnIGOT s
       = Z.of_nat (List.length (filter Employee.isRegisteredOnIGOT seen))
    /\ registeredOnIGOT s + notRegisteredOnIGOT s = totalEmployees s
    /\ totalCoursesEnrolled s = binary64_sum Employee.coursesEnrolled seen
    /\ totalCoursesCompleted s = binary64_sum Employee.coursesCompleted seen
    /\ (JS.lt (JS.of_int 0) (totalCoursesEnrolled s) = false ->
        completionRate s = "0.00")
    /\ (counts_nonnegative seen ->
        enrolled < 2 ^ 53 ->
        completed < 2 ^ 53 ->
        totalCoursesEnrolled s = JS.of_int enrolled
        /\ totalCoursesCompleted s = JS.of_int completed
        /\ (enrolled = 0 -> completionRate s = "0.00")
        /\ (enrolled <> 0 ->
            exists n,
              completionRate s = JS.fixed2 n
              /\ hundredths_of_percentage n completed enrolled
              /\ two_decimals (completionRate s))).
Proof.
  intros seen enrolled completed.
  eexists. split; [apply get_dashboard_summary|].
  cbn [totalEmployees registeredOnIGOT notRegisteredOnIGOT
       totalCoursesEnrolled totalCoursesCompleted completionRate].
  fold seen.
  split; [reflexivity|]. split; [reflexivity|]. split; [lia|].
  split; [reflexivity|]. split; [reflexivity|]. split.
  - intros Hnot. rewrite Hnot. reflexivity.
  - intros Hcounts Henrolled Hcompleted.
    destruct (exact_figures user coll Hcounts Henrolled Hcompleted)
      as (Esum & Csum & Hepos & Hcpos & _).
    change (binary64_sum Employee.coursesEnrolled seen = JS.of_int enrolled)
      in Esum.
    change (binary64_sum Employee.coursesCompleted seen = JS.of_int completed)
      in Csum.
    change (0 <= enrolled) in Hepos. change (0 <= completed) in Hcpos.
    rewrite Esum, Csum. rewrite of_int_positive by lia.
    split; [reflexivity|]. split; [reflexivity|]. split.
    + intros Hzero. rewrite Hzero. reflexivity.
    + intros Hnonzero.
      assert (Hpos : (enrolled >? 0) = true) by lia.
      rewrite Hpos.
      destruct (toFixed2_percentage Number_toString completed enrolled)
        as (n & Htext & Hn); [lia | lia |].
      exists n. unfold percentage in Htext. rewrite Htext.
      split; [reflexivity|]. split; [exact Hn|].
      apply (fixed2_two_decimals "" n).
Qed.

End Dashboard.

(** ** Creation *)

Section Creation.
Context `{Platform}.

Ltac split_scrutinees :=
  repeat match goal with
         | |- context [match ?x with _ => _ end] => destruct x eqn:?
         | H : context [match ?x with _ => _ end] |- _ => destruct x eqn:?
         end.

(** What a successful [Employee.create] stored. *)
Lemma create_stored (doc : Employee.fields) (now : Employee.clock) (fresh : ObjectId)
  (coll coll' : list Employee.t) (e : Employee.t) :
  Employee.create doc now fresh coll = ret (e, coll') ->
  Employee.document_messages doc now = []
  /\ coll' = (coll ++ [e])%list
  /\ Employee._id e = fresh
  /\ Employee.isRegisteredOnIGOT e
     = or_default (Employee.f_isRegisteredOnIGOT doc) false
  /\ Employee.coursesEnrolled e = or_default (Employee.f_coursesEnrolled doc) 0
  /\ Employee.coursesCompleted e = or_default (Employee.f_coursesCompleted doc) 0
  /\ Employee.updatedAt e = Some (Employee.save_now now).
Proof.
  unfold Employee.create, ret, throw. intros Hcreate.
  split_scrutinees; try discriminate.
  injection Hcreate as <- <-. cbn. repeat split.
Qed.

(** A document with a violation is rejected with all its messages. *)
Lemma create_rejected (doc : Employee.fields) (now : Employee.clock) (fresh : ObjectId)
  (coll : list Employee.t) :
  Employee.document_messages doc now <> [] ->
  Employee.create doc now fresh coll
    = throw (ValidationError (Employee.document_messages doc now)).
Proof.
  unfold Employee.create. intros Hmsgs.
  destruct (Employee.document_messages doc now) as [|msg msgs]; [congruence|].
  split_scrutinees; reflexivity.
Qed.

(** A document without violation is stored: [create] rejects for no other
    reason. *)
Lemma create_accepted (doc : Employee.fields) (now : Employee.clock) (fresh : ObjectId)
  (coll : list Employee.t) :
  Employee.document_messages doc now = [] ->
  exists e, Employee.create doc now fresh coll = ret (e, (coll ++ [e])%list).
Proof.
  unfold Employee.create, Employee.document_messages. intros Hmsgs.
  repeat match type of Hmsgs with
         | (_ ++ _)%list = [] =>
             apply app_eq_nil in Hmsgs;
             let Hhead := fresh "Hhead" in destruct Hmsgs as [Hhead Hmsgs]
         end.
  unfold Employee.document_messages.
  destruct (option_map JS.trim (Employee.f_name doc)); [|discriminate].
  destruct (cast_id (Employee.f_officeId doc)); try discriminate.
  destruct (cast_date (Employee.f_reportDate doc)); try discriminate.
  all: cbn [casted_or_default] in *.
  all: destruct (cast_id (Employee.f_createdBy doc)); try discriminate.
  all: cbn [cast_messages required_messages app] in *.
  all: repeat match goal with
              | Hnil : _ = [] |- _ => rewrite Hnil; clear Hnil
              end.
  all: cbn; eexists; reflexivity.
Qed.

(** A 201 from [POST /api/employees] comes from a successful [create]. *)
Lemma post_created (user : User.t) (body : Employee.fields) (now : Employee.clock)
  (fresh : ObjectId) (coll coll' : list Employee.t) (r : response) :
  post_employee user body now fresh coll = (r, coll') ->
  status r = 201 ->
  exists e,
    Employee.create (new_employee user body now) now fresh coll = ret (e, coll')
    /\ r = ok 201 (OneEmployee e).
Proof.
  unfold post_employee, try_catch_write. intros Hpost Hstatus.
  destruct (not_admin user && _).
  - cbn in Hpost. injection Hpost as <- <-. discriminate.
  - destruct (Employee.create _ now fresh coll) as [err | [e coll'']]; cbn in Hpost.
    + injection Hpost as <- <-. unfold catch_ValidationError in Hstatus.
      destruct (String.eqb _ _); discriminate.
    + injection Hpost as <- <-. exists e. split; reflexivity.
Qed.

(** C3.  When the request does not say the employee is registered, the
    record that is created has no course enrolled and none completed, and
    the course counts of the request play no part in the outcome. *)
Theorem unregistered_create_forces_zero_courses
  (user : User.t) (body : Employee.fields) (now : Employee.clock) (fresh : ObjectId)
  (coll : list Employee.t) :
  Employee.f_isRegisteredOnIGOT body = Some false
  \/ Employee.f_isRegisteredOnIGOT body = None ->
  (forall r coll',
      post_employee user body now fresh coll = (r, coll') ->
      status r = 201 ->
      exists e,
        data r = OneEmployee e /\ coll' = (coll ++ [e])%list
        /\ Employee.coursesEnrolled e = 0
        /\ Employee.coursesCompleted e = 0)
  /\ (forall enrolled completed,
        post_employee user (with_courses enrolled completed body) now fresh coll
        = post_employee user body now fresh coll).
Proof.
  intros Hflag.
  assert (Hfalsy : JS.truthy_bool (Employee.f_isRegisteredOnIGOT body) = false).
  { destruct Hflag as [-> | ->]; reflexivity. }
  split.
  - intros r coll' Hpost Hstatus.
    destruct (post_created _ _ _ _ _ _ _ Hpost Hstatus) as (e & Hcreate & ->).
    apply create_stored in Hcreate
      as (_ & Hcoll & _ & _ & Henrolled & Hcompleted & _).
    exists e. unfold new_employee in Henrolled, Hcompleted.
    rewrite Hfalsy in Henrolled, Hcompleted. cbn in Henrolled, Hcompleted.
    repeat split; assumption.
  - intros enrolled completed.
    unfold post_employee, new_employee. cbn. rewrite Hfalsy. reflexivity.
Qed.

(** Creation keeps the order of the two counts: the document validator of
    [coursesCompleted] sees the document's [coursesEnrolled]. *)
Lemma create_orders_courses (user : User.t) (body : Employee.fields) (now : Employee.clock)
  (fresh : ObjectId) (coll coll' : list Employee.t) (r : response) :
  post_employee user body now fresh coll = (r, coll') ->
  status r = 201 ->
  exists e,
    coll' = (coll ++ [e])%list
    /\ Employee.coursesCompleted e <= Employee.coursesEnrolled e
    /\ 0 <= Employee.coursesEnrolled e.
Proof.
  intros Hpost Hstatus.
  destruct (post_created _ _ _ _ _ _ _ Hpost Hstatus) as (e & Hcreate & _).
  apply create_stored in Hcreate
    as (Hmsgs & Hcoll & _ & _ & Henrolled & Hcompleted & _).
  exists e. split; [assumption|].
  unfold Employee.document_messages in Hmsgs.
  do 7 (apply app_eq_nil in Hmsgs as [_ Hmsgs]).
  apply app_eq_nil in Hmsgs as [He Hmsgs].
  apply app_eq_nil in Hmsgs as [Hc _].
  rewrite <- Henrolled in He, Hc. rewrite <- Hcompleted in Hc.
  unfold Employee.enrolled_messages, Employee.coursesEnrolled_validator in He.
  unfold Employee.completed_messages, Employee.coursesCompleted_validator in Hc.
  cbn in He, Hc.
  destruct (Employee.coursesCompleted e <=? Employee.coursesEnrolled e) eqn:Hle;
    [|discriminate].
  split; [lia|].
  destruct (or_default _ false);
    destruct (Employee.coursesEnrolled e >=? 0) eqn:Hge;
    destruct (Employee.coursesEnrolled e =? 0) eqn:Hz;
    try discriminate; lia.
Qed.

End Creation.

(** ** Updates *)

Section Updates.
Context `{Platform}.

(** The zero count passes the [coursesEnrolled] validator whatever [this]
    is bound to. *)
Lemma enrolled_validator_accepts_zero (this : Employee.this_view) :
  Employee.coursesEnrolled_validator this 0 = true.
Proof.
  unfold Employee.coursesEnrolled_validator.
  destruct (JS.truthy_bool _); reflexivity.
Qed.

(** Under the query no count passes the [coursesCompleted] validator. *)
Lemma completed_validator_rejects_update (val : Z) :
  Employee.coursesCompleted_validator Employee.query_view val = false.
Proof. reflexivity. Qed.

(** *** The object of a body *)

Lemma put_In (e x : Employee.entry) (obj : list Employee.entry) :
  In x (Employee.put e obj) -> x = e \/ In x obj.
Proof.
  induction obj as [|y obj IH]; cbn [Employee.put].
  - intros [<- | []]. left. reflexivity.
  - destruct (String.eqb (Employee.key y) (Employee.key e)).
    + intros [<- | Hin]; [left; reflexivity | right; right; exact Hin].
    + intros [<- | Hin]; [right; left; reflexivity|].
      destruct (IH Hin) as [-> | Hobj]; [left; reflexivity | right; right; exact Hobj].
Qed.

Lemma put_keys (e : Employee.entry) (obj : list Employee.entry) (k : string) :
  In k (map Employee.key (Employee.put e obj))
  <-> k = Employee.key e \/ In k (map Employee.key obj).
Proof.
  induction obj as [|y obj IH]; cbn [Employee.put map In].
  - split; [intros [<- | []]; left; reflexivity | intros [-> | []]; left; reflexivity].
  - destruct (String.eqb_spec (Employee.key y) (Employee.key e)) as [Hsame | _];
      cbn [map In].
    + rewrite Hsame. split.
      * intros [<- | Hin]; [left; reflexivity | right; right; exact Hin].
      * intros [-> | [<- | Hin]];
          [left; reflexivity | left; reflexivity | right; exact Hin].
    + rewrite IH. split.
      * intros [<- | [-> | Hin]];
          [right; left; reflexivity | left; reflexivity | right; right; exact Hin].
      * intros [-> | [<- | Hin]];
          [right; left; reflexivity | left; reflexivity | right; right; exact Hin].
Qed.

Lemma object_from_In (body obj : list Employee.entry) (x : Employee.entry) :
  In x (fold_left (fun obj e => Employee.put e obj) body obj) ->
  In x obj \/ In x body.
Proof.
  revert obj. induction body as [|e body IH]; intros obj; cbn [fold_left].
  - intros Hin. left. exact Hin.
  - intros Hin. destruct (IH _ Hin) as [Hput | Hbody].
    + destruct (put_In _ _ _ Hput) as [-> | Hobj];
        [right; left; reflexivity | left; exact Hobj].
    + right. right. exact Hbody.
Qed.

(** The object of a body holds entries of the body, *)
Lemma object_of_In (body : list Employee.entry) (x : Employee.entry) :
  In x (Employee.object_of body) -> In x body.
Proof.
  intros Hin. destruct (object_from_In body [] x Hin) as [[] | Hbody]. exact Hbody.
Qed.

Lemma object_from_keys (body obj : list Employee.entry) (k : string) :
  In k (map Employee.key (fold_left (fun obj e => Employee.put e obj) body obj))
  <-> In k (map Employee.key obj) \/ In k (map Employee.key body).
Proof.
  revert obj. induction body as [|e body IH]; intros obj; cbn [fold_left map In].
  - split; [intros Hin; left; exact Hin | intros [Hin | []]; exact Hin].
  - rewrite IH, put_keys. split.
    + intros [[-> | Hin] | Hin];
        [right; left; reflexivity | left; exact Hin | right; right; exact Hin].
    + intros [Hin | [<- | Hin]];
        [left; right; exact Hin | left; left; reflexivity | right; exact Hin].
Qed.

(** and has the keys of the body. *)
Lemma object_of_keys (body : list Employee.entry) (k : string) :
  In k (map Employee.key (Employee.object_of body))
  <-> In k (map Employee.key body).
Proof.
  unfold Employee.object_of. rewrite object_from_keys. cbn [map In].
  split; [intros [[] | Hin]; exact Hin | intros Hin; right; exact Hin].
Qed.

(** *** Validators and setters *)

Lemma flat_map_nil {A B} (f : A -> list B) (l : list A) :
  flat_map f l = [] <-> forall x, In x l -> f x = [].
Proof.
  induction l as [|a l IH]; cbn [flat_map In].
  - split; [intros _ x [] | reflexivity].
  - split.
    + intros Hnil. apply app_eq_nil in Hnil as [Ha Hl].
      intros x [<- | Hin]; [exact Ha | apply IH; assumption].
    + intros Hall. rewrite (Hall a) by (left; reflexivity).
      apply IH. intros x Hin. apply Hall. right. exact Hin.
Qed.

(** An update passes the validators when each of its keys does. *)
Lemma update_messages_nil (obj : list Employee.entry) :
  Employee.update_messages obj = []
  <-> forall e, In e obj -> Employee.entry_messages e = [].
Proof.
  unfold Employee.update_messages. rewrite flat_map_nil.
  split; intros Hall e Hin; apply Hall.
  - apply in_rev in Hin. exact Hin.
  - apply in_rev. exact Hin.
Qed.

(** What every key of an update keeps, the update keeps. *)
Lemma apply_invariant (P : Employee.t -> Prop) (obj : list Employee.entry) :
  (forall e d, In e obj -> P d -> P (Employee.set_entry e d)) ->
  forall d, P d -> P (Employee.apply obj d).
Proof.
  unfold Employee.apply. induction obj as [|e obj IH]; intros Hstep d Hd;
    cbn [fold_left]; [exact Hd|].
  apply IH.
  - intros e' d' Hin. apply Hstep. right. exact Hin.
  - apply Hstep; [left; reflexivity | exact Hd].
Qed.

Lemma apply_field {B} (g : Employee.t -> B) (obj : list Employee.entry)
  (d : Employee.t) :
  (forall e d, In e obj -> g (Employee.set_entry e d) = g d) ->
  g (Employee.apply obj d) = g d.
Proof.
  intros Hstep.
  apply (apply_invariant (fun x => g x = g d) obj); [|reflexivity].
  intros e x Hin Hx. rewrite Hstep by exact Hin. exact Hx.
Qed.

Lemma set_entry_id (e : Employee.entry) (d : Employee.t) :
  Employee._id (Employee.set_entry e d) = Employee._id d.
Proof. destruct e; reflexivity. Qed.

Lemma apply_id (obj : list Employee.entry) (d : Employee.t) :
  Employee._id (Employee.apply obj d) = Employee._id d.
Proof.
  apply apply_field. intros e x _. apply set_entry_id.
Qed.

(** *** What an update did *)

(** What a successful [findByIdAndUpdate] did. *)
Lemma findByIdAndUpdate_done (id : string) (upd : Employee.update)
  (runValidators : bool) (coll coll' : list Employee.t) (d : option Employee.t) :
  Employee.findByIdAndUpdate id upd runValidators coll = ret (d, coll') ->
  exists o,
    castObjectId id = Some o
    /\ d = lookup Employee._id o coll'
    /\ written o coll coll' upd runValidators.
Proof.
  unfold Employee.findByIdAndUpdate, ret, throw, bind. intros Hdone.
  destruct (castObjectId id) as [o|]; [|discriminate].
  exists o. split; [reflexivity|].
  destruct upd as [body | effect].
  - destruct (Employee.cast_error (Employee.object_of body)) eqn:Hcast;
      [discriminate|].
    destruct runValidators.
    + destruct (Employee.update_messages (Employee.object_of body)) eqn:Hmsgs;
        [|discriminate].
      injection Hdone as <- <-. split; [reflexivity|].
      split; [exact Hcast|]. split; [intros _; exact Hmsgs | reflexivity].
    + injection Hdone as <- <-. split; [reflexivity|].
      split; [exact Hcast|]. split; [discriminate | reflexivity].
  - destruct (lookup Employee._id o coll) as [d0|] eqn:Hfound.
    + destruct (effect d0) as [err | d'] eqn:Heffect; [discriminate|].
      destruct (String.eqb_spec (Employee._id d') (Employee._id d0)) as [Hid | _];
        [|discriminate].
      injection Hdone as <- <-. split; [reflexivity|].
      right. exists d0, d'. repeat split; assumption.
    + injection Hdone as <- <-. split; [exact (eq_sym Hfound)|].
      left. split; [exact Hfound | reflexivity].
Qed.

(** Whatever is written, the ids stay as they are. *)
Lemma written_ids (o : ObjectId) (coll coll' : list Employee.t)
  (upd : Employee.update) (runValidators : bool) :
  written o coll coll' upd runValidators ->
  map Employee._id coll' = map Employee._id coll.
Proof.
  destruct upd as [body | effect]; cbn [written].
  - intros (_ & _ & ->). apply modify_map. intros x. apply apply_id.
  - intros [[_ ->] | (d & d' & Hfound & _ & Hid & ->)]; [reflexivity|].
    apply (modify_replace_ids Employee._id o coll d d'); assumption.
Qed.

(** An update with a violation is rejected with all its messages. *)
Lemma findByIdAndUpdate_rejected (id : string) (o : ObjectId)
  (body : list Employee.entry) (coll : list Employee.t) :
  castObjectId id = Some o ->
  Employee.cast_error (Employee.object_of body) = None ->
  Employee.update_messages (Employee.object_of body) <> [] ->
  Employee.findByIdAndUpdate id (Employee.Document body) true coll
    = throw (ValidationError (Employee.update_messages (Employee.object_of body))).
Proof.
  unfold Employee.findByIdAndUpdate. intros -> -> Hmsgs.
  destruct (Employee.update_messages (Employee.object_of body));
    [congruence | reflexivity].
Qed.

(** The collection after [PUT /api/employees/:id]: untouched, or written
    by the update, validators on. *)
Lemma put_employee_writes (user : User.t) (id : string) (body : Employee.update)
  (coll : list Employee.t) :
  snd (put_employee user id body coll) = coll
  \/ exists o,
       castObjectId id = Some o
       /\ written o coll (snd (put_employee user id body coll)) body true.
Proof.
  unfold put_employee, try_catch_write, bind.
  destruct (findById Employee._id id coll) as [err | [e|]]; cbn; auto.
  destruct (Employee.isFrozen e); cbn; auto.
  destruct (not_admin user && _); cbn; auto.
  destruct (Employee.findByIdAndUpdate id body true coll) as [err | [d coll']] eqn:Hupd;
    cbn; auto.
  apply findByIdAndUpdate_done in Hupd as (o & Hid & _ & Hwritten).
  right. exists o. split; assumption.
Qed.

(** The collection after a freeze or an unfreeze. *)
Lemma set_frozen_writes (flag : bool) (msg id : string) (coll : list Employee.t) :
  snd (set_frozen flag msg id coll) = coll
  \/ exists o,
       snd (set_frozen flag msg id coll)
       = modify Employee._id o (Employee.set_isFrozen flag) coll.
Proof.
  unfold set_frozen, try_catch_write, bind.
  destruct (findById Employee._id id coll) as [err | [e|]]; cbn; auto.
  destruct (Employee.findByIdAndUpdate id _ false coll) as [err | [d coll']] eqn:Hupd;
    cbn; auto.
  apply findByIdAndUpdate_done in Hupd as (o & _ & _ & Hwritten).
  right. exists o. destruct Hwritten as (_ & _ & ->). reflexivity.
Qed.

(** [updatedAt] changes under a plain update only when the body names
    it. *)
Lemma apply_keeps_updatedAt (body : list Employee.entry) (d : Employee.t) :
  ~ In "updatedAt" (map Employee.key body) ->
  Employee.updatedAt (Employee.apply (Employee.object_of body) d)
  = Employee.updatedAt d.
Proof.
  intros Hout. apply apply_field. intros e x Hin.
  assert (Hkey : Employee.key e <> "updatedAt").
  { intros Hkey. apply Hout. apply object_of_keys. rewrite <- Hkey.
    apply in_map. exact Hin. }
  destruct e; try reflexivity. exfalso. apply Hkey. reflexivity.
Qed.

(** No route but creation refreshes [updatedAt]: a plain update that
    does not carry the path, a freeze and an unfreeze leave every stored
    value as it was. *)
Lemma put_employee_keeps_updatedAt (user : User.t) (id : string)
  (body : list Employee.entry) (coll : list Employee.t) :
  ~ In "updatedAt" (map Employee.key body) ->
  map Employee.updatedAt (snd (put_employee user id (Employee.Document body) coll))
  = map Employee.updatedAt coll.
Proof.
  intros Hout.
  destruct (put_employee_writes user id (Employee.Document body) coll)
    as [-> | (o & _ & Hwritten)]; [reflexivity|].
  destruct Hwritten as (_ & _ & ->).
  apply modify_map. intros d. apply apply_keeps_updatedAt, Hout.
Qed.

Lemma set_frozen_keeps_updatedAt (flag : bool) (msg id : string)
  (coll : list Employee.t) :
  map Employee.updatedAt (snd (set_frozen flag msg id coll))
  = map Employee.updatedAt coll.
Proof.
  destruct (set_frozen_writes flag msg id coll) as [-> | (o & ->)].
  - reflexivity.
  - apply modify_map. intros d. reflexivity.
Qed.

(** Creation does stamp the record: the [pre('save')] hook runs. *)
Lemma post_employee_stamps_updatedAt (user : User.t) (body : Employee.fields)
  (now : Employee.clock) (fresh : ObjectId) (coll coll' : list Employee.t)
  (r : response) :
  post_employee user body now fresh coll = (r, coll') ->
  status r = 201 ->
  exists e,
    coll' = (coll ++ [e])%list
    /\ Employee.updatedAt e = Some (Employee.save_now now).
Proof.
  intros Hpost Hstatus.
  destruct (post_created _ _ _ _ _ _ _ Hpost Hstatus) as (e & Hcreate & _).
  apply create_stored in Hcreate as (_ & Hcoll & _ & _ & _ & _ & Hstamp).
  exists e. split; assumption.
Qed.

End Updates.

(** ** Validation and the access checks *)

Section Validation.
Context `{Platform}.

Lemma office_create_rejected (doc : Office.fields) (now : Z) (fresh : ObjectId)
  (coll : list Office.t) :
  Office.document_messages doc <> [] ->
  Office.create doc now fresh coll
    = throw (ValidationError (Office.document_messages doc)).
Proof.
  unfold Office.create. intros Hmsgs.
  destruct (Office.document_messages doc) as [|msg msgs]; [congruence|].
  repeat match goal with
         | |- context [match ?x with _ => _ end] => destruct x eqn:?
         end; reflexivity.
Qed.

Lemma office_update_rejected (id : string) (o : ObjectId)
  (body : list Office.entry) (coll : list Office.t) :
  castObjectId id = Some o ->
  Office.cast_error (Office.object_of body) = None ->
  Office.update_messages (Office.object_of body) <> [] ->
  Office.findByIdAndUpdate id (Office.Document body) coll
    = throw (ValidationError (Office.update_messages (Office.object_of body))).
Proof.
  unfold Office.findByIdAndUpdate. intros -> -> Hmsgs.
  destruct (Office.update_messages (Office.object_of body));
    [congruence | reflexivity].
Qed.

Lemma may_write_passes (user : User.t) (office : ObjectId) :
  may_write user office ->
  not_admin user && JS.strict_neq (User.officeId user) office = false.
Proof.
  intros [-> | ->]; [reflexivity|].
  unfold JS.strict_neq. rewrite String.eqb_refl. apply andb_false_r.
Qed.


(** The update validators do not protect the order of the two counts:
    on any record that is not frozen, a caller who may write to it can
    set [coursesEnrolled] to zero and keep the completed count. *)
Lemma lowering_enrolled_is_accepted (user : User.t) (id : string)
  (coll : list Employee.t) (e : Employee.t) :
  names Employee._id id coll e ->
  Employee.isFrozen e = false ->
  may_write user (Employee.officeId e) ->
  exists e' coll',
    put_employee user id (Employee.Document [Employee.coursesEnrolled_is 0]) coll
    = (ok 200 (OneEmployee e'), coll')
    /\ names Employee._id id coll' e'
    /\ Employee.coursesEnrolled e' = 0
    /\ Employee.coursesCompleted e' = Employee.coursesCompleted e.
Proof.
  intros Hnames Hfrozen Hmay.
  destruct (names_castObjectId _ _ _ _ Hnames) as (o & Hid & Hlookup).
  set (upd := Employee.apply [Employee.coursesEnrolled_is 0]).
  assert (Hstored : lookup Employee._id o (modify Employee._id o upd coll)
                    = Some (upd e)).
  { apply lookup_modify_same; [exact Hlookup | reflexivity]. }
  exists (upd e), (modify Employee._id o upd coll).
  split; [|split; [|split; reflexivity]].
  - unfold names in Hnames. unfold put_employee. rewrite Hnames. cbn.
    rewrite Hfrozen, (may_write_passes _ _ Hmay).
    unfold Employee.findByIdAndUpdate. rewrite Hid. cbn. fold upd.
    rewrite Hstored. reflexivity.
  - unfold names, findById. rewrite Hid, Hstored. reflexivity.
Qed.

End Validation.

(** ** Malformed ids *)

Section MalformedIds.
Context `{Platform}.

(** Only the two single-document reads turn the cast error of a
    malformed id into 404; every other route that looks a document up by
    id answers 500. *)
Lemma malformed_id_statuses (user : User.t) (id : string)
  (employees : list Employee.t) (offices : list Office.t)
  (body : Employee.update) (office_body : Office.update) :
  castObjectId id = None ->
  status (get_employee user id employees offices) = 404
  /\ status (get_office user id offices) = 404
  /\ put_employee user id body employees = (server_error, employees)
  /\ delete_employee user id employees = (server_error, employees)
  /\ put_freeze id employees = (server_error, employees)
  /\ put_unfreeze id employees = (server_error, employees)
  /\ put_office id office_body offices = (server_error, offices)
  /\ delete_office id offices = (server_error, offices).
Proof.
  intros Hid.
  unfold get_employee, get_office, put_employee, delete_employee, put_freeze,
    put_unfreeze, set_frozen, put_office, delete_office.
  rewrite !(findById_malformed _ _ _ Hid). cbn. repeat split.
Qed.

End MalformedIds.

(* ================================================================== *)
(** * Worked examples                                                  *)
(* ================================================================== *)

Section Examples.
#[local] Existing Instance Sample.platform.

Lemma staff_counts_nonnegative :
  counts_nonnegative (filter (visible Sample.root) Sample.staff).
Proof.
  repeat constructor; cbn; lia.
Defined.

Lemma ann_is_stored : names Employee._id Sample.ann_id Sample.staff Sample.ann.
Proof. reflexivity. Defined.

Lemma jo_is_stored : names Employee._id Sample.jo_id Sample.staff Sample.jo.
Proof. reflexivity. Defined.

(** C1.  An update that only lowers [coursesEnrolled] to zero passes the
    update validators and is stored, although the record keeps three
    completed courses: after a successful update the completed count
    exceeds the enrolled one. *)
Theorem update_leaves_completed_above_enrolled :
  post_employee Sample.root Sample.jo_request (Sample.clock_at 1000) Sample.jo_id []
    = (ok 201 (OneEmployee Sample.jo), [Sample.jo])
  /\ exists e,
       put_employee Sample.root Sample.jo_id Sample.lower_enrolled [Sample.jo]
         = (ok 200 (OneEmployee e), [e])
       /\ Employee.coursesEnrolled e = 0
       /\ Employee.coursesCompleted e = 3
       /\ ~ Employee.coursesCompleted e <= Employee.coursesEnrolled e.
Proof.
  split; [reflexivity|].
  eexists. split; [reflexivity|]. cbn. repeat split. lia.
Qed.

(** C4.  Jo's record is stamped at creation, by the hook, with what the
    clock showed then: 1004.  A later successful update, freeze or
    unfreeze stores its change and leaves [updatedAt] at 1004: only
    creation refreshes it. *)
Theorem updates_leave_updatedAt_stale :
  snd (post_employee Sample.root Sample.jo_request (Sample.clock_at 1000)
         Sample.jo_id [])
    = [Sample.jo]
  /\ Employee.updatedAt Sample.jo = Some 1004
  /\ (exists e,
         put_employee Sample.root Sample.jo_id Sample.rename [Sample.jo]
           = (ok 200 (OneEmployee e), [e])
         /\ Employee.name e = "Joe" /\ Employee.updatedAt e = Some 1004)
  /\ (exists e,
         put_freeze Sample.jo_id [Sample.jo]
           = (ok_message 200 (OneEmployee e) "Employee record has been frozen", [e])
         /\ Employee.isFrozen e = true /\ Employee.updatedAt e = Some 1004)
  /\ (exists e,
         put_unfreeze Sample.ann_id [Sample.ann]
           = (ok_message 200 (OneEmployee e) "Employee record has been unfrozen", [e])
         /\ Employee.isFrozen e = false
         /\ Employee.updatedAt e = Employee.updatedAt Sample.ann).
Proof.
  repeat split; try (eexists; split; [reflexivity | split; reflexivity]).
Qed.

(** C5.  The id [xyz] is not id-shaped.  The two reads answer 404; the
    update, delete, freeze and unfreeze of an employee and the update and
    delete of an office answer 500. *)
Theorem malformed_id_is_a_server_error_on_writes :
  castObjectId "xyz" = None
  /\ status (get_employee Sample.root "xyz" Sample.staff [Sample.head_office]) = 404
  /\ status (get_office Sample.root "xyz" [Sample.head_office]) = 404
  /\ status (fst (put_employee Sample.root "xyz" Sample.rename Sample.staff)) = 500
  /\ status (fst (delete_employee Sample.root "xyz" Sample.staff)) = 500
  /\ status (fst (put_freeze "xyz" Sample.staff)) = 500
  /\ status (fst (put_unfreeze "xyz" Sample.staff)) = 500
  /\ status (fst (put_office "xyz" (Office.Document []) [Sample.head_office])) = 500
  /\ status (fst (delete_office "xyz" [Sample.head_office])) = 500.
Proof.
  repeat split.
Qed.


Lemma frozen_record_rejects_update_and_delete_witness :
  names Employee._id Sample.ann_id Sample.staff Sample.ann
  /\ Employee.isFrozen Sample.ann = true
  /\ (status (fst (put_employee Sample.root Sample.ann_id Sample.rename Sample.staff))
      = 403
      /\ success (fst (put_employee Sample.root Sample.ann_id Sample.rename Sample.staff))
         = false
      /\ snd (put_employee Sample.root Sample.ann_id Sample.rename Sample.staff)
         = Sample.staff)
  /\ (status (fst (delete_employee Sample.root Sample.ann_id Sample.staff)) = 403
      /\ success (fst (delete_employee Sample.root Sample.ann_id Sample.staff)) = false
      /\ snd (delete_employee Sample.root Sample.ann_id Sample.staff) = Sample.staff).
Proof.
  split; [exact ann_is_stored|]. split; [reflexivity|].
  exact (frozen_record_rejects_update_and_delete Sample.root Sample.ann_id
           Sample.rename Sample.staff Sample.ann ann_is_stored eq_refl).
Defined.

Lemma frozen_message_precedes_ownership_witness :
  names Employee._id Sample.ann_id Sample.staff Sample.ann
  /\ Employee.isFrozen Sample.ann = true
  /\ not_admin Sample.outsider = true
  /\ User.officeId Sample.outsider <> Employee.officeId Sample.ann
  /\ fst (put_employee Sample.outsider Sample.ann_id Sample.rename Sample.staff)
     = failure 403 "This record is frozen and cannot be modified"
  /\ fst (delete_employee Sample.outsider Sample.ann_id Sample.staff)
     = failure 403 "This record is frozen and cannot be deleted".
Proof.
  split; [exact ann_is_stored|]. split; [reflexivity|].
  split; [reflexivity|]. split; [discriminate|].
  destruct (frozen_message_precedes_ownership Sample.outsider Sample.ann_id
              Sample.rename Sample.staff Sample.ann ann_is_stored eq_refl)
    as (Hput & Hdelete & _).
  split; assumption.
Defined.

Lemma unregistered_create_forces_zero_courses_witness :
  (Employee.f_isRegisteredOnIGOT Sample.unregistered_request = Some false
   \/ Employee.f_isRegisteredOnIGOT Sample.unregistered_request = None)
  /\ Employee.f_coursesEnrolled Sample.unregistered_request = Some 5
  /\ exists e,
       snd (post_employee Sample.clerk Sample.unregistered_request
              (Sample.clock_at 7000) Sample.jo_id []) = [e]
       /\ Employee.coursesEnrolled e = 0
       /\ Employee.coursesCompleted e = 0.
Proof.
  split; [left; reflexivity|]. split; [reflexivity|].
  destruct (unregistered_create_forces_zero_courses Sample.clerk
              Sample.unregistered_request (Sample.clock_at 7000) Sample.jo_id []
              (or_introl eq_refl)) as [Hcreated _].
  destruct (post_employee Sample.clerk Sample.unregistered_request
              (Sample.clock_at 7000) Sample.jo_id []) as [r coll'] eqn:Hpost.
  assert (Hstatus : status r = 201).
  { vm_compute in Hpost. injection Hpost as <- _. reflexivity. }
  destruct (Hcreated r coll' eq_refl Hstatus) as (e & _ & Hcoll & Henrolled & Hcompleted).
  exists e. repeat split; assumption.
Defined.

(** C7, as stated, fails.  Three records are created through the
    routes, the first with 2^60 courses enrolled and completed and then,
    by an update, none enrolled; the second with one course enrolled
    and completed; the third with none enrolled and minus 2^60
    completed.  The enrolled sum is 1 and the completed sum is 1, so the
    rate of the statement is 100.00; the route adds the completed counts
    as binary64 numbers, gets zero, and shows 0.00. *)
Lemma dashboard_rate_of_cancelling_counts :
  snd (post_employee Sample.root Sample.deficit_request (Sample.clock_at 3000)
         Sample.deficit_id
         (snd (post_employee Sample.root Sample.single_request
                 (Sample.clock_at 2000) Sample.single_id
                 (snd (put_employee Sample.root Sample.surplus_id
                         Sample.lower_enrolled
                         (snd (post_employee Sample.root Sample.surplus_request
                                 (Sample.clock_at 1000) Sample.surplus_id [])))))))
  = Sample.cancelling
  /\ total Employee.coursesEnrolled (filter (visible Sample.root) Sample.cancelling)
     = 1
  /\ total Employee.coursesCompleted (filter (visible Sample.root) Sample.cancelling)
     = 1
  /\ exists s,
       get_dashboard Sample.root Sample.cancelling = ok 200 (Summary s)
       /\ totalCoursesEnrolled s = JS.of_int 1
       /\ totalCoursesCompleted s = JS.of_int 0
       /\ completionRate s = "0.00"
       /\ completionRate s <> "100.00".
Proof.
  split; [vm_compute; reflexivity|]. split; [reflexivity|]. split; [reflexivity|].
  eexists. split; [apply get_dashboard_summary|].
  split; [vm_compute; reflexivity|]. split; [vm_compute; reflexivity|].
  split; [vm_compute; reflexivity | vm_compute; discriminate].
Qed.

Lemma dashboard_summary_figures_witness :
  counts_nonnegative (filter (visible Sample.root) Sample.staff)
  /\ total Employee.coursesEnrolled (filter (visible Sample.root) Sample.staff) = 9
  /\ total Employee.coursesCompleted (filter (visible Sample.root) Sample.staff) = 7
  /\ exists s,
       get_dashboard Sample.root Sample.staff = ok 200 (Summary s)
       /\ registeredOnIGOT s + notRegisteredOnIGOT s = totalEmployees s
       /\ totalCoursesEnrolled s = JS.of_int 9
       /\ totalCoursesCompleted s = JS.of_int 7
       /\ completionRate s = "77.78"
       /\ two_decimals (completionRate s)
       /\ exists n,
            completionRate s = JS.fixed2 n /\ hundredths_of_percentage n 7 9.
Proof.
  split; [exact staff_counts_nonnegative|].
  split; [reflexivity|]. split; [reflexivity|].
  destruct (dashboard_summary_figures Sample.root Sample.staff)
    as (s & Hget & _ & _ & Hsum & Henrolled & _ & _ & Hexact).
  assert (He : total Employee.coursesEnrolled
                 (filter (visible Sample.root) Sample.staff) < 2 ^ 53)
    by (vm_compute; reflexivity).
  assert (Hc : total Employee.coursesCompleted
                 (filter (visible Sample.root) Sample.staff) < 2 ^ 53)
    by (vm_compute; reflexivity).
  destruct (Hexact staff_counts_nonnegative He Hc) as (Etotal & Ctotal & _ & Hrate).
  assert (Hnonzero : total Employee.coursesEnrolled
                       (filter (visible Sample.root) Sample.staff) <> 0)
    by (vm_compute; discriminate).
  destruct (Hrate Hnonzero) as (n & Htext & Hclose & Hshape).
  exists s. split; [exact Hget|]. split; [exact Hsum|].
  split; [exact Etotal|]. split; [exact Ctotal|].
  split.
  - assert (Hshown : forall s', get_dashboard Sample.root Sample.staff
                                 = ok 200 (Summary s') ->
                               completionRate s' = "77.78").
    { intros s' Hsame. vm_compute in Hsame. injection Hsame as <-. reflexivity. }
    exact (Hshown s Hget).
  - split; [exact Hshape|]. exists n. split; [exact Htext | exact Hclose].
Defined.

Lemma report_returns_inclusive_range_witness :
  Date_parse "2024-01-01" = Some 1704067200000
  /\ Date_parse "2024-01-31" = Some 1706659200000
  /\ Employee.reportDate Sample.ann = 1706659200000
  /\ get_report Sample.root (Some "2024-01-01") (Some "2024-01-31") Sample.staff
     = ok_count 200 2
         (Populated with_office_and_creator (Employees [Sample.jo; Sample.ann])).
Proof.
  split; [reflexivity|]. split; [reflexivity|]. split; [reflexivity|].
  assert (Hstart : "2024-01-01" <> "") by discriminate.
  assert (Hend : "2024-01-31" <> "") by discriminate.
  assert (Hgte : Date_parse "2024-01-01" = Some 1704067200000) by reflexivity.
  assert (Hlte : Date_parse "2024-01-31" = Some 1706659200000) by reflexivity.
  destruct (report_returns_inclusive_range Sample.root "2024-01-01" "2024-01-31"
              1704067200000 1706659200000 Sample.staff Hstart Hend Hgte Hlte)
    as [Hreport _].
  exact Hreport.
Defined.

Lemma report_without_both_bounds_is_unfiltered_witness :
  absent_or_empty (Some "")
  /\ get_report Sample.clerk (Some "2024-02-01") (Some "") Sample.staff
     = ok_count 200 2
         (Populated with_office_and_creator (Employees [Sample.jo; Sample.ann]))
  /\ get_report Sample.clerk (Some "2024-02-01") (Some "") Sample.staff
     = get_report Sample.clerk None None Sample.staff.
Proof.
  assert (Hempty : absent_or_empty (Some "")) by (right; reflexivity).
  split; [exact Hempty|].
  exact (report_without_both_bounds_is_unfiltered Sample.clerk
           (Some "2024-02-01") (Some "") Sample.staff (or_intror Hempty)).
Defined.


End Examples.

(* ================================================================== *)
(** * Further properties of the routes                                 *)
(* ================================================================== *)

(** ** Reading *)

Section Reading.
Context `{Platform}.

(** X1.  The employee list is the caller's visible records in collection
    order with their number, each with its office populated: all of
    them for an administrator, those of its own office for anyone else.
    The report without dates selects the same records and gives the same
    number; it populates the creator as well as the office. *)
Theorem employee_list_is_office_scoped (user : User.t) (coll : list Employee.t) :
  let seen := filter (visible user) coll in
  get_employees user coll
    = ok_count 200 (Z.of_nat (List.length seen))
        (Populated with_office (Employees seen))
  /\ get_report user None None coll
     = ok_count 200 (Z.of_nat (List.length seen))
         (Populated with_office_and_creator (Employees seen))
  /\ (not_admin user = false -> seen = coll)
  /\ (not_admin user = true ->
      forall e, In e seen <->
                In e coll /\ Employee.officeId e = User.officeId user).
Proof.
  intros seen. split; [|split; [|split]].
  - unfold get_employees. cbn.
    rewrite (filter_ext _ _ (matches_visible user)). reflexivity.
  - unfold get_report. cbn.
    rewrite (filter_ext _ _ (matches_visible user)). reflexivity.
  - intros Hadmin. unfold seen, visible. rewrite Hadmin.
    induction coll as [|e coll IH]; cbn; [reflexivity | rewrite IH; reflexivity].
  - intros Hrole e. unfold seen. rewrite filter_In. unfold visible.
    rewrite Hrole, String.eqb_eq. reflexivity.
Qed.

(** X2.  Reading one employee whose office exists: an administrator and a
    member of the employee's office get the record; a member of another
    office gets 403. *)
Theorem employee_read_access (user : User.t) (id : string)
  (coll : list Employee.t) (offices : list Office.t)
  (e : Employee.t) (office : Office.t) :
  names Employee._id id coll e ->
  lookup Office._id (Employee.officeId e) offices = Some office ->
  (may_write user (Employee.officeId e) ->
   get_employee user id coll offices
   = ok 200 (Populated with_office_and_creator (OneEmployee e)))
  /\ (not_admin user = true ->
      User.officeId user <> Employee.officeId e ->
      get_employee user id coll offices
      = failure 403 "Not authorized to access this employee").
Proof.
  intros Hnames Hoffice. unfold names in Hnames.
  destruct (lookup_found _ _ _ _ Hoffice) as [Hid _].
  unfold get_employee. rewrite Hnames. cbn. rewrite Hoffice, Hid. split.
  - intros [Hadmin | Hown].
    + rewrite Hadmin. reflexivity.
    + destruct (not_admin user); [|reflexivity].
      unfold JS.strict_neq. rewrite Hown, String.eqb_refl. reflexivity.
  - intros Hrole Hother. rewrite Hrole.
    apply String.eqb_neq in Hother. unfold JS.strict_neq. rewrite Hother.
    reflexivity.
Qed.

(** X3.  Deleting an office leaves its employees behind.  Once the office
    of an employee is deleted, an administrator still reads the employee,
    while every other caller, its own office's members included, gets a
    500: the ownership test dereferences the populated office, which is
    [null]. *)
Theorem employee_of_deleted_office (user : User.t) (id : string)
  (coll : list Employee.t) (offices : list Office.t)
  (e : Employee.t) (office : Office.t) :
  names Employee._id id coll e ->
  unique_ids Office._id offices ->
  canonical (Employee.officeId e) ->
  names Office._id (Employee.officeId e) offices office ->
  let deleted := delete_office (Employee.officeId e) offices in
  fst deleted = ok 200 EmptyObject
  /\ (not_admin user = false ->
      get_employee user id coll (snd deleted)
      = ok 200 (Populated with_office_and_creator (OneEmployee e)))
  /\ (not_admin user = true ->
      get_employee user id coll (snd deleted) = server_error).
Proof.
  intros Hnames Hunique Hcanonical Hoffice deleted.
  unfold names in Hnames, Hoffice.
  assert (Hdeleted : deleted
                     = (ok 200 EmptyObject,
                        remove Office._id (Employee.officeId e) offices)).
  { unfold deleted, delete_office, findByIdAndDelete. rewrite Hoffice. cbn.
    rewrite Hcanonical. reflexivity. }
  rewrite Hdeleted. cbn [fst snd]. split; [reflexivity|].
  unfold get_employee. rewrite Hnames. cbn.
  rewrite (lookup_remove_same Office._id _ _ Hunique).
  split; intros ->; reflexivity.
Qed.

(** X4.  Reading one office: an administrator and a member of the office
    get the record; a member of another office gets 403. *)
Theorem office_read_access (user : User.t) (id : string)
  (coll : list Office.t) (office : Office.t) :
  names Office._id id coll office ->
  (may_write user (Office._id office) ->
   get_office user id coll = ok 200 (OneOffice office))
  /\ (not_admin user = true ->
      User.officeId user <> Office._id office ->
      get_office user id coll = failure 403 "Not authorized to access this office").
Proof.
  intros Hnames. unfold names in Hnames.
  unfold get_office. rewrite Hnames. cbn. split.
  - intros Hmay. rewrite (may_write_passes _ _ Hmay). reflexivity.
  - intros Hrole Hother. rewrite Hrole.
    apply String.eqb_neq in Hother. unfold JS.strict_neq. rewrite Hother.
    reflexivity.
Qed.

(** X5.  The office list never fails.  An administrator gets every office;
    any other caller gets the offices whose id is its own office's, which
    is at most one when ids are unique. *)
Theorem office_list_is_scoped (user : User.t) (coll : list Office.t) :
  exists offices,
    get_offices user coll
      = inr (mkListing 200 true (Z.of_nat (List.length offices)) offices)
    /\ (not_admin user = false -> offices = coll)
    /\ (not_admin user = true ->
        (forall o, In o offices <->
                   In o coll /\ Office._id o = User.officeId user)
        /\ (unique_ids Office._id coll -> (List.length offices <= 1)%nat)).
Proof.
  unfold get_offices, Office.find.
  destruct (not_admin user) eqn:Hrole; cbn.
  - eexists. split; [reflexivity|]. split; [discriminate|]. intros _. split.
    + intros o. rewrite filter_In, String.eqb_eq. reflexivity.
    + unfold unique_ids. generalize (User.officeId user) as own.
      induction coll as [|x coll IH]; intros own Hunique; cbn [filter map] in *;
        [cbn; lia|].
      inversion Hunique as [|? ? Hout Hrest]; subst.
      destruct (String.eqb_spec (Office._id x) own) as [Heq | _];
        [|apply IH, Hrest].
      assert (Hnone : filter (fun d => String.eqb (Office._id d) own) coll = []).
      { destruct (filter _ coll) as [|y rest] eqn:Hfilter; [reflexivity|].
        exfalso. assert (Hy : In y (filter (fun d => String.eqb (Office._id d) own) coll))
          by (rewrite Hfilter; left; reflexivity).
        apply filter_In in Hy as [Hin Hid]. apply String.eqb_eq in Hid.
        apply Hout. rewrite Heq, <- Hid. apply in_map, Hin. }
      rewrite Hnone. cbn. lia.
  - eexists. split; [reflexivity|]. split; [reflexivity | discriminate].
Qed.

(** X6.  An id that is well formed but names no document gives 404 on
    every route that looks a document up by id, and nothing is written. *)
Theorem unknown_id_is_not_found (user : User.t) (id : string)
  (employees : list Employee.t) (offices : list Office.t)
  (body : Employee.update) (office_body : Office.update) :
  (names_nothing Employee._id id employees ->
   get_employee user id employees offices = failure 404 "Employee not found"
   /\ put_employee user id body employees
      = (failure 404 "Employee not found", employees)
   /\ delete_employee user id employees
      = (failure 404 "Employee not found", employees)
   /\ put_freeze id employees = (failure 404 "Employee not found", employees)
   /\ put_unfreeze id employees = (failure 404 "Employee not found", employees))
  /\ (names_nothing Office._id id offices ->
      get_office user id offices = failure 404 "Office not found"
      /\ put_office id office_body offices = (failure 404 "Office not found", offices)
      /\ delete_office id offices = (failure 404 "Office not found", offices)).
Proof.
  unfold names_nothing. split; intros Hnone.
  - unfold get_employee, put_employee, delete_employee, put_freeze, put_unfreeze,
      set_frozen.
    rewrite !Hnone. repeat split.
  - unfold get_office, put_office, delete_office. rewrite !Hnone. repeat split.
Qed.

End Reading.

(** ** Freezing *)

Section Freezing.
Context `{Platform}.

(** What a freeze or an unfreeze of an existing record does. *)
Lemma set_frozen_done (flag : bool) (msg id : string)
  (coll : list Employee.t) (e : Employee.t) :
  names Employee._id id coll e ->
  exists o,
    castObjectId id = Some o
    /\ lookup Employee._id o coll = Some e
    /\ set_frozen flag msg id coll
       = (ok_message 200 (OneEmployee (Employee.set_isFrozen flag e)) msg,
          modify Employee._id o (Employee.set_isFrozen flag) coll)
    /\ names Employee._id id
         (modify Employee._id o (Employee.set_isFrozen flag) coll)
         (Employee.set_isFrozen flag e).
Proof.
  intros Hnames.
  destruct (names_castObjectId _ _ _ _ Hnames) as (o & Hid & Hlookup).
  assert (Hstored : lookup Employee._id o
                      (modify Employee._id o (Employee.set_isFrozen flag) coll)
                    = Some (Employee.set_isFrozen flag e)).
  { apply lookup_modify_same; [exact Hlookup | reflexivity]. }
  exists o. split; [exact Hid|]. split; [exact Hlookup|]. split.
  - unfold names in Hnames. unfold set_frozen. rewrite Hnames. cbn [bind].
    unfold Employee.findByIdAndUpdate. rewrite Hid.
    cbn [Employee.object_of Employee.put fold_left Employee.cast_error map
         Employee.entry_cast_failure first_failure].
    change (modify Employee._id o
              (Employee.apply [Employee.isFrozen_is flag]) coll)
      with (modify Employee._id o (Employee.set_isFrozen flag) coll).
    cbn [bind ret]. rewrite Hstored. reflexivity.
  - unfold names, findById. rewrite Hid, Hstored. reflexivity.
Qed.

(** X7.  Freezing composes with the write routes: after the freeze of an
    existing record has answered 200, every update and every delete of
    that id is refused with the frozen message, whoever asks and whatever
    the body, and changes nothing. *)
Theorem freeze_then_write_is_refused (id : string) (coll : list Employee.t)
  (e : Employee.t) :
  names Employee._id id coll e ->
  let frozen := put_freeze id coll in
  status (fst frozen) = 200
  /\ forall user body,
       put_employee user id body (snd frozen)
       = (failure 403 "This record is frozen and cannot be modified", snd frozen)
       /\ delete_employee user id (snd frozen)
          = (failure 403 "This record is frozen and cannot be deleted", snd frozen).
Proof.
  intros Hnames frozen.
  destruct (set_frozen_done true "Employee record has been frozen" id coll e Hnames)
    as (o & _ & _ & Hdone & Hafter).
  unfold frozen, put_freeze. rewrite Hdone. cbn [fst snd]. split; [reflexivity|].
  intros user body. unfold names in Hafter.
  unfold put_employee, delete_employee. rewrite Hafter. split; reflexivity.
Qed.

(** X8.  Freeze and unfreeze only touch the flag.  Unfreezing after
    freezing a record that was not frozen gives the collection back as it
    was; freezing a frozen record, and freezing twice, change nothing
    more. *)
Theorem freeze_unfreeze_round_trip (id : string) (coll : list Employee.t)
  (e : Employee.t) :
  names Employee._id id coll e ->
  (Employee.isFrozen e = false ->
   snd (put_unfreeze id (snd (put_freeze id coll))) = coll)
  /\ (Employee.isFrozen e = true -> snd (put_freeze id coll) = coll)
  /\ snd (put_freeze id (snd (put_freeze id coll))) = snd (put_freeze id coll).
Proof.
  intros Hnames.
  destruct (set_frozen_done true "Employee record has been frozen" id coll e Hnames)
    as (o & Hid & Hlookup & Hdone & Hafter).
  unfold put_freeze, put_unfreeze. rewrite Hdone. cbn [snd].
  destruct (set_frozen_done false "Employee record has been unfrozen" id _ _ Hafter)
    as (o1 & Hid1 & _ & Hundone & _).
  destruct (set_frozen_done true "Employee record has been frozen" id _ _ Hafter)
    as (o2 & Hid2 & _ & Hredone & _).
  rewrite Hundone, Hredone. cbn [snd].
  assert (o1 = o) by congruence. assert (o2 = o) by congruence. subst o1 o2.
  split; [|split].
  - intros Hfrozen. rewrite modify_modify by reflexivity.
    apply modify_fixed with (d := e); [exact Hlookup|].
    destruct e. cbn in *. subst. reflexivity.
  - intros Hfrozen. apply modify_fixed with (d := e); [exact Hlookup|].
    destruct e. cbn in *. subst. reflexivity.
  - rewrite modify_modify by reflexivity. apply modify_ext.
    intros d. destruct d. reflexivity.
Qed.

End Freezing.

(** ** Writing *)

Section Writing.
Context `{Platform}.

(** All a successful [Employee.create] fixes of the stored record. *)
Lemma create_record (doc : Employee.fields) (now : Employee.clock)
  (fresh : ObjectId) (coll coll' : list Employee.t) (e : Employee.t) :
  Employee.create doc now fresh coll = ret (e, coll') ->
  Employee._id e = fresh
  /\ option_map JS.trim (Employee.f_name doc) = Some (Employee.name e)
  /\ cast_id (Employee.f_officeId doc) = Good (Employee.officeId e)
  /\ casted_or_default (cast_date (Employee.f_reportDate doc))
       (Employee.reportDate_default now)
     = Good (Employee.reportDate e)
  /\ Employee.isFrozen e = or_default (Employee.f_isFrozen doc) false
  /\ cast_id (Employee.f_createdBy doc) = Good (Employee.createdBy e)
  /\ Employee.createdAt e
     = stored_date (cast_date (Employee.f_createdAt doc))
         (Some (Employee.createdAt_default now)).
Proof.
  unfold Employee.create, ret, throw. intros Hcreate.
  repeat match goal with
         | H : context [match ?x with _ => _ end] |- _ => destruct x eqn:?
         end; try discriminate.
  injection Hcreate as <- <-. cbn. repeat split.
Qed.

(** X9.  A delete that is allowed removes exactly the record of that id:
    the answer is 200, the id then names nothing, one record fewer is
    stored, and every other record is found as before. *)
Theorem delete_then_read (user : User.t) (id : string)
  (coll : list Employee.t) (e : Employee.t) :
  names Employee._id id coll e ->
  unique_ids Employee._id coll ->
  Employee.isFrozen e = false ->
  may_write user (Employee.officeId e) ->
  let deleted := delete_employee user id coll in
  fst deleted = ok 200 EmptyObject
  /\ names_nothing Employee._id id (snd deleted)
  /\ S (List.length (snd deleted)) = List.length coll
  /\ unique_ids Employee._id (snd deleted)
  /\ forall id' d,
       names Employee._id id' coll d ->
       Employee._id d <> Employee._id e ->
       names Employee._id id' (snd deleted) d.
Proof.
  intros Hnames Hunique Hfrozen Hmay deleted.
  destruct (names_castObjectId _ _ _ _ Hnames) as (o & Hid & Hlookup).
  destruct (lookup_found _ _ _ _ Hlookup) as [He _].
  assert (Hdeleted : deleted = (ok 200 EmptyObject, remove Employee._id o coll)).
  { unfold names in Hnames. unfold deleted, delete_employee. rewrite Hnames. cbn.
    rewrite Hfrozen, (may_write_passes _ _ Hmay).
    unfold findByIdAndDelete. rewrite Hid. reflexivity. }
  rewrite Hdeleted. cbn [fst snd].
  split; [reflexivity|]. split; [|split; [|split]].
  - unfold names_nothing, findById. rewrite Hid.
    rewrite (lookup_remove_same Employee._id _ _ Hunique). reflexivity.
  - apply remove_found_length with (d := e). exact Hlookup.
  - apply remove_unique, Hunique.
  - intros id' d Hd Hother.
    destruct (names_castObjectId _ _ _ _ Hd) as (o' & Hid' & Hlookup').
    destruct (lookup_found _ _ _ _ Hlookup') as [Hd' _].
    unfold names, findById. rewrite Hid'.
    rewrite lookup_remove_other by congruence. rewrite Hlookup'. reflexivity.
Qed.

(** X10.  A created employee can be read back.  After a 201 with an [_id]
    that is in stored form and new to the collection, that id names the
    returned record; the record is not frozen and carries the caller as
    its creator.  Its three times come from three readings of the
    clock: [createdAt] is what the schema default read, [updatedAt] what
    the save hook read after validation, and [reportDate], when the
    request gave none, what the route read before the document was
    built.  Records stored before are found as before and ids stay
    unique. *)
Theorem create_then_read (user : User.t) (body : Employee.fields)
  (now : Employee.clock) (fresh : ObjectId) (coll coll' : list Employee.t)
  (r : response) :
  post_employee user body now fresh coll = (r, coll') ->
  status r = 201 ->
  canonical fresh ->
  ~ In fresh (map Employee._id coll) ->
  exists e,
    r = ok 201 (OneEmployee e)
    /\ coll' = (coll ++ [e])%list
    /\ names Employee._id fresh coll' e
    /\ Employee.isFrozen e = false
    /\ castObjectId (User.id user) = Some (Employee.createdBy e)
    /\ Employee.createdAt e = Some (Employee.createdAt_default now)
    /\ Employee.updatedAt e = Some (Employee.save_now now)
    /\ (date_truthy (Employee.f_reportDate body) = false ->
        Employee.reportDate e = Employee.route_now now)
    /\ (forall id d, names Employee._id id coll d -> names Employee._id id coll' d)
    /\ (unique_ids Employee._id coll -> unique_ids Employee._id coll').
Proof.
  intros Hpost Hstatus Hcanonical Hfresh.
  destruct (post_created _ _ _ _ _ _ _ Hpost Hstatus) as (e & Hcreate & ->).
  pose proof (create_stored _ _ _ _ _ _ Hcreate) as (_ & Hcoll & _ & _ & _ & _ & Hstamp).
  pose proof (create_record _ _ _ _ _ _ Hcreate)
    as (Hid & _ & _ & Hreport & Hflag & Hby & Hat).
  exists e. split; [reflexivity|]. split; [exact Hcoll|]. subst coll'.
  split; [|split; [|split; [|split; [|split; [|split; [|split]]]]]].
  - unfold names, findById. rewrite Hcanonical.
    rewrite (lookup_app_new Employee._id fresh coll e); [reflexivity | | exact Hid].
    apply lookup_absent, Hfresh.
  - rewrite Hflag. reflexivity.
  - unfold new_employee in Hby. cbn in Hby.
    destruct (castObjectId (User.id user)); [|discriminate].
    injection Hby as ->. reflexivity.
  - rewrite Hat. reflexivity.
  - exact Hstamp.
  - intros Hnone. unfold new_employee in Hreport. cbn in Hreport.
    rewrite Hnone in Hreport. cbn in Hreport.
    destruct (valid_time (Employee.route_now now)); cbn in Hreport; [|discriminate].
    injection Hreport as ->. reflexivity.
  - intros id d Hd.
    destruct (names_castObjectId _ _ _ _ Hd) as (o & Ho & Hlookup).
    unfold names, findById. rewrite Ho.
    rewrite (lookup_app_old Employee._id o coll d e Hlookup). reflexivity.
  - unfold unique_ids. intros Hunique. rewrite map_app. cbn [map].
    rewrite Hid. apply NoDup_app; [exact Hunique | repeat constructor; intros [] |].
    intros x Hx [<- | []]. exact (Hfresh Hx).
Qed.

(** X11.  A request that fails writes nothing: whenever one of the write
    routes answers without success, the collection it returns is the one
    it was given. *)
Theorem failure_writes_nothing :
  (forall user body now fresh coll,
      success (fst (post_employee user body now fresh coll)) = false ->
      snd (post_employee user body now fresh coll) = coll)
  /\ (forall user id body coll,
        success (fst (put_employee user id body coll)) = false ->
        snd (put_employee user id body coll) = coll)
  /\ (forall user id coll,
        success (fst (delete_employee user id coll)) = false ->
        snd (delete_employee user id coll) = coll)
  /\ (forall flag msg id coll,
        success (fst (set_frozen flag msg id coll)) = false ->
        snd (set_frozen flag msg id coll) = coll)
  /\ (forall user body now fresh coll,
        success (fst (post_office user body now fresh coll)) = false ->
        snd (post_office user body now fresh coll) = coll)
  /\ (forall id body coll,
        success (fst (put_office id body coll)) = false ->
        snd (put_office id body coll) = coll)
  /\ (forall id coll,
        success (fst (delete_office id coll)) = false ->
        snd (delete_office id coll) = coll).
Proof.
  repeat apply conj.
  - intros user body now fresh coll.
    unfold post_employee, try_catch_write, bind.
    destruct (not_admin user && _); [reflexivity|].
    destruct (Employee.create _ now fresh coll) as [err | created]; cbn;
      [reflexivity | discriminate].
  - intros user id body coll.
    unfold put_employee, try_catch_write, bind.
    destruct (findById Employee._id id coll) as [err | [e|]]; cbn; try reflexivity.
    destruct (Employee.isFrozen e); cbn; [reflexivity|].
    destruct (not_admin user && _); cbn; [reflexivity|].
    destruct (Employee.findByIdAndUpdate id body true coll) as [err | updated]; cbn;
      [reflexivity | discriminate].
  - intros user id coll.
    unfold delete_employee, try_catch_write, bind.
    destruct (findById Employee._id id coll) as [err | [e|]]; cbn; try reflexivity.
    destruct (Employee.isFrozen e); cbn; [reflexivity|].
    destruct (not_admin user && _); cbn; [reflexivity|].
    destruct (findByIdAndDelete Employee._id id coll) as [err | deleted]; cbn;
      [reflexivity | discriminate].
  - intros flag msg id coll.
    unfold set_frozen, try_catch_write, bind.
    destruct (findById Employee._id id coll) as [err | [e|]]; cbn; try reflexivity.
    destruct (Employee.findByIdAndUpdate id _ false coll) as [err | updated]; cbn;
      [reflexivity | discriminate].
  - intros user body now fresh coll.
    unfold post_office, try_catch_write, bind.
    destruct (Office.create _ now fresh coll) as [err | created]; cbn;
      [reflexivity | discriminate].
  - intros id body coll.
    unfold put_office, try_catch_write, bind.
    destruct (findById Office._id id coll) as [err | [o|]]; cbn; try reflexivity.
    destruct (Office.findByIdAndUpdate id body coll) as [err | updated]; cbn;
      [reflexivity | discriminate].
  - intros id coll.
    unfold delete_office, try_catch_write, bind.
    destruct (findById Office._id id coll) as [err | [o|]]; cbn; try reflexivity.
    destruct (findByIdAndDelete Office._id id coll) as [err | deleted]; cbn;
      [reflexivity | discriminate].
Qed.

(** X12.  Updates and freezes never add, remove, reorder or re-identify
    records: the list of ids after them is the list before.  A delete only
    removes, and unique ids stay unique under all three. *)
Theorem writes_keep_ids (user : User.t) (id : string) (body : Employee.update)
  (flag : bool) (msg : string) (coll : list Employee.t) :
  map Employee._id (snd (put_employee user id body coll)) = map Employee._id coll
  /\ map Employee._id (snd (set_frozen flag msg id coll)) = map Employee._id coll
  /\ incl (map Employee._id (snd (delete_employee user id coll)))
          (map Employee._id coll)
  /\ (unique_ids Employee._id coll ->
      unique_ids Employee._id (snd (put_employee user id body coll))
      /\ unique_ids Employee._id (snd (set_frozen flag msg id coll))
      /\ unique_ids Employee._id (snd (delete_employee user id coll))).
Proof.
  assert (Hput : map Employee._id (snd (put_employee user id body coll))
                 = map Employee._id coll).
  { destruct (put_employee_writes user id body coll) as [-> | (o & _ & Hwritten)];
      [reflexivity | exact (written_ids _ _ _ _ _ Hwritten)]. }
  assert (Hflag : map Employee._id (snd (set_frozen flag msg id coll))
                  = map Employee._id coll).
  { destruct (set_frozen_writes flag msg id coll) as [-> | (o & ->)];
      [reflexivity | apply modify_ids; reflexivity]. }
  assert (Hdelete : snd (delete_employee user id coll) = coll
                    \/ exists o, snd (delete_employee user id coll)
                                 = remove Employee._id o coll).
  { unfold delete_employee, try_catch_write, bind, findByIdAndDelete.
    destruct (findById Employee._id id coll) as [err | [e|]]; cbn; auto.
    destruct (Employee.isFrozen e); cbn; auto.
    destruct (not_admin user && _); cbn; auto.
    destruct (castObjectId id) as [o|]; cbn; eauto. }
  split; [exact Hput|]. split; [exact Hflag|]. split.
  - destruct Hdelete as [-> | (o & ->)]; [apply incl_refl | apply remove_ids_incl].
  - unfold unique_ids. intros Hunique. rewrite Hput, Hflag.
    split; [exact Hunique|]. split; [exact Hunique|].
    destruct Hdelete as [-> | (o & ->)]; [exact Hunique|].
    apply remove_unique, Hunique.
Qed.

End Writing.

(** ** Updating *)

Section Updating.
Context `{Platform}.

(** A plain update that passes the checks is applied to the record of
    that id. *)
Lemma put_employee_allowed (user : User.t) (id : string)
  (body : list Employee.entry) (coll : list Employee.t) (e : Employee.t) :
  names Employee._id id coll e ->
  Employee.isFrozen e = false ->
  may_write user (Employee.officeId e) ->
  Employee.cast_error (Employee.object_of body) = None ->
  Employee.update_messages (Employee.object_of body) = [] ->
  exists o,
    castObjectId id = Some o
    /\ lookup Employee._id o coll = Some e
    /\ put_employee user id (Employee.Document body) coll
       = (ok 200 (OneEmployee (Employee.apply (Employee.object_of body) e)),
          modify Employee._id o (Employee.apply (Employee.object_of body)) coll)
    /\ names Employee._id id
         (modify Employee._id o (Employee.apply (Employee.object_of body)) coll)
         (Employee.apply (Employee.object_of body) e).
Proof.
  intros Hnames Hfrozen Hmay Hcast Hmsgs.
  destruct (names_castObjectId _ _ _ _ Hnames) as (o & Hid & Hlookup).
  assert (Hstored : lookup Employee._id o
                      (modify Employee._id o
                         (Employee.apply (Employee.object_of body)) coll)
                    = Some (Employee.apply (Employee.object_of body) e)).
  { apply lookup_modify_same; [exact Hlookup | apply apply_id]. }
  exists o. split; [exact Hid|]. split; [exact Hlookup|]. split.
  - unfold names in Hnames. unfold put_employee. rewrite Hnames. cbn.
    rewrite Hfrozen, (may_write_passes _ _ Hmay).
    unfold Employee.findByIdAndUpdate. rewrite Hid, Hcast, Hmsgs.
    cbn. rewrite Hstored. reflexivity.
  - unfold names, findById. rewrite Hid, Hstored. reflexivity.
Qed.

(** An update with operators that passes the checks puts what it makes
    of the record in the record's place. *)
Lemma put_employee_operators (user : User.t) (id : string)
  (effect : Employee.t -> result Employee.t)
  (coll : list Employee.t) (e e' : Employee.t) :
  names Employee._id id coll e ->
  Employee.isFrozen e = false ->
  may_write user (Employee.officeId e) ->
  effect e = ret e' ->
  Employee._id e' = Employee._id e ->
  exists o,
    castObjectId id = Some o
    /\ put_employee user id (Employee.Operators effect) coll
       = (ok 200 (OneEmployee e'), modify Employee._id o (fun _ => e') coll).
Proof.
  intros Hnames Hfrozen Hmay Heffect Hsame.
  destruct (names_castObjectId _ _ _ _ Hnames) as (o & Hid & Hlookup).
  assert (Hstored : lookup Employee._id o
                      (modify Employee._id o (fun _ => e') coll) = Some e').
  { apply (lookup_modify_same Employee._id (fun _ => e') o coll e);
      [exact Hlookup | exact Hsame]. }
  exists o. split; [exact Hid|].
  unfold names in Hnames. unfold put_employee. rewrite Hnames. cbn.
  rewrite Hfrozen, (may_write_passes _ _ Hmay).
  unfold Employee.findByIdAndUpdate. rewrite Hid, Hlookup, Heffect.
  cbn. rewrite Hsame, String.eqb_refl. cbn. rewrite Hstored. reflexivity.
Qed.

(** A 200 from [PUT /api/employees/:id] with a plain body comes from an
    update without violation. *)
Lemma put_employee_updated (user : User.t) (id : string)
  (body : list Employee.entry) (coll coll' : list Employee.t) (r : response) :
  put_employee user id (Employee.Document body) coll = (r, coll') ->
  status r = 200 ->
  exists o,
    Employee.update_messages (Employee.object_of body) = []
    /\ coll' = modify Employee._id o
                 (Employee.apply (Employee.object_of body)) coll.
Proof.
  unfold put_employee, try_catch_write, bind. intros Hput Hstatus.
  destruct (findById Employee._id id coll) as [err | [e|]]; cbn in Hput.
  - injection Hput as <- _. unfold catch_ValidationError in Hstatus.
    destruct (String.eqb _ _); discriminate.
  - destruct (Employee.isFrozen e); cbn in Hput.
    + injection Hput as <- _. discriminate.
    + destruct (not_admin user && _); cbn in Hput.
      * injection Hput as <- _. discriminate.
      * destruct (Employee.findByIdAndUpdate id (Employee.Document body) true coll)
          as [err | [d coll'']] eqn:Hupd; cbn in Hput.
        -- injection Hput as <- _. unfold catch_ValidationError in Hstatus.
           destruct (String.eqb _ _); discriminate.
        -- injection Hput as _ <-.
           apply findByIdAndUpdate_done in Hupd as (o & _ & _ & _ & Hmsgs & ->).
           exists o. split; [apply Hmsgs; reflexivity | reflexivity].
  - injection Hput as <- _. discriminate.
Qed.

(** X13.  The update route writes whatever schema path the body names,
    the freeze flag included: a caller who may write to a record, an
    administrator or not, freezes it with a body that sets [isFrozen],
    and from then on every update of it is refused. *)
Theorem update_can_freeze (user : User.t) (id : string)
  (coll : list Employee.t) (e : Employee.t) :
  names Employee._id id coll e ->
  Employee.isFrozen e = false ->
  may_write user (Employee.officeId e) ->
  exists e' coll',
    put_employee user id (flag_update true) coll = (ok 200 (OneEmployee e'), coll')
    /\ Employee.isFrozen e' = true
    /\ names Employee._id id coll' e'
    /\ forall user' body,
         put_employee user' id body coll'
         = (failure 403 "This record is frozen and cannot be modified", coll').
Proof.
  intros Hnames Hfrozen Hmay.
  destruct (put_employee_allowed user id [Employee.isFrozen_is true] coll e
              Hnames Hfrozen Hmay eq_refl eq_refl)
    as (o & _ & _ & Hput & Hafter).
  eexists. eexists. split; [exact Hput|]. split; [reflexivity|].
  split; [exact Hafter|].
  intros user' body. unfold names in Hafter. unfold put_employee.
  rewrite Hafter. reflexivity.
Qed.

(** X14.  The update route lets the members of an office hand a record
    over: with a body that names another office the record moves there,
    and the same caller's next update of it is refused as not
    authorized. *)
Theorem update_can_move_office (user : User.t) (id target : string)
  (coll : list Employee.t) (e : Employee.t) (office : ObjectId) :
  names Employee._id id coll e ->
  Employee.isFrozen e = false ->
  not_admin user = true ->
  User.officeId user = Employee.officeId e ->
  castObjectId target = Some office ->
  office <> User.officeId user ->
  exists e' coll',
    put_employee user id (Employee.Document [Employee.officeId_is target]) coll
    = (ok 200 (OneEmployee e'), coll')
    /\ Employee.officeId e' = office
    /\ forall body,
         put_employee user id body coll'
         = (failure 403 "Not authorized to update this employee", coll').
Proof.
  intros Hnames Hfrozen Hrole Hown Htarget Hother.
  assert (Hcast : Employee.cast_error
                    (Employee.object_of [Employee.officeId_is target]) = None).
  { unfold Employee.cast_error. cbn. unfold cast_id. rewrite Htarget. reflexivity. }
  destruct (put_employee_allowed user id [Employee.officeId_is target] coll e
              Hnames Hfrozen (or_intror Hown) Hcast eq_refl)
    as (o & _ & _ & Hput & Hafter).
  assert (Hoffice : Employee.officeId
                      (Employee.apply
                         (Employee.object_of [Employee.officeId_is target]) e)
                    = office).
  { cbn. rewrite Htarget. reflexivity. }
  eexists. eexists. split; [exact Hput|]. split; [exact Hoffice|].
  intros body'.
  apply (foreign_update_not_authorized user id body' _ _ Hafter).
  - destruct e. exact Hfrozen.
  - exact Hrole.
  - rewrite Hoffice. congruence.
Qed.


(** X16.  An update with an empty body changes nothing: for a record that
    is not frozen and a caller who may write to it the answer is 200 with
    the stored record, and likewise for an office. *)
Theorem empty_update_is_identity (user : User.t) (id : string)
  (coll : list Employee.t) (e : Employee.t)
  (office_id : string) (offices : list Office.t) (office : Office.t) :
  names Employee._id id coll e ->
  Employee.isFrozen e = false ->
  may_write user (Employee.officeId e) ->
  names Office._id office_id offices office ->
  put_employee user id (Employee.Document []) coll = (ok 200 (OneEmployee e), coll)
  /\ put_office office_id (Office.Document []) offices
     = (ok 200 (OneOffice office), offices).
Proof.
  intros Hnames Hfrozen Hmay Hoffice. split.
  - destruct (put_employee_allowed user id [] coll e
                Hnames Hfrozen Hmay eq_refl eq_refl)
      as (o & _ & Hlookup & Hput & _).
    assert (Hsame : Employee.apply (Employee.object_of []) e = e) by reflexivity.
    rewrite Hput, Hsame.
    rewrite (modify_fixed Employee._id _ o coll e Hlookup Hsame). reflexivity.
  - destruct (names_castObjectId _ _ _ _ Hoffice) as (o & Hid & Hlookup).
    assert (Hsame : Office.apply [] office = office) by reflexivity.
    unfold names in Hoffice. unfold put_office. rewrite Hoffice. cbn [bind].
    unfold Office.findByIdAndUpdate. rewrite Hid. cbn.
    rewrite (modify_fixed Office._id _ o offices office Hlookup Hsame), Hlookup.
    reflexivity.
Qed.

End Updating.

(** ** Creating *)

Section Creating.
Context `{Platform}.

Lemma name_messages_nil (v : option string) :
  Employee.name_messages (option_map JS.trim v) = [] <-> acceptable_name v.
Proof.
  unfold Employee.name_messages, acceptable_name.
  destruct v as [s|]; cbn [option_map].
  - destruct (String.eqb_spec (JS.trim s) "") as [Hblank | Hname].
    + split; [discriminate|]. intros (s' & [= <-] & Hs & _). contradiction.
    + destruct (Z.ltb_spec 100 (JS.strlen (JS.trim s))) as [Hlong | Hshort].
      * split; [discriminate|]. intros (s' & [= <-] & _ & Hlen). lia.
      * split; [|reflexivity]. intros _. exists s. repeat split; assumption.
  - split; [discriminate|]. intros (s' & Hs & _). discriminate.
Qed.

Lemma office_name_messages_nil (v : option string) :
  Office.name_messages (option_map JS.trim v) = [] <-> acceptable_name v.
Proof.
  unfold Office.name_messages, acceptable_name.
  destruct v as [s|]; cbn [option_map].
  - destruct (String.eqb_spec (JS.trim s) "") as [Hblank | Hname].
    + split; [discriminate|]. intros (s' & [= <-] & Hs & _). contradiction.
    + destruct (Z.ltb_spec 100 (JS.strlen (JS.trim s))) as [Hlong | Hshort].
      * split; [discriminate|]. intros (s' & [= <-] & _ & Hlen). lia.
      * split; [|reflexivity]. intros _. exists s. repeat split; assumption.
  - split; [discriminate|]. intros (s' & Hs & _). discriminate.
Qed.

Lemma location_messages_nil (v : option string) :
  Office.location_messages (option_map JS.trim v) = [] <-> not_blank v.
Proof.
  unfold Office.location_messages, not_blank.
  destruct v as [s|]; cbn [option_map].
  - destruct (String.eqb_spec (JS.trim s) "") as [Hblank | Hname].
    + split; [discriminate|]. intros (s' & [= <-] & Hs). contradiction.
    + split; [|reflexivity]. intros _. exists s. split; [reflexivity | assumption].
  - split; [discriminate|]. intros (s' & Hs & _). discriminate.
Qed.

Lemma office_messages_nil (body : Employee.fields) :
  cast_messages "ObjectId" "officeId" (cast_id (Employee.f_officeId body)) = []
  /\ required_messages Employee.msg_office_required
       (cast_id (Employee.f_officeId body)) = []
  <-> office_given body.
Proof.
  unfold office_given, cast_id.
  destruct (Employee.f_officeId body) as [s|]; cbn.
  - destruct (castObjectId s) as [o|] eqn:Hcast; cbn.
    + split; [|split; reflexivity].
      intros _. exists s, o. split; [reflexivity | assumption].
    + split; [intros [? _]; discriminate|]. intros (s' & o & [= <-] & Ho). congruence.
  - split; [intros [_ ?]; discriminate|]. intros (s' & o & Hs & _). discriminate.
Qed.

Lemma report_messages_nil (body : Employee.fields) (now : Employee.clock) :
  valid_time (Employee.route_now now) = true ->
  let reportDate :=
    cast_date (if date_truthy (Employee.f_reportDate body)
               then Employee.f_reportDate body
               else Some (DateMillis (Employee.route_now now))) in
  cast_messages "date" "reportDate" reportDate = []
  /\ required_messages Employee.msg_reportDate_required
       (casted_or_default reportDate (Employee.reportDate_default now)) = []
  <-> report_date_readable body.
Proof.
  intros Hnow. unfold report_date_readable.
  destruct (date_truthy (Employee.f_reportDate body)) eqn:Htruthy.
  - destruct (Employee.f_reportDate body) as [d|]; [|discriminate].
    assert (Hcast : cast_date (Some d)
                    = match castDate d with
                      | Some t => Good t
                      | None => Bad (date_input_text d)
                      end).
    { destruct d as [[|c s] | t]; [discriminate | reflexivity | reflexivity]. }
    cbn zeta. rewrite Hcast.
    destruct (castDate d) as [t|] eqn:Hread; cbn.
    + split; [|split; reflexivity].
      intros _ _. exists d, t. split; [reflexivity | assumption].
    + split; [intros [? _]; discriminate|]. intros Hreadable.
      destruct (Hreadable eq_refl) as (d' & t & [= <-] & Ht). congruence.
  - cbn. rewrite Hnow. cbn. split; [discriminate | split; reflexivity].
Qed.

Lemma count_messages_nil (body : Employee.fields) :
  let reg := Employee.f_isRegisteredOnIGOT body in
  let enrolled :=
    or_default (if JS.truthy_bool reg then Employee.f_coursesEnrolled body else Some 0) 0 in
  let completed :=
    or_default (if JS.truthy_bool reg then Employee.f_coursesCompleted body else Some 0) 0 in
  let this := Employee.document_view (or_default reg false) enrolled in
  (Employee.enrolled_messages this enrolled = []
   /\ Employee.completed_messages this completed = [])
  <-> counts_in_order body.
Proof.
  unfold counts_in_order, Employee.enrolled_messages, Employee.completed_messages,
    Employee.coursesEnrolled_validator, Employee.coursesCompleted_validator.
  destruct (Employee.f_isRegisteredOnIGOT body) as [[]|]; cbn.
  - destruct (Z.geb_spec (or_default (Employee.f_coursesEnrolled body) 0) 0);
      destruct (Z.leb_spec (or_default (Employee.f_coursesCompleted body) 0)
                  (or_default (Employee.f_coursesEnrolled body) 0));
      split; try (intros [? ?]; discriminate); try (intros Hc; specialize (Hc eq_refl); lia);
      try (split; reflexivity); try (intros _ _; lia).
  - split; [discriminate | split; reflexivity].
  - split; [discriminate | split; reflexivity].
Qed.

(** X17.  Creating an employee succeeds exactly when the request is well
    formed.  For a caller that passes the ownership test, the answer is
    201 if and only if the name is acceptable, the office id is well
    formed, a given report date is readable and, for a registered
    employee, the counts are not negative and in order; it is 400
    otherwise, and nothing is stored. *)
Theorem employee_create_accepts_exactly (user : User.t) (body : Employee.fields)
  (now : Employee.clock) (fresh creator : ObjectId) (coll : list Employee.t) :
  castObjectId (User.id user) = Some creator ->
  valid_time (Employee.route_now now) = true ->
  not_admin user = false
  \/ Employee.f_officeId body = Some (User.officeId user) ->
  let answer := post_employee user body now fresh coll in
  (status (fst answer) = 201 <->
   acceptable_name (Employee.f_name body) /\ office_given body
   /\ report_date_readable body /\ counts_in_order body)
  /\ (status (fst answer) <> 201 -> status (fst answer) = 400 /\ snd answer = coll).
Proof.
  intros Hcreator Hnow Hmay answer.
  assert (Hpass : not_admin user
                  && JS.strict_neq_opt (User.officeId user) (Employee.f_officeId body)
                  = false).
  { destruct Hmay as [-> | ->]; [reflexivity|]. cbn. unfold JS.strict_neq.
    rewrite String.eqb_refl. apply andb_false_r. }
  assert (Hmsgs : Employee.document_messages (new_employee user body now) now = []
                  <-> acceptable_name (Employee.f_name body) /\ office_given body
                      /\ report_date_readable body /\ counts_in_order body).
  { unfold Employee.document_messages, new_employee.
    cbn [Employee.f_name Employee.f_officeId Employee.f_isRegisteredOnIGOT
         Employee.f_coursesEnrolled Employee.f_coursesCompleted
         Employee.f_reportDate Employee.f_createdBy Employee.f_createdAt
         Employee.f_updatedAt].
    rewrite <- name_messages_nil, <- office_messages_nil,
      <- (report_messages_nil body now Hnow), <- count_messages_nil.
    replace (cast_id (Some (User.id user))) with (Good creator)
      by (unfold cast_id; rewrite Hcreator; reflexivity).
    replace (cast_date None) with (@Absent Z) by reflexivity.
    cbn [required_messages cast_messages app].
    rewrite !app_nil_r. split.
    - intros Hnil.
      apply app_eq_nil in Hnil as [H1 Hnil]. apply app_eq_nil in Hnil as [H2 Hnil].
      apply app_eq_nil in Hnil as [H3 Hnil]. apply app_eq_nil in Hnil as [H4 Hnil].
      apply app_eq_nil in Hnil as [H5 Hnil]. apply app_eq_nil in Hnil as [H6 H7].
      repeat split; assumption.
    - intros (H3 & (H1 & H4) & (H2 & H7) & H5 & H6).
      rewrite H1, H2, H3, H4, H5, H6, H7. reflexivity. }
  unfold answer, post_employee. rewrite Hpass. unfold try_catch_write, bind.
  destruct (Employee.document_messages (new_employee user body now) now)
    as [|msg msgs] eqn:Hdoc.
  - destruct (create_accepted (new_employee user body now) now fresh coll Hdoc)
      as (e & ->).
    cbn. split; [|intros Hno; contradiction].
    split; [intros _; apply Hmsgs; reflexivity | reflexivity].
  - rewrite create_rejected by (rewrite Hdoc; discriminate). cbn. split.
    + split; [discriminate|]. intros Hok. apply Hmsgs in Hok. discriminate.
    + intros _. split; reflexivity.
Qed.

(** X18.  Creating an office succeeds exactly when it has a name and a
    location.  The answer is 201 if and only if the name is acceptable and
    the location is not blank; the stored office then has the trimmed
    texts, the caller as creator and, as [createdAt], the time its
    default read; otherwise the answer is 400 and nothing is stored. *)
Theorem office_create_accepts_exactly (user : User.t) (body : Office.fields)
  (now : Z) (fresh creator : ObjectId) (coll : list Office.t) :
  castObjectId (User.id user) = Some creator ->
  let answer := post_office user body now fresh coll in
  (status (fst answer) = 201 <->
   acceptable_name (Office.f_name body) /\ not_blank (Office.f_location body))
  /\ (status (fst answer) = 201 ->
      exists name location,
        Office.f_name body = Some name
        /\ Office.f_location body = Some location
        /\ let office :=
             Office.mk fresh (JS.trim name) (JS.trim location)
               (option_map JS.trim (Office.f_description body)) creator
               (Some now) in
           answer = (ok 201 (OneOffice office), (coll ++ [office])%list))
  /\ (status (fst answer) <> 201 -> status (fst answer) = 400 /\ snd answer = coll).
Proof.
  intros Hcreator answer.
  rewrite <- office_name_messages_nil, <- location_messages_nil.
  unfold answer, post_office, try_catch_write, bind, Office.create,
    Office.document_messages, new_office.
  cbn [Office.f_name Office.f_location Office.f_description Office.f_createdBy
       Office.f_createdAt cast_id cast_date casted_or_default cast_messages
       stored_date].
  rewrite Hcreator. cbn [required_messages cast_messages app stored_date].
  rewrite !app_nil_r.
  destruct (Office.f_name body) as [name|]; cbn [option_map].
  - destruct (Office.f_location body) as [location|]; cbn [option_map].
    + destruct (Office.name_messages (Some (JS.trim name))) as [|m1 l1] eqn:Hname;
        destruct (Office.location_messages (Some (JS.trim location)))
          as [|m2 l2] eqn:Hlocation; cbn.
      * split; [split; [intros _; split; reflexivity | reflexivity]|].
        split; [|intros Hno; contradiction].
        intros _. exists name, location. repeat split.
      * split; [split; [discriminate | intros [_ ?]; discriminate]|].
        split; [discriminate | intros _; split; reflexivity].
      * split; [split; [discriminate | intros [? _]; discriminate]|].
        split; [discriminate | intros _; split; reflexivity].
      * split; [split; [discriminate | intros [? _]; discriminate]|].
        split; [discriminate | intros _; split; reflexivity].
    + destruct (Office.name_messages (Some (JS.trim name))) as [|m1 l1]; cbn;
        (split; [split; [discriminate | intros [_ ?]; discriminate]|]);
        (split; [discriminate | intros _; split; reflexivity]).
  - cbn. split; [split; [discriminate | intros [? _]; discriminate]|].
    split; [discriminate | intros _; split; reflexivity].
Qed.

End Creating.

(** ** The dashboard and the report *)

Section Figures.
Context `{Platform}.

Lemma total_ordered (l : list Employee.t) :
  counts_ordered l ->
  0 <= total Employee.coursesCompleted l <= total Employee.coursesEnrolled l.
Proof.
  induction 1 as [|e l He _ IH]; simpl; lia.
Qed.

(** X19.  The completion rate lies between 0.00 and 100.00.  When in
    every record the completed courses are among the enrolled ones, and
    the enrolled sum of the caller's records is below 2^53, the two sums
    the dashboard shows are the exact ones, the rate it shows is a
    number of hundredths between 0 and 10000; it is 100.00 when every
    enrolled course is completed; and the two registration counts lie
    between zero and the number of records. *)
Theorem dashboard_rate_within_bounds (user : User.t) (coll : list Employee.t) :
  let enrolled := total Employee.coursesEnrolled (filter (visible user) coll) in
  let completed := total Employee.coursesCompleted (filter (visible user) coll) in
  counts_ordered coll ->
  enrolled < 2 ^ 53 ->
  exists s n,
    get_dashboard user coll = ok 200 (Summary s)
    /\ totalCoursesEnrolled s = JS.of_int enrolled
    /\ totalCoursesCompleted s = JS.of_int completed
    /\ completionRate s = JS.fixed2 n
    /\ 0 <= n <= 10000
    /\ (JS.lt (JS.of_int 0) (totalCoursesEnrolled s) = true ->
        totalCoursesCompleted s = totalCoursesEnrolled s ->
        completionRate s = "100.00")
    /\ (0 < enrolled -> completed = enrolled -> completionRate s = "100.00")
    /\ 0 <= registeredOnIGOT s <= totalEmployees s
    /\ 0 <= notRegisteredOnIGOT s <= totalEmployees s.
Proof.
  intros enrolled0 completed0 Hordered Hbound.
  pose proof (total_ordered _ (Forall_filter _ (visible user) _ Hordered)) as Htotals.
  pose proof (filter_length_le Employee.isRegisteredOnIGOT (filter (visible user) coll))
    as Hregistered.
  assert (Hcounts : counts_nonnegative (filter (visible user) coll)).
  { apply Forall_filter. eapply Forall_impl; [|exact Hordered].
    intros e He. cbn beta in He. lia. }
  assert (Hcompleted0 : total Employee.coursesCompleted (filter (visible user) coll)
                        < 2 ^ 53) by (unfold enrolled0 in Hbound; lia).
  destruct (exact_figures user coll Hcounts Hbound Hcompleted0)
    as (_ & _ & _ & _ & ->).
  unfold enrolled0, completed0 in *. clear enrolled0 completed0.
  remember (total Employee.coursesEnrolled (filter (visible user) coll)) as enrolled
    eqn:Henrolled.
  remember (total Employee.coursesCompleted (filter (visible user) coll)) as completed
    eqn:Hcompleted.
  destruct (Z.gtb_spec enrolled 0) as [Hpositive | Hzero].
  - destruct (toFixed2_percentage Number_toString completed enrolled)
      as (n & Htext & Hn & Hclose); [lia | lia |].
    assert (Hrange : 0 <= n <= 10000).
    { split; [assumption|].
      destruct (Z.le_gt_cases n 10000) as [Hle | Hgt]; [assumption|].
      exfalso.
      assert (Hgap : enrolled <= n * enrolled - 10000 * completed) by nia.
      rewrite Z.abs_eq in Hclose by lia.
      assert (H51 : 2 ^ 51 = 2 * 2 ^ 50) by reflexivity.
      assert (Hbig : 20000 < 2 ^ 50) by reflexivity.
      nia. }
    eexists; exists n. split; [reflexivity|]. cbn.
    split; [reflexivity|]. split; [reflexivity|].
    split; [assumption|]. split; [assumption|].
    assert (Hfull : completed = enrolled ->
                    JS.toFixed2 Number_toString (percentage completed enrolled)
                    = "100.00").
    { intros Hall. rewrite Htext.
      assert (Hn' : n = 10000).
      { rewrite Hall in Hclose.
        replace (n * enrolled - 10000 * enrolled) with ((n - 10000) * enrolled)
          in Hclose by ring.
        rewrite Z.abs_mul, (Z.abs_eq enrolled) in Hclose by lia.
        assert (H51 : 2 ^ 51 = 2 * 2 ^ 50) by reflexivity.
        assert (Hbig : 20000 < 2 ^ 50) by reflexivity.
        assert (Habs : Z.abs (n - 10000) < 1) by nia.
        lia. }
      rewrite Hn'. reflexivity. }
    split; [|split; [|split; lia]].
    + intros _ Hall. apply Hfull.
      apply of_int_injective; [lia | lia | exact Hall].
    + intros _ Hall. apply Hfull, Hall.
  - eexists; exists 0. split; [reflexivity|]. cbn.
    split; [reflexivity|]. split; [reflexivity|].
    split; [reflexivity|]. split; [lia|].
    split; [|split; [|split; lia]].
    + rewrite of_int_positive by lia. intros Hpositive.
      apply Z.gtb_lt in Hpositive. lia.
    + intros Hpositive. lia.
Qed.

(** The report for a range both of whose bounds are read as dates. *)
Lemma get_report_range (user : User.t) (startDate endDate : string) (gte lte : Z)
  (coll : list Employee.t) :
  startDate <> "" -> endDate <> "" ->
  Date_parse startDate = Some gte ->
  Date_parse endDate = Some lte ->
  let found := filter (fun e => visible user e && in_range gte lte e) coll in
  get_report user (Some startDate) (Some endDate) coll
  = ok_count 200 (Z.of_nat (List.length found))
      (Populated with_office_and_creator (Employees found)).
Proof.
  intros Hs He Hgte Hlte found. unfold get_report.
  rewrite (truthy_nonempty _ Hs), (truthy_nonempty _ He). cbn.
  rewrite Hgte, Hlte. cbn.
  rewrite (filter_ext _ _ (matches_visible_in_range user gte lte)).
  reflexivity.
Qed.

(** X20.  A bound that is not a date fails the report.  When both
    parameters are given and one of them cannot be read as a date, the
    answer is the 500 of the catch block, not an unfiltered or an empty
    report. *)
Theorem report_with_unreadable_bound_fails (user : User.t)
  (startDate endDate : string) (coll : list Employee.t) :
  startDate <> "" -> endDate <> "" ->
  Date_parse startDate = None \/ Date_parse endDate = None ->
  get_report user (Some startDate) (Some endDate) coll = server_error.
Proof.
  intros Hs He Hbad. unfold get_report.
  rewrite (truthy_nonempty _ Hs), (truthy_nonempty _ He). cbn.
  destruct Hbad as [-> | ->].
  - reflexivity.
  - destruct (Date_parse startDate); reflexivity.
Qed.

(** X21.  The report grows with its range.  Of two ranges read as dates,
    the one inside the other gives a report whose records all appear in
    the other's; a range whose end precedes its start gives an empty
    report with count zero; and every reported record is one the plain
    list shows. *)
Theorem report_grows_with_range (user : User.t)
  (startDate endDate startDate' endDate' : string) (gte lte gte' lte' : Z)
  (coll : list Employee.t) :
  startDate <> "" -> endDate <> "" -> startDate' <> "" -> endDate' <> "" ->
  Date_parse startDate = Some gte -> Date_parse endDate = Some lte ->
  Date_parse startDate' = Some gte' -> Date_parse endDate' = Some lte' ->
  gte' <= gte -> lte <= lte' ->
  exists inner outer,
    get_report user (Some startDate) (Some endDate) coll
    = ok_count 200 (Z.of_nat (List.length inner))
        (Populated with_office_and_creator (Employees inner))
    /\ get_report user (Some startDate') (Some endDate') coll
       = ok_count 200 (Z.of_nat (List.length outer))
           (Populated with_office_and_creator (Employees outer))
    /\ incl inner outer
    /\ (List.length inner <= List.length outer)%nat
    /\ (forall all, get_employees user coll
                    = ok_count 200 (Z.of_nat (List.length all))
                        (Populated with_office (Employees all)) ->
                    incl outer all)
    /\ (lte < gte -> inner = []).
Proof.
  intros Hs He Hs' He' Hgte Hlte Hgte' Hlte' Hstart Hend.
  exists (filter (fun e => visible user e && in_range gte lte e) coll),
    (filter (fun e => visible user e && in_range gte' lte' e) coll).
  split; [apply get_report_range; assumption|].
  split; [apply get_report_range; assumption|].
  assert (Hwider : forall e, visible user e && in_range gte lte e = true ->
                             visible user e && in_range gte' lte' e = true).
  { intros e. unfold in_range. rewrite !andb_true_iff, !Z.leb_le.
    intros (Hseen & Hfrom & Hto). repeat split; [assumption | lia | lia]. }
  split; [|split; [|split]].
  - intros e. rewrite !filter_In. intros [Hin Hok]. auto.
  - clear -Hwider. induction coll as [|e coll IH]; simpl; [lia|].
    destruct (visible user e && in_range gte lte e) eqn:Hinner.
    + rewrite (Hwider e Hinner). simpl. lia.
    + destruct (visible user e && in_range gte' lte' e); simpl; lia.
  - intros all. unfold get_employees. cbn.
    rewrite (filter_ext _ _ (matches_visible user)).
    intros [= _ <-] e. rewrite !filter_In, andb_true_iff. tauto.
  - intros Hinverted.
    induction coll as [|e coll IH]; simpl; [reflexivity|].
    replace (in_range gte lte e) with false.
    + rewrite andb_false_r. exact IH.
    + symmetry. unfold in_range. apply andb_false_iff.
      rewrite !Z.leb_gt. lia.
Qed.

End Figures.

(** ** The shape of the answers *)

Section Answers.
Context `{Platform}.

Lemma envelope_failure (code : Z) (msg : string) :
  code = 400 \/ code = 403 \/ code = 404 \/ code = 500 ->
  envelope (failure code msg).
Proof.
  intros Hcode. right. cbn. repeat split; [assumption | discriminate].
Qed.

Lemma envelope_ok (code : Z) (d : payload) :
  code = 200 \/ code = 201 -> d <> Nothing -> envelope (ok code d).
Proof.
  intros Hcode Hd. left. cbn. repeat split; assumption.
Qed.

Lemma envelope_ok_count (code n : Z) (d : payload) :
  code = 200 \/ code = 201 -> d <> Nothing -> envelope (ok_count code n d).
Proof.
  intros Hcode Hd. left. cbn. repeat split; assumption.
Qed.

Lemma envelope_ok_message (code : Z) (d : payload) (msg : string) :
  code = 200 \/ code = 201 -> d <> Nothing -> envelope (ok_message code d msg).
Proof.
  intros Hcode Hd. left. cbn. repeat split; assumption.
Qed.

Lemma envelope_catch_any (e : exn) : envelope (catch_any e).
Proof.
  apply envelope_failure. auto.
Qed.

Lemma envelope_catch_ObjectId (notFound : string) (e : exn) :
  envelope (catch_ObjectId notFound e).
Proof.
  unfold catch_ObjectId, server_error.
  destruct (err_kind e) as [k|]; [destruct (String.eqb k "ObjectId")|];
    apply envelope_failure; auto.
Qed.

Lemma envelope_catch_ValidationError (e : exn) :
  envelope (catch_ValidationError e).
Proof.
  unfold catch_ValidationError, server_error.
  destruct (String.eqb _ _); apply envelope_failure; auto.
Qed.

Lemma employee_payload_data (e : option Employee.t) : employee_payload e <> Nothing.
Proof.
  destruct e; discriminate.
Qed.

Lemma office_payload_data (o : option Office.t) : office_payload o <> Nothing.
Proof.
  destruct o; discriminate.
Qed.

Ltac innermost x :=
  lazymatch x with
  | match ?y with _ => _ end => innermost y
  | _ => destruct x eqn:?
  end.

Ltac envelope_leaf :=
  solve [ apply envelope_failure; auto 6
        | apply envelope_catch_any
        | apply envelope_catch_ObjectId
        | apply envelope_catch_ValidationError
        | first [apply envelope_ok | apply envelope_ok_count | apply envelope_ok_message];
          [auto | first [discriminate | apply employee_payload_data
                        | apply office_payload_data]] ].

Ltac envelope_cases :=
  unfold try_catch, try_catch_write, bind, ret, throw;
  repeat (cbv beta iota; cbn [fst snd];
          match goal with
          | |- envelope (fst (match ?x with _ => _ end)) => innermost x
          | |- envelope (match ?x with _ => _ end) => innermost x
          end);
  cbv beta iota; cbn [fst snd]; envelope_leaf.

(** X22.  Every answer of every route has one of two shapes.  Either it
    reports success with status 200 or 201 and carries data, or it
    reports failure with status 400, 403, 404 or 500, carries a message,
    and has neither data nor a count.  No route answers with any other
    status, and none marks a failure as a success. *)
Theorem every_answer_is_an_envelope (user : User.t) (id : string)
  (body : Employee.fields) (office_body : Office.fields)
  (update : Employee.update) (office_update : Office.update)
  (startDate endDate : option string) (flag : bool) (msg : string)
  (now : Employee.clock) (office_now : Z) (fresh : ObjectId)
  (coll : list Employee.t) (offices : list Office.t) :
  envelope (get_employees user coll)
  /\ envelope (get_dashboard user coll)
  /\ envelope (get_report user startDate endDate coll)
  /\ envelope (get_employee user id coll offices)
  /\ envelope (fst (post_employee user body now fresh coll))
  /\ envelope (fst (put_employee user id update coll))
  /\ envelope (fst (delete_employee user id coll))
  /\ envelope (fst (set_frozen flag msg id coll))
  /\ envelope (get_office user id offices)
  /\ envelope (fst (post_office user office_body office_now fresh offices))
  /\ envelope (fst (put_office id office_update offices))
  /\ envelope (fst (delete_office id offices)).
Proof.
  repeat split.
  - unfold get_employees, Employee.find. cbn [Employee.c_reportDate].
    envelope_cases.
  - rewrite get_dashboard_summary. apply envelope_ok; [auto | discriminate].
  - unfold get_report, Employee.find. cbn [Employee.c_reportDate].
    destruct (JS.truthy_string startDate && JS.truthy_string endDate);
      [destruct (new_Date startDate), (new_Date endDate)|];
      envelope_cases.
  - unfold get_employee. envelope_cases.
  - unfold post_employee. envelope_cases.
  - unfold put_employee. envelope_cases.
  - unfold delete_employee. envelope_cases.
  - unfold set_frozen. envelope_cases.
  - unfold get_office. envelope_cases.
  - unfold post_office. envelope_cases.
  - unfold put_office. envelope_cases.
  - unfold delete_office. envelope_cases.
Qed.

End Answers.

(** ** Names *)

Section Names.
Context `{Platform}.

Lemma employee_name_checked (s : string) :
  Employee.name_messages (Some s) = [] -> named s.
Proof.
  unfold Employee.name_messages, named.
  destruct (String.eqb_spec s ""); [discriminate|].
  destruct (Z.ltb_spec 100 (JS.strlen s)); [discriminate|].
  intros _. split; assumption.
Qed.

Lemma office_name_checked (s : string) :
  Office.name_messages (Some s) = [] -> named s.
Proof.
  unfold Office.name_messages, named.
  destruct (String.eqb_spec s ""); [discriminate|].
  destruct (Z.ltb_spec 100 (JS.strlen s)); [discriminate|].
  intros _. split; assumption.
Qed.

Lemma office_location_checked (s : string) :
  Office.location_messages (Some s) = [] -> s <> "".
Proof.
  unfold Office.location_messages.
  destruct (String.eqb_spec s ""); [discriminate | intros _; assumption].
Qed.

Lemma employee_create_named (doc : Employee.fields) (now : Employee.clock)
  (fresh : ObjectId) (coll coll' : list Employee.t) (e : Employee.t) :
  Employee.create doc now fresh coll = ret (e, coll') ->
  named (Employee.name e) /\ coll' = (coll ++ [e])%list.
Proof.
  unfold Employee.create, ret, throw. intros Hcreate.
  destruct (Employee.document_messages doc now) eqn:Hmsgs; [|discriminate].
  unfold Employee.document_messages in Hmsgs.
  do 5 (apply app_eq_nil in Hmsgs as [_ Hmsgs]).
  apply app_eq_nil in Hmsgs as [Hname _].
  destruct (option_map JS.trim (Employee.f_name doc)) as [name|]; [|discriminate].
  repeat match type of Hcreate with
         | match ?x with _ => _ end = _ => destruct x; try discriminate
         end.
  injection Hcreate as <- <-. cbn.
  split; [apply employee_name_checked, Hname | reflexivity].
Qed.

Lemma office_create_named (doc : Office.fields) (now : Z) (fresh : ObjectId)
  (coll coll' : list Office.t) (o : Office.t) :
  Office.create doc now fresh coll = ret (o, coll') ->
  (named (Office.name o) /\ Office.location o <> "")
  /\ coll' = (coll ++ [o])%list.
Proof.
  unfold Office.create, ret, throw. intros Hcreate.
  destruct (Office.document_messages doc) eqn:Hmsgs; [|discriminate].
  unfold Office.document_messages in Hmsgs.
  do 2 (apply app_eq_nil in Hmsgs as [_ Hmsgs]).
  apply app_eq_nil in Hmsgs as [Hname Hmsgs].
  apply app_eq_nil in Hmsgs as [Hlocation _].
  destruct (option_map JS.trim (Office.f_name doc)) as [name|]; [|discriminate].
  destruct (option_map JS.trim (Office.f_location doc)) as [location|];
    [|discriminate].
  repeat match type of Hcreate with
         | match ?x with _ => _ end = _ => destruct x; try discriminate
         end.
  injection Hcreate as <- <-. cbn.
  split; [split|reflexivity].
  - apply office_name_checked, Hname.
  - apply office_location_checked, Hlocation.
Qed.

Lemma employee_apply_named (obj : list Employee.entry) (d : Employee.t) :
  Employee.update_messages obj = [] ->
  named (Employee.name d) -> named (Employee.name (Employee.apply obj d)).
Proof.
  intros Hmsgs. pose proof (proj1 (update_messages_nil obj) Hmsgs) as Hclean.
  apply (apply_invariant (fun x => named (Employee.name x))).
  intros e x Hin Hx. specialize (Hclean e Hin).
  destruct e; try exact Hx.
  cbn. apply employee_name_checked, Hclean.
Qed.

Lemma office_update_messages_nil (obj : list Office.entry) :
  Office.update_messages obj = []
  <-> forall e, In e obj -> Office.entry_messages e = [].
Proof.
  unfold Office.update_messages. rewrite flat_map_nil.
  split; intros Hall e Hin; apply Hall.
  - apply in_rev in Hin. exact Hin.
  - apply in_rev. exact Hin.
Qed.

Lemma office_apply_invariant (P : Office.t -> Prop) (obj : list Office.entry) :
  (forall e d, In e obj -> P d -> P (Office.set_entry e d)) ->
  forall d, P d -> P (Office.apply obj d).
Proof.
  unfold Office.apply. induction obj as [|e obj IH]; intros Hstep d Hd;
    cbn [fold_left]; [exact Hd|].
  apply IH.
  - intros e' d' Hin. apply Hstep. right. exact Hin.
  - apply Hstep; [left; reflexivity | exact Hd].
Qed.

Lemma office_apply_named (obj : list Office.entry) (d : Office.t) :
  Office.update_messages obj = [] ->
  named (Office.name d) /\ Office.location d <> "" ->
  named (Office.name (Office.apply obj d))
  /\ Office.location (Office.apply obj d) <> "".
Proof.
  intros Hmsgs. pose proof (proj1 (office_update_messages_nil obj) Hmsgs) as Hclean.
  apply (office_apply_invariant
           (fun x => named (Office.name x) /\ Office.location x <> "")).
  intros e x Hin [Hname Hlocation]. specialize (Hclean e Hin).
  destruct e; cbn; split; try assumption.
  - apply office_name_checked, Hclean.
  - apply office_location_checked, Hclean.
Qed.

(** X23.  Stored names stay acceptable under requests with plain
    bodies.  If every employee has a name that is not empty and has at
    most 100 characters, the same holds after a create, an update whose
    body has no update operator, a delete, a freeze or an unfreeze,
    whatever their outcome; likewise every office keeps such a name and
    a location that is not empty through the office routes.  The update
    validators do not read what an update operator carries, so a body
    with operators is outside this guarantee. *)
Theorem names_stay_acceptable (user : User.t) (id : string)
  (body : Employee.fields) (office_body : Office.fields)
  (update : list Employee.entry) (office_update : list Office.entry)
  (flag : bool) (msg : string) (now : Employee.clock) (office_now : Z)
  (fresh : ObjectId) (coll : list Employee.t) (offices : list Office.t) :
  employees_named coll ->
  offices_named offices ->
  employees_named (snd (post_employee user body now fresh coll))
  /\ employees_named (snd (put_employee user id (Employee.Document update) coll))
  /\ employees_named (snd (delete_employee user id coll))
  /\ employees_named (snd (set_frozen flag msg id coll))
  /\ offices_named (snd (post_office user office_body office_now fresh offices))
  /\ offices_named (snd (put_office id (Office.Document office_update) offices))
  /\ offices_named (snd (delete_office id offices)).
Proof.
  intros Hcoll Hoffices. repeat split.
  - unfold post_employee, try_catch_write, bind.
    destruct (not_admin user && _); cbn; [assumption|].
    destruct (Employee.create _ now fresh coll) as [err | [e coll']] eqn:Hcreate;
      cbn; [assumption|].
    apply employee_create_named in Hcreate as [He ->].
    apply Forall_app. split; [assumption | constructor; [assumption | constructor]].
  - destruct (put_employee_writes user id (Employee.Document update) coll)
      as [-> | (o & _ & _ & Hmsgs & ->)]; [assumption|].
    apply modify_Forall; [|assumption].
    intros d. apply employee_apply_named, Hmsgs. reflexivity.
  - unfold delete_employee, try_catch_write, bind, findByIdAndDelete.
    destruct (findById Employee._id id coll) as [err | [e|]]; cbn; auto.
    destruct (Employee.isFrozen e); cbn; auto.
    destruct (not_admin user && _); cbn; auto.
    destruct (castObjectId id); cbn; auto.
    apply remove_Forall, Hcoll.
  - destruct (set_frozen_writes flag msg id coll) as [-> | (o & ->)];
      [assumption|].
    apply modify_Forall; [|assumption]. intros d Hd. exact Hd.
  - unfold post_office, try_catch_write, bind.
    destruct (Office.create _ office_now fresh offices) as [err | [o coll']]
      eqn:Hcreate; cbn; [assumption|].
    apply office_create_named in Hcreate as [Ho ->].
    apply Forall_app. split; [assumption | constructor; [assumption | constructor]].
  - unfold put_office, try_catch_write, bind.
    destruct (findById Office._id id offices) as [err | [o|]]; cbn [snd]; auto.
    destruct (Office.findByIdAndUpdate id (Office.Document office_update) offices)
      as [err | [d coll']] eqn:Hupd; cbn [snd]; auto.
    unfold Office.findByIdAndUpdate, ret, throw in Hupd.
    destruct (castObjectId id); [|discriminate].
    destruct (Office.cast_error (Office.object_of office_update)); [discriminate|].
    destruct (Office.update_messages (Office.object_of office_update)) eqn:Hmsgs;
      [|discriminate].
    injection Hupd as _ <-.
    apply modify_Forall; [|assumption].
    intros x. apply office_apply_named, Hmsgs.
  - unfold delete_office, try_catch_write, bind, findByIdAndDelete.
    destruct (findById Office._id id offices) as [err | [o|]]; cbn; auto.
    destruct (castObjectId id); cbn; auto.
    apply remove_Forall, Hoffices.
Qed.

End Names.

(** ** The further properties on the sample data *)

Section MoreExamples.
#[local] Existing Instance Sample.platform.

Lemma staff_ids_unique : unique_ids Employee._id Sample.staff.
Proof.
  repeat constructor; cbn; intuition discriminate.
Defined.

Lemma office_ids_unique : unique_ids Office._id Sample.offices.
Proof.
  repeat constructor; cbn; intuition discriminate.
Defined.

Lemma head_office_is_stored :
  names Office._id Sample.hq Sample.offices Sample.head_office.
Proof. reflexivity. Defined.

Lemma clerk_may_write_hq : may_write Sample.clerk Sample.hq.
Proof. right. reflexivity. Defined.

Lemma staff_counts_ordered : counts_ordered Sample.staff.
Proof.
  repeat constructor; cbn; lia.
Defined.

Lemma staff_named : employees_named Sample.staff.
Proof.
  repeat constructor; cbn; discriminate.
Defined.

Lemma offices_are_named : offices_named Sample.offices.
Proof.
  repeat constructor; cbn; discriminate.
Defined.

Lemma employee_list_is_office_scoped_witness :
  not_admin Sample.clerk = true
  /\ get_employees Sample.clerk Sample.staff
     = ok_count 200 2 (Populated with_office (Employees [Sample.jo; Sample.ann]))
  /\ get_report Sample.clerk None None Sample.staff
     = ok_count 200 2
         (Populated with_office_and_creator (Employees [Sample.jo; Sample.ann]))
  /\ forall e, In e [Sample.jo; Sample.ann] <->
               In e Sample.staff /\ Employee.officeId e = Sample.hq.
Proof.
  split; [reflexivity|].
  destruct (employee_list_is_office_scoped Sample.clerk Sample.staff)
    as (Hlist & Hreport & _ & Hscope).
  split; [exact Hlist|]. split; [exact Hreport | exact (Hscope eq_refl)].
Defined.

Lemma employee_read_access_witness :
  names Employee._id Sample.jo_id Sample.staff Sample.jo
  /\ lookup Office._id (Employee.officeId Sample.jo) Sample.offices
     = Some Sample.head_office
  /\ may_write Sample.clerk (Employee.officeId Sample.jo)
  /\ get_employee Sample.clerk Sample.jo_id Sample.staff Sample.offices
     = ok 200 (Populated with_office_and_creator (OneEmployee Sample.jo))
  /\ get_employee Sample.outsider Sample.jo_id Sample.staff Sample.offices
     = failure 403 "Not authorized to access this employee".
Proof.
  split; [exact jo_is_stored|]. split; [reflexivity|].
  split; [exact clerk_may_write_hq|]. split.
  - exact (proj1 (employee_read_access Sample.clerk Sample.jo_id Sample.staff
                    Sample.offices Sample.jo Sample.head_office
                    jo_is_stored eq_refl)
             clerk_may_write_hq).
  - apply (proj2 (employee_read_access Sample.outsider Sample.jo_id Sample.staff
                    Sample.offices Sample.jo Sample.head_office
                    jo_is_stored eq_refl)).
    + reflexivity.
    + discriminate.
Defined.

Lemma employee_of_deleted_office_witness :
  names Employee._id Sample.jo_id Sample.staff Sample.jo
  /\ unique_ids Office._id Sample.offices
  /\ canonical (Employee.officeId Sample.jo)
  /\ names Office._id (Employee.officeId Sample.jo) Sample.offices Sample.head_office
  /\ delete_office Sample.hq Sample.offices
     = (ok 200 EmptyObject, [Sample.branch_office])
  /\ get_employee Sample.root Sample.jo_id Sample.staff [Sample.branch_office]
     = ok 200 (Populated with_office_and_creator (OneEmployee Sample.jo))
  /\ get_employee Sample.clerk Sample.jo_id Sample.staff [Sample.branch_office]
     = server_error.
Proof.
  split; [exact jo_is_stored|]. split; [exact office_ids_unique|].
  split; [reflexivity|]. split; [exact head_office_is_stored|].
  split; [reflexivity|]. split.
  - destruct (employee_of_deleted_office Sample.root Sample.jo_id Sample.staff
                Sample.offices Sample.jo Sample.head_office
                jo_is_stored office_ids_unique eq_refl head_office_is_stored)
      as (_ & Hadmin & _).
    exact (Hadmin eq_refl).
  - destruct (employee_of_deleted_office Sample.clerk Sample.jo_id Sample.staff
                Sample.offices Sample.jo Sample.head_office
                jo_is_stored office_ids_unique eq_refl head_office_is_stored)
      as (_ & _ & Hmember).
    exact (Hmember eq_refl).
Defined.

Lemma office_read_access_witness :
  names Office._id Sample.hq Sample.offices Sample.head_office
  /\ get_office Sample.clerk Sample.hq Sample.offices
     = ok 200 (OneOffice Sample.head_office)
  /\ get_office Sample.outsider Sample.hq Sample.offices
     = failure 403 "Not authorized to access this office".
Proof.
  split; [exact head_office_is_stored|]. split.
  - exact (proj1 (office_read_access Sample.clerk Sample.hq Sample.offices
                    Sample.head_office head_office_is_stored)
             clerk_may_write_hq).
  - apply (proj2 (office_read_access Sample.outsider Sample.hq Sample.offices
                    Sample.head_office head_office_is_stored)).
    + reflexivity.
    + discriminate.
Defined.

Lemma office_list_is_scoped_witness :
  not_admin Sample.clerk = true
  /\ unique_ids Office._id Sample.offices
  /\ exists offices,
       get_offices Sample.clerk Sample.offices
       = inr (mkListing 200 true (Z.of_nat (List.length offices)) offices)
       /\ (forall o, In o offices <->
                     In o Sample.offices /\ Office._id o = Sample.hq)
       /\ (List.length offices <= 1)%nat.
Proof.
  split; [reflexivity|]. split; [exact office_ids_unique|].
  destruct (office_list_is_scoped Sample.clerk Sample.offices)
    as (offices & Hlist & _ & Hscope).
  destruct (Hscope eq_refl) as [Hin Hone].
  exists offices. split; [exact Hlist|]. split; [exact Hin|].
  exact (Hone office_ids_unique).
Defined.

Lemma unknown_id_is_not_found_witness :
  names_nothing Employee._id Sample.new_id Sample.staff
  /\ names_nothing Office._id Sample.new_id Sample.offices
  /\ get_employee Sample.clerk Sample.new_id Sample.staff Sample.offices
     = failure 404 "Employee not found"
  /\ put_freeze Sample.new_id Sample.staff
     = (failure 404 "Employee not found", Sample.staff)
  /\ delete_office Sample.new_id Sample.offices
     = (failure 404 "Office not found", Sample.offices).
Proof.
  split; [reflexivity|]. split; [reflexivity|].
  destruct (unknown_id_is_not_found Sample.clerk Sample.new_id Sample.staff
              Sample.offices Sample.rename Sample.blank_location)
    as [Hemployees Hoffices].
  destruct (Hemployees eq_refl) as (Hget & _ & _ & Hfreeze & _).
  destruct (Hoffices eq_refl) as (_ & _ & Hdelete).
  split; [exact Hget|]. split; [exact Hfreeze | exact Hdelete].
Defined.

Lemma freeze_then_write_is_refused_witness :
  names Employee._id Sample.jo_id Sample.staff Sample.jo
  /\ status (fst (put_freeze Sample.jo_id Sample.staff)) = 200
  /\ put_employee Sample.root Sample.jo_id Sample.rename
       (snd (put_freeze Sample.jo_id Sample.staff))
     = (failure 403 "This record is frozen and cannot be modified",
        snd (put_freeze Sample.jo_id Sample.staff))
  /\ delete_employee Sample.clerk Sample.jo_id
       (snd (put_freeze Sample.jo_id Sample.staff))
     = (failure 403 "This record is frozen and cannot be deleted",
        snd (put_freeze Sample.jo_id Sample.staff)).
Proof.
  split; [exact jo_is_stored|].
  destruct (freeze_then_write_is_refused Sample.jo_id Sample.staff Sample.jo
              jo_is_stored) as [Hstatus Hrefused].
  split; [exact Hstatus|]. split.
  - exact (proj1 (Hrefused Sample.root Sample.rename)).
  - exact (proj2 (Hrefused Sample.clerk Sample.rename)).
Defined.

Lemma freeze_unfreeze_round_trip_witness :
  names Employee._id Sample.jo_id Sample.staff Sample.jo
  /\ Employee.isFrozen Sample.jo = false
  /\ snd (put_freeze Sample.jo_id Sample.staff) <> Sample.staff
  /\ snd (put_unfreeze Sample.jo_id (snd (put_freeze Sample.jo_id Sample.staff)))
     = Sample.staff
  /\ names Employee._id Sample.ann_id Sample.staff Sample.ann
  /\ Employee.isFrozen Sample.ann = true
  /\ snd (put_freeze Sample.ann_id Sample.staff) = Sample.staff.
Proof.
  split; [exact jo_is_stored|]. split; [reflexivity|].
  split; [vm_compute; discriminate|]. split.
  - exact (proj1 (freeze_unfreeze_round_trip Sample.jo_id Sample.staff Sample.jo
                    jo_is_stored) eq_refl).
  - split; [exact ann_is_stored|]. split; [reflexivity|].
    exact (proj1 (proj2 (freeze_unfreeze_round_trip Sample.ann_id Sample.staff
                           Sample.ann ann_is_stored)) eq_refl).
Defined.

Lemma delete_then_read_witness :
  names Employee._id Sample.jo_id Sample.staff Sample.jo
  /\ unique_ids Employee._id Sample.staff
  /\ Employee.isFrozen Sample.jo = false
  /\ may_write Sample.clerk (Employee.officeId Sample.jo)
  /\ fst (delete_employee Sample.clerk Sample.jo_id Sample.staff)
     = ok 200 EmptyObject
  /\ names_nothing Employee._id Sample.jo_id
       (snd (delete_employee Sample.clerk Sample.jo_id Sample.staff))
  /\ names Employee._id Sample.ann_id
       (snd (delete_employee Sample.clerk Sample.jo_id Sample.staff)) Sample.ann.
Proof.
  split; [exact jo_is_stored|]. split; [exact staff_ids_unique|].
  split; [reflexivity|]. split; [exact clerk_may_write_hq|].
  destruct (delete_then_read Sample.clerk Sample.jo_id Sample.staff Sample.jo
              jo_is_stored staff_ids_unique eq_refl clerk_may_write_hq)
    as (Hanswer & Hgone & _ & _ & Hothers).
  split; [exact Hanswer|]. split; [exact Hgone|].
  apply Hothers; [exact ann_is_stored | discriminate].
Defined.

Lemma create_then_read_witness :
  status (fst (post_employee Sample.root Sample.single_request
                 (Sample.clock_at 5000) Sample.new_id Sample.staff)) = 201
  /\ canonical Sample.new_id
  /\ ~ In Sample.new_id (map Employee._id Sample.staff)
  /\ date_truthy (Employee.f_reportDate Sample.single_request) = false
  /\ exists e,
       post_employee Sample.root Sample.single_request (Sample.clock_at 5000)
         Sample.new_id Sample.staff
       = (ok 201 (OneEmployee e), (Sample.staff ++ [e])%list)
       /\ names Employee._id Sample.new_id (Sample.staff ++ [e])%list e
       /\ Employee.isFrozen e = false
       /\ Employee.reportDate e = 5000
       /\ Employee.createdAt e = Some 5002
       /\ Employee.updatedAt e = Some 5004
       /\ names Employee._id Sample.jo_id (Sample.staff ++ [e])%list Sample.jo.
Proof.
  assert (Hfresh : ~ In Sample.new_id (map Employee._id Sample.staff))
    by (cbn; intuition discriminate).
  assert (Hstatus : status (fst (post_employee Sample.root Sample.single_request
                                   (Sample.clock_at 5000) Sample.new_id
                                   Sample.staff)) = 201)
    by reflexivity.
  assert (Hstored : canonical Sample.new_id) by reflexivity.
  assert (Hnone : date_truthy (Employee.f_reportDate Sample.single_request) = false)
    by reflexivity.
  split; [exact Hstatus|]. split; [exact Hstored|]. split; [exact Hfresh|].
  split; [exact Hnone|].
  destruct (create_then_read Sample.root Sample.single_request
              (Sample.clock_at 5000) Sample.new_id Sample.staff
              (snd (post_employee Sample.root Sample.single_request
                      (Sample.clock_at 5000) Sample.new_id Sample.staff))
              (fst (post_employee Sample.root Sample.single_request
                      (Sample.clock_at 5000) Sample.new_id Sample.staff))
              (surjective_pairing _) Hstatus Hstored Hfresh)
    as (e & Hanswer & Hcoll & Hread & Hfrozen & _ & Hcreated & Hupdated & Hreport
        & Hothers & _).
  exists e. rewrite <- Hcoll.
  split; [rewrite <- Hanswer; apply surjective_pairing|].
  split; [exact Hread|]. split; [exact Hfrozen|].
  split; [exact (Hreport Hnone)|].
  split; [exact Hcreated|]. split; [exact Hupdated|].
  exact (Hothers Sample.jo_id Sample.jo jo_is_stored).
Defined.

Lemma failure_writes_nothing_witness :
  success (fst (put_employee Sample.clerk Sample.ann_id Sample.rename Sample.staff))
  = false
  /\ snd (put_employee Sample.clerk Sample.ann_id Sample.rename Sample.staff)
     = Sample.staff
  /\ success (fst (post_office Sample.root Sample.placeless_request 5000
                     Sample.new_office_id Sample.offices)) = false
  /\ snd (post_office Sample.root Sample.placeless_request 5000
            Sample.new_office_id Sample.offices) = Sample.offices.
Proof.
  destruct failure_writes_nothing as (_ & Hput & _ & _ & Hpost & _).
  assert (Hrefused : success (fst (put_employee Sample.clerk Sample.ann_id
                                     Sample.rename Sample.staff)) = false)
    by reflexivity.
  assert (Hrejected : success (fst (post_office Sample.root Sample.placeless_request
                                      5000 Sample.new_office_id Sample.offices))
                      = false)
    by reflexivity.
  split; [exact Hrefused|].
  split; [exact (Hput Sample.clerk Sample.ann_id Sample.rename Sample.staff Hrefused)|].
  split; [exact Hrejected|].
  exact (Hpost Sample.root Sample.placeless_request 5000 Sample.new_office_id
           Sample.offices Hrejected).
Defined.

Lemma writes_keep_ids_witness :
  unique_ids Employee._id Sample.staff
  /\ map Employee._id
       (snd (put_employee Sample.clerk Sample.jo_id Sample.rename Sample.staff))
     = map Employee._id Sample.staff
  /\ unique_ids Employee._id
       (snd (delete_employee Sample.clerk Sample.jo_id Sample.staff)).
Proof.
  split; [exact staff_ids_unique|].
  destruct (writes_keep_ids Sample.clerk Sample.jo_id Sample.rename true
              "Employee record has been frozen" Sample.staff)
    as (Hput & _ & _ & Hunique).
  split; [exact Hput|].
  exact (proj2 (proj2 (Hunique staff_ids_unique))).
Defined.

Lemma update_can_freeze_witness :
  names Employee._id Sample.jo_id Sample.staff Sample.jo
  /\ Employee.isFrozen Sample.jo = false
  /\ may_write Sample.clerk (Employee.officeId Sample.jo)
  /\ exists e' coll',
       put_employee Sample.clerk Sample.jo_id (flag_update true) Sample.staff
       = (ok 200 (OneEmployee e'), coll')
       /\ Employee.isFrozen e' = true
       /\ put_employee Sample.root Sample.jo_id Sample.rename coll'
          = (failure 403 "This record is frozen and cannot be modified", coll').
Proof.
  split; [exact jo_is_stored|]. split; [reflexivity|].
  split; [exact clerk_may_write_hq|].
  destruct (update_can_freeze Sample.clerk Sample.jo_id Sample.staff Sample.jo
              jo_is_stored eq_refl clerk_may_write_hq)
    as (e' & coll' & Hput & Hfrozen & _ & Hrefused).
  exists e', coll'. split; [exact Hput|]. split; [exact Hfrozen|].
  exact (Hrefused Sample.root Sample.rename).
Defined.

Lemma update_can_move_office_witness :
  names Employee._id Sample.jo_id Sample.staff Sample.jo
  /\ Employee.isFrozen Sample.jo = false
  /\ not_admin Sample.clerk = true
  /\ User.officeId Sample.clerk = Employee.officeId Sample.jo
  /\ castObjectId Sample.branch = Some Sample.branch
  /\ Sample.branch <> User.officeId Sample.clerk
  /\ exists e' coll',
       put_employee Sample.clerk Sample.jo_id Sample.move_to_branch Sample.staff
       = (ok 200 (OneEmployee e'), coll')
       /\ Employee.officeId e' = Sample.branch
       /\ put_employee Sample.clerk Sample.jo_id Sample.rename coll'
          = (failure 403 "Not authorized to update this employee", coll').
Proof.
  assert (Hother : Sample.branch <> User.officeId Sample.clerk) by discriminate.
  split; [exact jo_is_stored|]. split; [reflexivity|]. split; [reflexivity|].
  split; [reflexivity|]. split; [reflexivity|]. split; [exact Hother|].
  destruct (update_can_move_office Sample.clerk Sample.jo_id Sample.branch
              Sample.staff Sample.jo Sample.branch
              jo_is_stored eq_refl eq_refl eq_refl eq_refl Hother)
    as (e' & coll' & Hput & Hoffice & Hrefused).
  exists e', coll'. split; [exact Hput|]. split; [exact Hoffice|].
  exact (Hrefused Sample.rename).
Defined.


Lemma empty_update_is_identity_witness :
  names Employee._id Sample.jo_id Sample.staff Sample.jo
  /\ Employee.isFrozen Sample.jo = false
  /\ may_write Sample.clerk (Employee.officeId Sample.jo)
  /\ names Office._id Sample.hq Sample.offices Sample.head_office
  /\ put_employee Sample.clerk Sample.jo_id (Employee.Document []) Sample.staff
     = (ok 200 (OneEmployee Sample.jo), Sample.staff)
  /\ put_office Sample.hq (Office.Document []) Sample.offices
     = (ok 200 (OneOffice Sample.head_office), Sample.offices).
Proof.
  split; [exact jo_is_stored|]. split; [reflexivity|].
  split; [exact clerk_may_write_hq|]. split; [exact head_office_is_stored|].
  exact (empty_update_is_identity Sample.clerk Sample.jo_id Sample.staff Sample.jo
           Sample.hq Sample.offices Sample.head_office
           jo_is_stored eq_refl clerk_may_write_hq head_office_is_stored).
Defined.

Lemma employee_create_accepts_exactly_witness :
  castObjectId (User.id Sample.root) = Some (User.id Sample.root)
  /\ valid_time (Employee.route_now (Sample.clock_at 5000)) = true
  /\ not_admin Sample.root = false
  /\ (acceptable_name (Employee.f_name Sample.jo_request)
      /\ office_given Sample.jo_request
      /\ report_date_readable Sample.jo_request
      /\ counts_in_order Sample.jo_request)
  /\ status (fst (post_employee Sample.root Sample.invalid_request
                    (Sample.clock_at 5000) Sample.new_id Sample.staff)) = 400
  /\ snd (post_employee Sample.root Sample.invalid_request (Sample.clock_at 5000)
            Sample.new_id Sample.staff) = Sample.staff.
Proof.
  assert (Hcreator : castObjectId (User.id Sample.root) = Some (User.id Sample.root))
    by reflexivity.
  assert (Hnow : valid_time (Employee.route_now (Sample.clock_at 5000)) = true)
    by reflexivity.
  assert (Hadmin : not_admin Sample.root = false) by reflexivity.
  assert (Hcreated : status (fst (post_employee Sample.root Sample.jo_request
                                    (Sample.clock_at 5000) Sample.new_id
                                    Sample.staff)) = 201)
    by reflexivity.
  split; [exact Hcreator|]. split; [exact Hnow|]. split; [exact Hadmin|]. split.
  - exact (proj1 (proj1 (employee_create_accepts_exactly Sample.root
                           Sample.jo_request (Sample.clock_at 5000) Sample.new_id
                           (User.id Sample.root) Sample.staff
                           Hcreator Hnow (or_introl Hadmin)))
             Hcreated).
  - apply (proj2 (employee_create_accepts_exactly Sample.root
                    Sample.invalid_request (Sample.clock_at 5000) Sample.new_id
                    (User.id Sample.root) Sample.staff
                    Hcreator Hnow (or_introl Hadmin))).
    vm_compute. discriminate.
Defined.

Lemma office_create_accepts_exactly_witness :
  castObjectId (User.id Sample.root) = Some (User.id Sample.root)
  /\ (acceptable_name (Office.f_name Sample.office_request)
      /\ not_blank (Office.f_location Sample.office_request))
  /\ (exists name location,
        Office.f_name Sample.office_request = Some name
        /\ Office.f_location Sample.office_request = Some location
        /\ post_office Sample.root Sample.office_request 5000 Sample.new_office_id
             Sample.offices
           = (ok 201
                (OneOffice
                   (Office.mk Sample.new_office_id (JS.trim name) (JS.trim location)
                      (option_map JS.trim (Office.f_description Sample.office_request))
                      (User.id Sample.root) (Some 5000))),
              (Sample.offices
               ++ [Office.mk Sample.new_office_id (JS.trim name) (JS.trim location)
                     (option_map JS.trim
                        (Office.f_description Sample.office_request))
                     (User.id Sample.root) (Some 5000)])%list))
  /\ status (fst (post_office Sample.root Sample.placeless_request 5000
                    Sample.new_office_id Sample.offices)) = 400.
Proof.
  assert (Hcreator : castObjectId (User.id Sample.root) = Some (User.id Sample.root))
    by reflexivity.
  assert (Hcreated : status (fst (post_office Sample.root Sample.office_request 5000
                                    Sample.new_office_id Sample.offices)) = 201)
    by reflexivity.
  split; [exact Hcreator|].
  destruct (office_create_accepts_exactly Sample.root Sample.office_request 5000
              Sample.new_office_id (User.id Sample.root) Sample.offices Hcreator)
    as (Hiff & Hstored & _).
  split; [exact (proj1 Hiff Hcreated)|].
  split; [exact (Hstored Hcreated)|].
  apply (proj2 (proj2 (office_create_accepts_exactly Sample.root
                         Sample.placeless_request 5000 Sample.new_office_id
                         (User.id Sample.root) Sample.offices Hcreator))).
  vm_compute. discriminate.
Defined.

Lemma dashboard_rate_within_bounds_witness :
  counts_ordered Sample.staff
  /\ total Employee.coursesEnrolled (filter (visible Sample.clerk) Sample.staff)
     < 2 ^ 53
  /\ exists s n,
       get_dashboard Sample.clerk Sample.staff = ok 200 (Summary s)
       /\ totalCoursesEnrolled s = JS.of_int 9
       /\ totalCoursesCompleted s = JS.of_int 7
       /\ completionRate s = JS.fixed2 n
       /\ 0 <= n <= 10000
       /\ 0 <= registeredOnIGOT s <= totalEmployees s.
Proof.
  assert (Hbound : total Employee.coursesEnrolled
                     (filter (visible Sample.clerk) Sample.staff) < 2 ^ 53)
    by (vm_compute; reflexivity).
  split; [exact staff_counts_ordered|]. split; [exact Hbound|].
  destruct (dashboard_rate_within_bounds Sample.clerk Sample.staff
              staff_counts_ordered Hbound)
    as (s & n & Hget & Henrolled & Hcompleted & Htext & Hrange & _ & _
        & Hregistered & _).
  exists s, n. split; [exact Hget|]. split; [exact Henrolled|].
  split; [exact Hcompleted|]. split; [exact Htext|].
  split; [exact Hrange | exact Hregistered].
Defined.

Lemma report_with_unreadable_bound_fails_witness :
  Date_parse "soon" = None
  /\ get_report Sample.root (Some "2024-01-01") (Some "soon") Sample.staff
     = server_error.
Proof.
  assert (Hstart : "2024-01-01" <> "") by discriminate.
  assert (Hend : "soon" <> "") by discriminate.
  assert (Hbad : Date_parse "2024-01-01" = None \/ Date_parse "soon" = None)
    by (right; reflexivity).
  split; [reflexivity|].
  exact (report_with_unreadable_bound_fails Sample.root "2024-01-01" "soon"
           Sample.staff Hstart Hend Hbad).
Defined.

Lemma report_grows_with_range_witness :
  Date_parse "2024-01-10" = Some 1704844800000
  /\ Date_parse "2024-01-31" = Some 1706659200000
  /\ Date_parse "2024-01-01" = Some 1704067200000
  /\ Date_parse "2024-02-28" = Some 1709078400000
  /\ exists inner outer,
       get_report Sample.root (Some "2024-01-10") (Some "2024-01-31") Sample.staff
       = ok_count 200 (Z.of_nat (List.length inner))
           (Populated with_office_and_creator (Employees inner))
       /\ get_report Sample.root (Some "2024-01-01") (Some "2024-02-28") Sample.staff
          = ok_count 200 (Z.of_nat (List.length outer))
              (Populated with_office_and_creator (Employees outer))
       /\ incl inner outer
       /\ (List.length inner <= List.length outer)%nat.
Proof.
  assert (H1 : "2024-01-10" <> "") by discriminate.
  assert (H2 : "2024-01-31" <> "") by discriminate.
  assert (H3 : "2024-01-01" <> "") by discriminate.
  assert (H4 : "2024-02-28" <> "") by discriminate.
  assert (P1 : Date_parse "2024-01-10" = Some 1704844800000) by reflexivity.
  assert (P2 : Date_parse "2024-01-31" = Some 1706659200000) by reflexivity.
  assert (P3 : Date_parse "2024-01-01" = Some 1704067200000) by reflexivity.
  assert (P4 : Date_parse "2024-02-28" = Some 1709078400000) by reflexivity.
  assert (Hfrom : 1704067200000 <= 1704844800000) by lia.
  assert (Hto : 1706659200000 <= 1709078400000) by lia.
  split; [exact P1|]. split; [exact P2|]. split; [exact P3|]. split; [exact P4|].
  destruct (report_grows_with_range Sample.root
              "2024-01-10" "2024-01-31" "2024-01-01" "2024-02-28"
              1704844800000 1706659200000 1704067200000 1709078400000
              Sample.staff H1 H2 H3 H4 P1 P2 P3 P4 Hfrom Hto)
    as (inner & outer & Hinner & Houter & Hincl & Hlength & _).
  exists inner, outer. split; [exact Hinner|]. split; [exact Houter|].
  split; [exact Hincl | exact Hlength].
Defined.

Lemma names_stay_acceptable_witness :
  employees_named Sample.staff
  /\ offices_named Sample.offices
  /\ employees_named
       (snd (put_employee Sample.root Sample.jo_id Sample.rename Sample.staff))
  /\ offices_named
       (snd (post_office Sample.root Sample.office_request 5000
               Sample.new_office_id Sample.offices)).
Proof.
  split; [exact staff_named|]. split; [exact offices_are_named|].
  destruct (names_stay_acceptable Sample.root Sample.jo_id Sample.jo_request
              Sample.office_request [Employee.name_is "Joe"] []
              true "Employee record has been frozen"
              (Sample.clock_at 5000) 5000 Sample.new_office_id
              Sample.staff Sample.offices
              staff_named offices_are_named)
    as (_ & Hput & _ & _ & Hpost & _).
  split; [exact Hput | exact Hpost].
Defined.

End MoreExamples.
